(** * Clinic management system: a shallow embedding and its properties

    The development follows the Python sources file by file:

    - [Text]      the [str] methods the sources call ([strip], [lower],
                  [startswith]) and the two [os.path] functions of
                  [store_file];
    - [Neo4j]     clinic_system_mongodb_neo4j/clinic_v2_withoutgui.py
    - [Neo4jGui]  clinic_system_mongodb_neo4j/clinic_v2_enhanced.py
    - [MySQL]     clinic_system_mysql/clinic_v2_withoutGUI.py
    - [MySQLGui]  clinic_system_mysql/clinic_v2_enhanced_v2.py
    - [Mongo]     clinic_system_mongodb_neo4j/mongodb_messaging.py
    - [Neo4jQueries], [Neo4jFiles]   further methods of clinic_v2_withoutgui.py
    - [MySQLFiles]                   further methods of clinic_v2_withoutGUI.py
    - [QueryTab]                     [run_query] of the two GUI files
    - [MongoInbox], [MongoAccounts]  further methods of mongodb_messaging.py
    - [MongoSync]                    the user helpers of clinic_v2_enhanced.py

    A Python [str] is a [string] whose characters are the code points
    below 256; a Python [int] is a [Z]; [bytes] is a list of bytes.  The
    three backing stores are explicit states: every method of the sources
    becomes a function from the state before the call to an outcome and
    the state after it.  An outcome is a returned value or a raised
    exception. *)

From Stdlib Require Import ZArith List Ascii String Permutation Sorted Lia Bool.
From stdpp Require Import gmap strings list sorting pretty.

Open Scope Z_scope.

(* ===================================================================== *)
(** * Outcomes and the state-and-exception monad *)
(* ===================================================================== *)

(** The exceptions the modelled code can meet. *)
Inductive exn : Type :=
  | ValueError        (* raised by the sources themselves, and by pymongo *)
  | NameError         (* a local variable read before it is bound *)
  | StoreError        (* whatever the database driver raises *)
  | OSError.          (* [open] on a path that cannot be read *)

Inductive result (A : Type) : Type :=
  | Ok (a : A)
  | Raise (e : exn).
Arguments Ok {A} a.
Arguments Raise {A} e.

(** A method running against a store of type [S]. *)
Definition M (S A : Type) : Type := S -> result A * S.

Definition ret {S A} (a : A) : M S A := fun s => (Ok a, s).
Definition raise {S A} (e : exn) : M S A := fun s => (Raise e, s).
Definition bind {S A B} (c : M S A) (k : A -> M S B) : M S B :=
  fun s => match c s with
           | (Ok a, s') => k a s'
           | (Raise e, s') => (Raise e, s')
           end.
Definition get {S} : M S S := fun s => (Ok s, s).
Definition put {S} (s : S) : M S unit := fun _ => (Ok tt, s).

(** [try: c except Exception: h] *)
Definition try_except {S A} (c : M S A) (h : exn -> M S A) : M S A :=
  fun s => match c s with
           | (Ok a, s') => (Ok a, s')
           | (Raise e, s') => h e s'
           end.

Declare Scope py_scope.
Delimit Scope py_scope with py.
Notation "x <- c ;; k" := (bind c (fun x => k))
  (at level 100, c at next level, right associativity) : py_scope.
Notation "c ;; k" := (bind c (fun _ => k))
  (at level 100, right associativity) : py_scope.

(** The value a call returns, when it returns one. *)
Definition returned {A} (r : result A) : option A :=
  match r with Ok a => Some a | Raise _ => None end.

(* ===================================================================== *)
(** * Python string methods *)
(* ===================================================================== *)

Module Text.

Definition code (c : ascii) : N := N_of_ascii c.

Definition between (lo hi n : N) : bool := ((lo <=? n) && (n <=? hi))%N.

(** [str.isspace] on one character: TAB..CR, FS..US, space, NEL, NBSP. *)
Definition isspace (c : ascii) : bool :=
  between 9 13 (code c) || between 28 32 (code c)
  || (code c =? 133)%N || (code c =? 160)%N.

(** [\d] of the [re] module, and what [int()] reads, below code point 256. *)
Definition isdigit (c : ascii) : bool := between 48 57 (code c).

Definition digit_value (c : ascii) : Z := Z.of_N (code c) - 48.

(** [str.lower] on one character: A-Z and the accented capitals. *)
Definition lower_char (c : ascii) : ascii :=
  if between 65 90 (code c) || between 192 214 (code c)
     || between 216 222 (code c)
  then ascii_of_N (code c + 32)
  else c.

Fixpoint lower (s : string) : string :=
  match s with
  | EmptyString => EmptyString
  | String c s' => String (lower_char c) (lower s')
  end.

Fixpoint lstrip (s : string) : string :=
  match s with
  | EmptyString => EmptyString
  | String c s' => if isspace c then lstrip s' else s
  end.

Fixpoint rstrip (s : string) : string :=
  match s with
  | EmptyString => EmptyString
  | String c s' =>
      match rstrip s' with
      | EmptyString => if isspace c then EmptyString else String c EmptyString
      | r => String c r
      end
  end.

Definition strip (s : string) : string := rstrip (lstrip s).

(** [s.startswith(p)] *)
Definition startswith (s p : string) : bool := String.prefix p s.

(** Truth value of a string: [bool(s)]. *)
Definition truthy (s : string) : bool :=
  match s with EmptyString => false | _ => true end.

(** [s.rfind(c) + 1] as a suffix: the part of [s] after its last [c],
    or all of [s] when [c] does not occur. *)
Fixpoint after_last (c : ascii) (s : string) : string :=
  match s with
  | EmptyString => EmptyString
  | String d s' =>
      if existsb (Ascii.eqb c) (list_ascii_of_string s')
      then after_last c s'
      else if Ascii.eqb c d then s' else s
  end.

(** [posixpath.basename]: [i = p.rfind('/') + 1; return p[i:]]. *)
Definition basename (p : string) : string := after_last "/" p.

(** [posixpath.splitext(p)[1]] for a [p] without a slash: the suffix
    from the last dot on, unless only dots come before that dot. *)
Fixpoint ext_from (seen_name : bool) (s : string) : string :=
  match s with
  | EmptyString => EmptyString
  | String d s' =>
      if Ascii.eqb d "."
      then match ext_from seen_name s' with
           | EmptyString => if seen_name then s else EmptyString
           | e => e
           end
      else ext_from true s'
  end.

Definition splitext_ext (filename : string) : string := ext_from false filename.

End Text.


(* ===================================================================== *)
(** * Ordering used by the stores' ORDER BY and sort *)
(* ===================================================================== *)

(** [ORDER BY] and [sort] are the stores' own: they are modelled by a
    merge sort on the ordering of the sort key.  Which of two rows with
    equal keys comes first is the store's choice; no statement below
    depends on it. *)
Definition order_by {A} (leb : A -> A -> bool) (rows : list A) : list A :=
  merge_sort (fun a b => Is_true (leb a b)) rows.

(** Lexicographic order on (first name, last name): [ORDER BY fn, ln]. *)
Definition name_leb (a b : string * string) : bool :=
  if String.eqb (fst a) (fst b)
  then String.leb (snd a) (snd b)
  else String.leb (fst a) (fst b).

(** "Ordered by name (first name, then last name)", for rows of
    (id, first name, last name). *)
Definition by_name (a b : Z * string * string) : Prop :=
  Is_true (name_leb (snd (fst a), snd a) (snd (fst b), snd b)).

(* ===================================================================== *)
(** * clinic_v2_withoutgui.py : the Neo4j facade *)
(* ===================================================================== *)

Module Neo4j.

Record Doctor := mkDoctor {
  doctor_id : Z; doctor_first_name : string; doctor_last_name : string }.

Record Patient := mkPatient {
  patient_id : Z; patient_first_name : string; patient_last_name : string }.

Record Appointment := mkAppointment { appointment_id : Z; appointment_date : string }.

Record MedicalFile := mkMedicalFile {
  file_id : Z;
  filename : string;
  file_type : string;
  file_size : Z;
  file_data : list Byte.byte;
  upload_date : string;
  description : option string }.

(** The graph.  Nodes are kept per label in the order a [MATCH] visits
    them; a relationship is the pair of the [id] properties of its end
    nodes, which identify them because of the uniqueness constraints that
    [_ensure_constraints_and_counters] installs.  A Counter node is the
    map of its integer properties; [counters] are the Counter nodes whose
    name is 'global_ids'.  Integer properties are unbounded here: the
    range of the store's integers is not modelled. *)
Record Graph := mkGraph {
  counters : list (gmap string Z);
  doctors : list Doctor;
  patients : list Patient;
  appointments : list Appointment;
  files : list MedicalFile;
  HAS_DOCTOR : list (Z * Z);            (* Department.id, Doctor.id *)
  TREATS : list (Z * Z);                (* Doctor.id, Patient.id *)
  DOCTOR_HAS_APPOINTMENT : list (Z * Z);   (* Doctor.id, Appointment.id *)
  PATIENT_HAS_APPOINTMENT : list (Z * Z);  (* Patient.id, Appointment.id *)
  HAS_FILE : list (Z * Z) }.            (* Observation.id, MedicalFile.id *)

Definition with_counters (g : Graph) (cs : list (gmap string Z)) : Graph :=
  mkGraph cs (doctors g) (patients g) (appointments g) (files g)
          (HAS_DOCTOR g) (TREATS g) (DOCTOR_HAS_APPOINTMENT g)
          (PATIENT_HAS_APPOINTMENT g) (HAS_FILE g).

Definition with_patients (g : Graph) (ps : list Patient) : Graph :=
  mkGraph (counters g) (doctors g) ps (appointments g) (files g)
          (HAS_DOCTOR g) (TREATS g) (DOCTOR_HAS_APPOINTMENT g)
          (PATIENT_HAS_APPOINTMENT g) (HAS_FILE g).

Definition with_treats (g : Graph) (r : list (Z * Z)) : Graph :=
  mkGraph (counters g) (doctors g) (patients g) (appointments g) (files g)
          (HAS_DOCTOR g) r (DOCTOR_HAS_APPOINTMENT g)
          (PATIENT_HAS_APPOINTMENT g) (HAS_FILE g).

Definition with_appointment (g : Graph) (a : Appointment) (did pid : Z) : Graph :=
  mkGraph (counters g) (doctors g) (patients g) (appointments g ++ [a]) (files g)
          (HAS_DOCTOR g) (TREATS g)
          (DOCTOR_HAS_APPOINTMENT g ++ [(did, appointment_id a)])
          (PATIENT_HAS_APPOINTMENT g ++ [(pid, appointment_id a)]) (HAS_FILE g).

(** A database with nothing in it. *)
Definition empty_graph : Graph := mkGraph [] [] [] [] [] [] [] [] [] [].

(** The properties [ON CREATE SET] gives the Counter node. *)
Definition initial_counter : gmap string Z :=
  list_to_map
    [("clinic", 1); ("department", 1); ("doctor", 1); ("patient", 1);
     ("appointment", 1); ("observation", 1); ("diagnosis", 1);
     ("medicalfile", 1)]%string.

(** [MERGE (ctr:Counter {name: 'global_ids'}) ON CREATE SET ...]: the node
    is created, with every field at 1, only when none exists. *)
Definition _ensure_constraints_and_counters : M Graph unit :=
  fun g =>
    match counters g with
    | [] => (Ok tt, with_counters g [initial_counter])
    | _ :: _ => (Ok tt, g)
    end.

(** [coalesce(current, 1)] *)
Definition coalesce1 (current : option Z) : Z := default 1 current.

(** The one statement of [_next_id], on one matched Counter node:
    [WITH ctr, ctr.field AS current SET ctr.field = coalesce(current,1) + 1]. *)
Definition bump (field : string) (ctr : gmap string Z) : gmap string Z :=
  <[field := coalesce1 (ctr !! field) + 1]> ctr.

Definition _next_id (label : string) : M Graph Z :=
  fun g =>
    let field := Text.lower label in
    (* MATCH gives one row per Counter node; SET runs once per row *)
    let rows := map (fun ctr => (coalesce1 (ctr !! field), bump field ctr))
                    (counters g) in
    (* rec = ... .single();  return int(rec["id"]) if rec else 1 *)
    match rows with
    | (id, _) :: _ => (Ok id, with_counters g (map snd rows))
    | [] => (Ok 1, g)
    end.

(** The value the shared Counter record holds for a label, when the
    record exists and has the field. *)
Definition stored_value (g : Graph) (label : string) : option Z :=
  match counters g with
  | ctr :: _ => ctr !! Text.lower label
  | [] => None
  end.

(** [n] successive calls of [_next_id label], with the ids they return. *)
Fixpoint next_ids (label : string) (n : nat) : M Graph (list Z) :=
  match n with
  | O => ret []
  | S n' => (id <- _next_id label ;;
             ids <- next_ids label n' ;;
             ret (id :: ids))%py
  end.

(** What iterating a result gives once the [with] block of its session has
    been left.  The driver decides, and its releases differ: the records
    are still there, or they were discarded when the session closed, or
    the iteration raises. *)
Inductive closed_result : Type := Buffered | Discarded | Consumed.

Definition iterate_closed {A} (drv : closed_result) (records : list A)
  : result (list A) :=
  match drv with
  | Buffered => Ok records
  | Discarded => Ok []
  | Consumed => Raise StoreError
  end.

(** [ORDER BY mf.upload_date DESC] *)
Definition upload_date_desc (a b : MedicalFile) : bool :=
  String.leb (upload_date b) (upload_date a).

Definition linked_files (g : Graph) (observation_id : Z) : list MedicalFile :=
  filter (fun mf => bool_decide ((observation_id, file_id mf) ∈ HAS_FILE g))
         (files g).

(** The dictionary [get_files_by_observation] builds from a node. *)
Record FileInfo := mkFileInfo {
  info_file_id : Z;
  info_filename : string;
  info_file_type : string;
  info_file_size : Z;
  info_upload_date : string;
  info_description : option string }.

Definition file_info (mf : MedicalFile) : FileInfo :=
  mkFileInfo (file_id mf) (filename mf) (file_type mf) (file_size mf)
             (upload_date mf) (description mf).

(** [for r in res: mf = r["mf"]] leaves in [mf] the last record, and leaves
    it unbound when there was none. *)
Definition loop_variable {A} (records : list A) : option A := last records.

(** The body of the [try] block: the loop only rebinds [mf]; the single
    [files.append] comes after it and reads [mf]. *)
Definition get_files_by_observation_body (drv : closed_result)
    (observation_id : Z) : M Graph (list FileInfo) :=
  fun g =>
    let res := order_by upload_date_desc (linked_files g observation_id) in
    match iterate_closed drv res with
    | Raise e => (Raise e, g)
    | Ok records =>
        match loop_variable records with
        | None => (Raise NameError, g)
        | Some mf => (Ok [file_info mf], g)
        end
    end.

Definition get_files_by_observation (drv : closed_result)
    (observation_id : Z) : M Graph (list FileInfo) :=
  try_except (get_files_by_observation_body drv observation_id)
             (fun _ => ret []).

(** [MATCH (:Department {id:$id})-[:HAS_DOCTOR]->(doc:Doctor)
     RETURN doc.id AS id, doc.first_name AS fn, doc.last_name AS ln
     ORDER BY fn, ln] *)
Definition doctor_name (r : Z * string * string) : string * string :=
  (snd (fst r), snd r).

Definition get_doctors_by_department (department_id : Z)
  : M Graph (list (Z * string * string)) :=
  fun g =>
    let matched :=
      filter (fun doc => bool_decide ((department_id, doctor_id doc) ∈ HAS_DOCTOR g))
             (doctors g) in
    let rows :=
      map (fun doc => (doctor_id doc, doctor_first_name doc, doctor_last_name doc))
          matched in
    (Ok (order_by (fun a b => name_leb (doctor_name a) (doctor_name b)) rows), g).

(** [MATCH (p:Patient {first_name:$fn, last_name:$ln}) ... .single()] *)
Definition get_patient_by_name (first_name last_name : string)
  : M Graph (option (Z * string * string)) :=
  fun g =>
    match filter (fun p => String.eqb (patient_first_name p) first_name
                           && String.eqb (patient_last_name p) last_name)
                 (patients g) with
    | [] => (Ok None, g)
    | p :: _ => (Ok (Some (patient_id p, patient_first_name p, patient_last_name p)), g)
    end.

Definition has_doctor_node (g : Graph) (did : Z) : bool :=
  existsb (fun d => doctor_id d =? did) (doctors g).
Definition has_patient_node (g : Graph) (pid : Z) : bool :=
  existsb (fun p => patient_id p =? pid) (patients g).
Definition has_appointment_node (g : Graph) (aid : Z) : bool :=
  existsb (fun a => appointment_id a =? aid) (appointments g).

(** [CREATE (:Patient {id:$id, ...})]: refused by the uniqueness
    constraint when a Patient with this id exists. *)
Definition run_create_patient (p : Patient) : M Graph unit :=
  fun g =>
    if has_patient_node g (patient_id p)
    then (Raise StoreError, g)
    else (Ok tt, with_patients g (patients g ++ [p])).

(** [MATCH (doc:Doctor {id:$did}), (p:Patient {id:$pid})
     MERGE (doc)-[:TREATS]->(p)] *)
Definition run_merge_treats (did pid : Z) : M Graph unit :=
  fun g =>
    if has_doctor_node g did && has_patient_node g pid
       && negb (bool_decide ((did, pid) ∈ TREATS g))
    then (Ok tt, with_treats g (TREATS g ++ [(did, pid)]))
    else (Ok tt, g).

Definition create_patient (first_name last_name : string)
    (doctor_id : option Z) : M Graph Z :=
  (pid <- _next_id "Patient" ;;
   run_create_patient (mkPatient pid first_name last_name) ;;
   match doctor_id with
   | Some did => run_merge_treats did pid
   | None => ret tt
   end ;;
   ret pid)%py.

(** [MATCH (doc:Doctor {id:$did}), (p:Patient {id:$pid})
     CREATE (a:Appointment {id:$aid, date:$date})
     MERGE (doc)-[:HAS_APPOINTMENT]->(a) MERGE (p)-[:HAS_APPOINTMENT]->(a)]:
    nothing is created when one of the two nodes is missing. *)
Definition run_create_appointment (did pid aid : Z) (date : string)
  : M Graph unit :=
  fun g =>
    if has_doctor_node g did && has_patient_node g pid
    then if has_appointment_node g aid
         then (Raise StoreError, g)
         else (Ok tt, with_appointment g (mkAppointment aid date) did pid)
    else (Ok tt, g).

Definition create_appointment (doctor_id : Z) (date_str : string)
    (patient_id : Z) : M Graph Z :=
  (aid <- _next_id "Appointment" ;;
   run_create_appointment doctor_id patient_id aid date_str ;;
   ret aid)%py.

(** Two files linked to observation 7, the second uploaded a day later. *)
Definition two_files_graph : Graph :=
  mkGraph [initial_counter] [] [] []
    [mkMedicalFile 1 "xray.jpg"%string "image/jpeg"%string 3 [] "2024-01-01T10:00:00"%string None;
     mkMedicalFile 2 "scan.pdf"%string "application/pdf"%string 5 [] "2024-01-02T10:00:00"%string None]
    [] [] [] [] [(7, 1); (7, 2)].

(** A small database: one doctor, the two patients of the sample data,
    and the Counter record as it stands after these were created. *)
Definition small_graph : Graph :=
  mkGraph [<["doctor"%string := 2]> (<["patient"%string := 3]> initial_counter)]
          [mkDoctor 1 "Anna" "Johnson"]
          [mkPatient 1 "Lars" "Nilsson"; mkPatient 2 "Maria" "Garcia"]
          [] [] [(1, 1)] [(1, 1); (1, 2)] [] [] [].

End Neo4j.

(* ===================================================================== *)
(** * The utility functions the two GUI files share *)
(* ===================================================================== *)

(** [validate_date_yyyy_mm_dd] is the same text in clinic_v2_enhanced.py
    and clinic_v2_enhanced_v2.py. *)
Module DateValidation.

Local Open Scope string_scope.

(** [\d{n}] at the head of [s]: the rest of [s] when it matches. *)
Fixpoint re_digits (n : nat) (s : string) : option string :=
  match n, s with
  | O, _ => Some s
  | S n', String c s' => if Text.isdigit c then re_digits n' s' else None
  | S _, EmptyString => None
  end.

Definition re_literal (c : ascii) (s : string) : option string :=
  match s with
  | String d s' => if Ascii.eqb c d then Some s' else None
  | EmptyString => None
  end.

(** [$] without MULTILINE: at the end of the string, or just before a
    newline that is its last character. *)
Definition re_end (s : string) : bool :=
  match s with
  | EmptyString => true
  | String c EmptyString => Ascii.eqb c "010"
  | _ => false
  end.

(** [re.match(r"^\d{4}-\d{2}-\d{2}$", date_str)] as a truth value. *)
Definition re_match_date (date_str : string) : bool :=
  match (s1 ← re_digits 4 date_str;
         s2 ← re_literal "-" s1;
         s3 ← re_digits 2 s2;
         s4 ← re_literal "-" s3;
         re_digits 2 s4) with
  | Some rest => re_end rest
  | None => false
  end.

Definition in_range (lo hi : ascii) (c : ascii) : bool :=
  Text.between (Text.code lo) (Text.code hi) (Text.code c).

(** The directives of [strptime]: each reads its field at the head of the
    string and gives the value with the rest.
    [%Y] is [\d\d\d\d]. *)
Definition directive_Y (s : string) : option (Z * string) :=
  match s with
  | String a (String b (String c (String d rest))) =>
      if Text.isdigit a && Text.isdigit b && Text.isdigit c && Text.isdigit d
      then Some (1000 * Text.digit_value a + 100 * Text.digit_value b
                 + 10 * Text.digit_value c + Text.digit_value d, rest)
      else None
  | _ => None
  end.

(** [%m] is [1[0-2]|0[1-9]|[1-9]]. *)
Definition directive_m (s : string) : option (Z * string) :=
  match s with
  | String a rest1 =>
      match rest1 with
      | String b rest2 =>
          if Ascii.eqb a "1" && in_range "0" "2" b
          then Some (10 + Text.digit_value b, rest2)
          else if Ascii.eqb a "0" && in_range "1" "9" b
          then Some (Text.digit_value b, rest2)
          else if in_range "1" "9" a then Some (Text.digit_value a, rest1)
          else None
      | EmptyString =>
          if in_range "1" "9" a then Some (Text.digit_value a, rest1) else None
      end
  | EmptyString => None
  end.

(** [%d] is [3[01]|[12]\d|0[1-9]|[1-9]| [1-9]]. *)
Definition directive_d (s : string) : option (Z * string) :=
  match s with
  | String a rest1 =>
      match rest1 with
      | String b rest2 =>
          if Ascii.eqb a "3" && in_range "0" "1" b
          then Some (30 + Text.digit_value b, rest2)
          else if in_range "1" "2" a && Text.isdigit b
          then Some (10 * Text.digit_value a + Text.digit_value b, rest2)
          else if Ascii.eqb a "0" && in_range "1" "9" b
          then Some (Text.digit_value b, rest2)
          else if in_range "1" "9" a then Some (Text.digit_value a, rest1)
          else if Ascii.eqb a " " && in_range "1" "9" b
          then Some (Text.digit_value b, rest2)
          else None
      | EmptyString =>
          if in_range "1" "9" a then Some (Text.digit_value a, rest1) else None
      end
  | EmptyString => None
  end.

Definition is_leap (year : Z) : bool :=
  ((year mod 4 =? 0) && (negb (year mod 100 =? 0) || (year mod 400 =? 0)))%Z.

Definition days_in_month (year month : Z) : Z :=
  (if month =? 2 then (if is_leap year then 29 else 28)
   else if (month =? 4) || (month =? 6) || (month =? 9) || (month =? 11)
   then 30 else 31)%Z.

(** The check the [date] constructor makes on what [strptime] has read. *)
Definition valid_ymd (year month day : Z) : bool :=
  ((1 <=? year) && (year <=? 9999) && (1 <=? month) && (month <=? 12)
   && (1 <=? day) && (day <=? days_in_month year month))%Z.

(** [datetime.datetime.strptime(date_str, "%Y-%m-%d")]: [None] stands for
    the ValueError it raises when the format does not match, when text is
    left over, or when the fields are not a date of the calendar. *)
Definition strptime_Y_m_d (date_str : string) : option (Z * Z * Z) :=
  '(y, s1) ← directive_Y date_str;
  s2 ← re_literal "-" s1;
  '(m, s3) ← directive_m s2;
  s4 ← re_literal "-" s3;
  '(d, s5) ← directive_d s4;
  match s5 with
  | EmptyString => if valid_ymd y m d then Some (y, m, d) else None
  | _ => None
  end.

Definition validate_date_yyyy_mm_dd (date_str : string) : bool :=
  if negb (re_match_date date_str) then false
  else match strptime_Y_m_d date_str with
       | Some _ => true
       | None => false
       end.

(** The pattern [^\d{4}-\d{2}-\d{2}$] as the specification reads it: four
    digits, a dash, two digits, a dash, two digits, and nothing else. *)
Definition date_shape (s : string) : Prop :=
  exists y1 y2 y3 y4 m1 m2 d1 d2 : ascii,
    Forall (fun c => Text.isdigit c = true) [y1; y2; y3; y4; m1; m2; d1; d2]
    /\ s = string_of_list_ascii [y1; y2; y3; y4; "-"; m1; m2; "-"; d1; d2]%char.

End DateValidation.

(** The booking tab of [PatientWindow], in both GUI files: the widgets
    [book_appointment] reads, and the dialog it ends with. *)
Record BookingForm := mkBookingForm {
  fname_entry : string;
  lname_entry : string;
  doctor_combo : string;
  date_entry : string;
  _doctor_map : gmap string Z }.

Inductive Dialog : Type :=
  | InputError (message : string)
  | Success
  | DatabaseError.

(** [not doctor_id] for what [dict.get] gave. *)
Definition no_doctor (doctor_id : option Z) : bool :=
  match doctor_id with
  | None => true
  | Some i => i =? 0
  end.

(** [q.lower().startswith(keyword)] for the stripped query [q]. *)
Definition leading_keyword (keyword query : string) : bool :=
  Text.startswith (Text.lower (Text.strip query)) keyword.

(** The same as the specification words it: the stripped query begins
    with the keyword, letters compared without regard to case. *)
Definition same_letter (k c : ascii) : bool :=
  Ascii.eqb c k || (Text.code c + 32 =? Text.code k)%N.

Fixpoint begins_ignoring_case (keyword q : string) : bool :=
  match keyword, q with
  | EmptyString, _ => true
  | String k keyword', String c q' =>
      same_letter k c && begins_ignoring_case keyword' q'
  | String _ _, EmptyString => false
  end.

(** The 256 characters, and the words written in the letters a-z. *)
Definition all_ascii : list ascii := map ascii_of_nat (seq 0 256).

Definition lowercase_word (w : string) : Prop :=
  Forall (fun k => Text.between 97 122 (Text.code k) = true)
         (list_ascii_of_string w).

(* ===================================================================== *)
(** * clinic_v2_enhanced.py : the GUI over Neo4j *)
(* ===================================================================== *)

Module Neo4jGui.

Import Neo4j.
Local Open Scope string_scope.

(** A record of a result: its keys with their values. *)
Definition Record_ (V : Type) : Type := list (string * V).

Definition record_get {V} (rec : Record_ V) (k : string) : option V :=
  snd <$> find (fun kv => String.eqb (fst kv) k) rec.

Section SafeSelect.

Context {V : Type}.

(** [session.run(q)] for a query text the user typed.  What the store
    does with it is the store's: [None] is any error the driver raises. *)
Variable session_run : string -> Graph -> option (list (Record_ V)) * Graph.

Definition run_query (q : string) : M Graph (list (Record_ V)) :=
  fun g => match session_run q g with
           | (Some records, g') => (Ok records, g')
           | (None, g') => (Raise StoreError, g')
           end.

Definition safe_select (query : string)
  : M Graph (list string * list (list (option V))) :=
  let q := Text.strip query in
  if negb (Text.startswith (Text.lower q) "match"
           || Text.startswith (Text.lower q) "return")
  then raise ValueError
  else
    (records <- run_query q ;;
     let colnames := match records with
                     | rec :: _ => map fst rec
                     | [] => []
                     end in
     let rows := map (fun rec => map (record_get rec) colnames) records in
     ret (colnames, rows))%py.

End SafeSelect.

Definition book_appointment (form : BookingForm) : M Graph Dialog :=
  let fname := Text.strip (fname_entry form) in
  let lname := Text.strip (lname_entry form) in
  let doctor_label := doctor_combo form in
  let date := Text.strip (date_entry form) in
  if negb (Text.truthy fname && Text.truthy lname
           && Text.truthy doctor_label && Text.truthy date)
  then ret (InputError "Please fill in all required fields.")
  else if negb (DateValidation.validate_date_yyyy_mm_dd date)
  then ret (InputError "Date must be in YYYY-MM-DD format")
  else
    try_except
      (let doctor_id := _doctor_map form !! doctor_label in
       if no_doctor doctor_id
       then ret (InputError "Please select a valid doctor.")
       else
         let doctor_id := default 0 doctor_id in
         (found <- get_patient_by_name fname lname ;;
          patient_id <- match found with
                        | Some (pid, _, _) => ret pid
                        | None => create_patient fname lname (Some doctor_id)
                        end ;;
          create_appointment doctor_id date patient_id ;;
          ret Success)%py)
      (fun _ => ret DatabaseError).

End Neo4jGui.

(* ===================================================================== *)
(** * clinic_v2_withoutGUI.py : the MySQL facade *)
(* ===================================================================== *)

Module MySQL.

Record DoctorRow := mkDoctorRow {
  doctor_id : Z;
  doctor_first_name : string;
  doctor_last_name : string;
  doctor_department_id : Z }.

Record PatientRow := mkPatientRow {
  patient_id : Z;
  patient_first_name : string;
  patient_last_name : string;
  patient_doctor_id : Z }.

Record AppointmentRow := mkAppointmentRow {
  appointment_id : Z;
  appointment_doctor_id : Z;
  appointment_date : string;
  appointment_patient_id : Z }.

Record FileRow := mkFileRow {
  file_id : Z;
  filename : string;
  file_type : string;
  file_size : Z;
  file_data : list Byte.byte;
  upload_date : Z;
  observation_id : option Z;
  description : option string }.

(** Every statement handed to [db.cursor.execute] and every
    [db.connection.commit()]. *)
Inductive Statement : Type :=
  | SELECT_doctor_WHERE_department (department_id : Z)
  | SELECT_patient_WHERE_name (first_name last_name : string)
  | INSERT_patient (first_name last_name : string) (doctor_id : Z)
  | INSERT_appointment (doctor_id : Z) (date : string) (patient_id : Z)
  | INSERT_medical_files (filename : string) (observation_id : option Z)
  | SELECT_medical_files_WHERE_file_id (file_id : Z)
  | QUERY (text : string)
  | COMMIT.

(** The database behind the connection: each table as its rows in the
    order a scan of the table returns them, the AUTO_INCREMENT counters,
    the keys of the observation table (for the foreign key of
    medical_files), the server's clock, and the statements issued so far,
    oldest first. *)
Record Db := mkDb {
  doctor : list DoctorRow;
  patient : list PatientRow;
  patient_AUTO_INCREMENT : Z;
  appointment : list AppointmentRow;
  appointment_AUTO_INCREMENT : Z;
  medical_files : list FileRow;
  medical_files_AUTO_INCREMENT : Z;
  observation : list Z;
  CURRENT_TIMESTAMP : Z;
  issued : list Statement }.

Definition log (st : Statement) : M Db unit :=
  fun db =>
    (Ok tt,
     mkDb (doctor db) (patient db) (patient_AUTO_INCREMENT db)
          (appointment db) (appointment_AUTO_INCREMENT db)
          (medical_files db) (medical_files_AUTO_INCREMENT db)
          (observation db) (CURRENT_TIMESTAMP db) (issued db ++ [st])).

Definition commit : M Db unit := log COMMIT.

Definition add_file (row : FileRow) : M Db unit :=
  fun db =>
    (Ok tt,
     mkDb (doctor db) (patient db) (patient_AUTO_INCREMENT db)
          (appointment db) (appointment_AUTO_INCREMENT db)
          (medical_files db ++ [row]) (file_id row + 1)
          (observation db) (CURRENT_TIMESTAMP db) (issued db)).

(** [INSERT INTO medical_files (filename, file_type, file_size, file_data,
    observation_id, description) VALUES (...)]: the row takes the next
    AUTO_INCREMENT key and the server's time; the insert is refused when
    the observation does not exist or the key is taken.  The value is
    [cursor.lastrowid]. *)
Definition execute_insert_medical_files (filename file_type : string)
    (file_size : Z) (file_data : list Byte.byte) (observation_id : option Z)
    (description : option string) : M Db Z :=
  (log (INSERT_medical_files filename observation_id) ;;
   db <- get ;;
   let key := medical_files_AUTO_INCREMENT db in
   let fk_ok := match observation_id with
                | None => true
                | Some o => existsb (Z.eqb o) (observation db)
                end in
   if negb fk_ok || existsb (fun r => file_id r =? key) (medical_files db)
   then raise StoreError
   else
     add_file (mkFileRow key filename file_type file_size file_data
                         (CURRENT_TIMESTAMP db) observation_id description) ;;
     ret key)%py.

(** [SELECT ... FROM medical_files WHERE file_id = %s] and [fetchone()]. *)
Definition execute_select_medical_file (file_id_ : Z) : M Db (option FileRow) :=
  (log (SELECT_medical_files_WHERE_file_id file_id_) ;;
   db <- get ;;
   ret (head (filter (fun r => file_id r =? file_id_) (medical_files db))))%py.

(** What [store_file] takes from outside the database: the files that can
    be read, with their bytes, and the table of [mimetypes.guess_type]. *)
Record Env := mkEnv {
  read_file : string -> option (list Byte.byte);
  guess_type : string -> option string }.

(** [with open(file_path, 'rb') as file: file_data = file.read()] *)
Definition open_rb (env : Env) (file_path : string) : M Db (list Byte.byte) :=
  match read_file env file_path with
  | Some data => ret data
  | None => raise OSError
  end.

Definition store_file (env : Env) (file_path : string)
    (observation_id : option Z) (description : option string)
  : M Db (option Z) :=
  try_except
    (file_data <- open_rb env file_path ;;
     let filename := Text.basename file_path in
     let file_size := Z.of_nat (length file_data) in
     let file_type :=
       match guess_type env file_path with
       | Some t => if Text.truthy t then t
                   else Text.lower (Text.splitext_ext filename)
       | None => Text.lower (Text.splitext_ext filename)
       end in
     lastrowid <- execute_insert_medical_files filename file_type file_size
                    file_data observation_id description ;;
     commit ;;
     let file_id := lastrowid in
     ret (Some file_id))%py
    (fun _ => ret None).

(** The dictionary [retrieve_file] returns carries every column of the
    row, so the row stands for it. *)
Definition retrieve_file (file_id_ : Z) : M Db (option FileRow) :=
  try_except
    (result <- execute_select_medical_file file_id_ ;;
     match result with
     | Some row => ret (Some row)
     | None => ret None
     end)%py
    (fun _ => ret None).

(** A file system with one readable file, and the MIME table entry for
    its name. *)
Definition one_file_env : Env :=
  mkEnv (fun path => if String.eqb path "/home/user/images/xray.jpg"
                     then Some [Byte.xff; Byte.xd8; Byte.xff] else None)
        (fun path => if String.eqb path "/home/user/images/xray.jpg"
                     then Some "image/jpeg"%string else None).

End MySQL.

(* ===================================================================== *)
(** * clinic_v2_enhanced_v2.py : the GUI over MySQL *)
(* ===================================================================== *)

Module MySQLGui.

Import MySQL.
Local Open Scope string_scope.

Section SafeSelect.

Context {Row Param : Type}.

(** [db.cursor.execute(query, params)] followed by [fetchall()] and
    [cursor.description], for a query text the user typed.  What the
    server does with it is the server's: [None] is any error the driver
    raises. *)
Variable cursor_execute :
  string -> list Param -> Db -> option (option (list string) * list Row) * Db.

Definition execute_query (query : string) (params : list Param)
  : M Db (option (list string) * list Row) :=
  (log (QUERY query) ;;
   fun db => match cursor_execute query params db with
             | (Some answer, db') => (Ok answer, db')
             | (None, db') => (Raise StoreError, db')
             end)%py.

Definition safe_select (query : string) (params : list Param)
  : M Db (list string * list Row) :=
  let q := Text.strip query in
  if negb (Text.startswith (Text.lower q) "select")
  then raise ValueError
  else
    (answer <- execute_query query params ;;
     let rows := snd answer in
     let colnames := match fst answer with   (* cursor.description *)
                     | Some desc => desc
                     | None => []
                     end in
     ret (colnames, rows))%py.

End SafeSelect.

(** [SELECT doctor_id, first_name, last_name FROM doctor
     WHERE department_id=%s] and [fetchall()]: there is no ORDER BY, the
    rows come in the order of the scan. *)
Definition execute_select_doctors (dept_id : Z)
  : M Db (list (Z * string * string)) :=
  (log (SELECT_doctor_WHERE_department dept_id) ;;
   db <- get ;;
   ret (map (fun d => (doctor_id d, doctor_first_name d, doctor_last_name d))
            (filter (fun d => doctor_department_id d =? dept_id)%Z (doctor db))))%py.

(** The doctor combobox and the dictionary behind it. *)
Record DoctorCombo := mkDoctorCombo {
  combo_values : list string;
  combo_doctor_map : gmap string Z }.

Definition doctor_label (r : Z * string * string) : string :=
  "Dr. " ++ snd (fst r) ++ " " ++ snd r.

(** The loop of [on_dept_selected]: [self._doctor_map[label] = r[0]] and
    [names.append(label)] for each row in turn. *)
Definition fill_combo (rows : list (Z * string * string)) : DoctorCombo :=
  fold_left
    (fun acc r =>
       mkDoctorCombo (combo_values acc ++ [doctor_label r])
                     (<[doctor_label r := fst (fst r)]> (combo_doctor_map acc)))
    rows (mkDoctorCombo [] ∅).

(** [on_dept_selected]: [dept_name] is the text of the department
    combobox, [before] the doctor combobox as it stands.  [None] is the
    error dialog. *)
Definition on_dept_selected (_dept_map : gmap string Z) (dept_name : string)
    (before : DoctorCombo) : M Db (option DoctorCombo) :=
  let dept_id := _dept_map !! dept_name in
  if no_doctor dept_id     (* [not dept_id] *)
  then ret (Some (mkDoctorCombo [] (combo_doctor_map before)))
  else
    try_except
      (rows <- execute_select_doctors (default 0%Z dept_id) ;;
       ret (Some (fill_combo rows)))%py
      (fun _ => ret None).

Section Booking.

(** Equality of two VARCHAR values under the collation of the column:
    what [=] means in [WHERE first_name=%s AND last_name=%s]. *)
Variable varchar_eqb : string -> string -> bool.

(** [SELECT patient_id FROM patient WHERE first_name=%s AND last_name=%s]:
    the rows of the answer, which wait on the cursor to be fetched. *)
Definition execute_select_patient (fname lname : string) : M Db (list Z) :=
  (log (SELECT_patient_WHERE_name fname lname) ;;
   db <- get ;;
   ret (map patient_id
            (filter (fun p => varchar_eqb (patient_first_name p) fname
                              && varchar_eqb (patient_last_name p) lname)
                    (patient db))))%py.

(** [cursor.fetchone()]: the first row of the answer, if there is one,
    and the rows it leaves unread.  The cursor of [connection.cursor()]
    is not buffered, so these stay on the connection. *)
Definition fetchone {A} (answer : list A) : option A * list A :=
  (head answer, tail answer).

(** What [cursor.execute] does before it sends its statement: with rows
    of the previous answer still unread it raises InternalError ("Unread
    result found") and sends nothing.  A method is taken to start with
    nothing unread on the cursor; what a cursor that a method leaves in
    this state does to later methods is not modelled. *)
Definition handle_unread_result {A} (unread : list A) : M Db unit :=
  match unread with
  | [] => ret tt
  | _ :: _ => raise StoreError
  end.

Definition has_doctor (db : Db) (did : Z) : bool :=
  existsb (fun d => doctor_id d =? did)%Z (doctor db).
Definition has_patient (db : Db) (pid : Z) : bool :=
  existsb (fun p => patient_id p =? pid)%Z (patient db).
Definition has_appointment (db : Db) (aid : Z) : bool :=
  existsb (fun a => appointment_id a =? aid)%Z (appointment db).

Definition add_patient (row : PatientRow) : M Db unit :=
  fun db =>
    (Ok tt,
     mkDb (doctor db) (patient db ++ [row]) (patient_id row + 1)
          (appointment db) (appointment_AUTO_INCREMENT db)
          (medical_files db) (medical_files_AUTO_INCREMENT db)
          (observation db) (CURRENT_TIMESTAMP db) (issued db)).

Definition add_appointment (row : AppointmentRow) : M Db unit :=
  fun db =>
    (Ok tt,
     mkDb (doctor db) (patient db) (patient_AUTO_INCREMENT db)
          (appointment db ++ [row]) (appointment_id row + 1)
          (medical_files db) (medical_files_AUTO_INCREMENT db)
          (observation db) (CURRENT_TIMESTAMP db) (issued db)).

(** [INSERT INTO patient (first_name, last_name, doctor_id) VALUES
    (%s,%s,%s)]: refused when the doctor does not exist (fk_doctor_patient)
    or the key is taken.  The value is [cursor.lastrowid]. *)
Definition execute_insert_patient (fname lname : string) (doctor_id : Z)
  : M Db Z :=
  (log (INSERT_patient fname lname doctor_id) ;;
   db <- get ;;
   let key := patient_AUTO_INCREMENT db in
   if negb (has_doctor db doctor_id) || has_patient db key
   then raise StoreError
   else add_patient (mkPatientRow key fname lname doctor_id) ;; ret key)%py.

(** [INSERT INTO appointment (doctor_id, date, patient_id) VALUES
    (%s,%s,%s)]: refused when the doctor or the patient does not exist
    (fk_doctor, fk_patient) or the key is taken. *)
Definition execute_insert_appointment (doctor_id : Z) (date : string)
    (patient_id : Z) : M Db Z :=
  (log (INSERT_appointment doctor_id date patient_id) ;;
   db <- get ;;
   let key := appointment_AUTO_INCREMENT db in
   if negb (has_doctor db doctor_id) || negb (has_patient db patient_id)
      || has_appointment db key
   then raise StoreError
   else add_appointment (mkAppointmentRow key doctor_id date patient_id) ;;
        ret key)%py.

Definition book_appointment (form : BookingForm) : M Db Dialog :=
  let fname := Text.strip (fname_entry form) in
  let lname := Text.strip (lname_entry form) in
  let doctor_label := doctor_combo form in
  let date := Text.strip (date_entry form) in
  if negb (Text.truthy fname && Text.truthy lname
           && Text.truthy doctor_label && Text.truthy date)
  then ret (InputError "Please fill in all required fields.")
  else if negb (DateValidation.validate_date_yyyy_mm_dd date)
  then ret (InputError "Date must be in YYYY-MM-DD format")
  else
    try_except
      (let doctor_id := _doctor_map form !! doctor_label in
       if no_doctor doctor_id
       then ret (InputError "Please select a valid doctor.")
       else
         let doctor_id := default 0%Z doctor_id in
         (* Check if patient exists *)
         (answer <- execute_select_patient fname lname ;;
          let row := fst (fetchone answer) in
          let unread := snd (fetchone answer) in
          patient_id <- match row with
                        | Some pid => ret pid
                        | None =>
                            (* Create new patient; the answer was empty, so
                               nothing is unread here or after the INSERT *)
                            handle_unread_result unread ;;
                            lastrowid <- execute_insert_patient fname lname doctor_id ;;
                            commit ;;
                            ret lastrowid
                        end ;;
          (* Create appointment: the first [execute] after [fetchone] when
             a row was found *)
          handle_unread_result unread ;;
          execute_insert_appointment doctor_id date patient_id ;;
          commit ;;
          ret Success)%py)
      (fun _ => ret DatabaseError).

End Booking.

(** The rows [insert_doctor_data] puts in the doctor table of a new
    database, with the keys AUTO_INCREMENT gives them. *)
Definition sample_doctors : list DoctorRow :=
  map (fun '(i, fn, ln, dept) => mkDoctorRow i fn ln dept)
    [(1, "Anna", "Johnson", 1); (2, "Michael", "Chen", 1);
     (3, "Reine", "Bergstr" ++ String (ascii_of_N 246) "m", 1); (4, "Erik", "Andersson", 2);
     (5, "Sarah", "Williams", 2); (6, "James", "Brown", 3);
     (7, "Lisa", "Garcia", 3); (8, "Robert", "Davis", 4);
     (9, "Maria", "Rodriguez", 4); (10, "David", "Miller", 5);
     (11, "Jennifer", "Wilson", 5); (12, "Christopher", "Moore", 6);
     (13, "Amanda", "Taylor", 6); (14, "Daniel", "Anderson", 7);
     (15, "Jessica", "Thomas", 7); (16, "Datthew", "Jackson", 8);
     (17, "Ashley", "White", 8); (18, "Andrew", "Harris", 9);
     (19, "Samantha", "Martin", 9); (20, "Joshua", "Thompson", 10);
     (21, "Nicole", "Garcia", 10); (22, "Kevin", "Martinez", 11);
     (23, "Rachel", "Robinson", 11); (24, "Brian", "Clark", 12);
     (25, "Lauren", "Rodriguez", 12); (26, "Ryan", "Lewis", 13);
     (27, "Megan", "Lee", 13); (28, "Tyler", "Walker", 14);
     (29, "Stephanie", "Hall", 14); (30, "Nathan", "Allen", 15);
     (31, "Danielle", "Young", 15); (32, "Justin", "King", 16);
     (33, "Michelle", "Wright", 16); (34, "Brandon", "Scott", 17);
     (35, "Kimberly", "Torres", 17); (36, "Jacob", "Nguyen", 18);
     (37, "Angela", "Hill", 18); (38, "Zachary", "Flores", 19);
     (39, "Heather", "Green", 19); (40, "Aaron", "Adams", 20);
     (41, "Rebecca", "Nelson", 20); (42, "Kyle", "Baker", 21);
     (43, "Victoria", "Carter", 21); (44, "Ethan", "Mitchell", 22);
     (45, "Christina", "Perez", 22); (46, "Noah", "Roberts", 23);
     (47, "Kelly", "Turner", 23); (48, "Logan", "Phillips", 24);
     (49, "Amy", "Campbell", 24)]%Z.

(** The patients of [insert_patient_data]. *)
Definition sample_patients : list PatientRow :=
  [mkPatientRow 1 "Lars" "Nilsson" 1; mkPatientRow 2 "Maria" "Garcia" 1].

(** The database right after [insert_all_sample_data]. *)
Definition sample_db : Db :=
  mkDb sample_doctors sample_patients 3
       [mkAppointmentRow 1 1 "2024-01-15" 1; mkAppointmentRow 2 2 "2024-01-16" 2;
        mkAppointmentRow 3 1 "2024-01-17" 1; mkAppointmentRow 4 2 "2024-01-18" 2]
       5 [] 1 [1; 2; 3; 4; 5; 6; 7]%Z 0 [].

(** The booking form filled in for the patient Lars Nilsson of the sample
    data, with the date as typed. *)
Definition booking_of_lars (date_typed : string) : BookingForm :=
  mkBookingForm "Lars" "Nilsson" "Dr. Anna Johnson" date_typed
                {["Dr. Anna Johnson" := 1%Z]}.

End MySQLGui.

(* ===================================================================== *)
(** * mongodb_messaging.py : the messaging facade *)
(* ===================================================================== *)

Module Mongo.

(** An ObjectId; [str(_id)] is its hexadecimal text, one text per id, and
    is not told apart from the id here. *)
Definition ObjectId : Type := N.

Record Conversation := mkConversation {
  conversation__id : ObjectId;
  participants : list string;
  created_at : Z;
  last_activity : Z;
  message_count : Z }.

Record Message := mkMessage {
  message__id : ObjectId;
  conversation_id : ObjectId;
  sender_id : string;
  message_text : string;
  timestamp : Z;
  is_read : bool }.

(** The two collections, each as its documents in the order a [find]
    without sort visits them (new documents go last), the next ObjectId
    the client generates, and the clock [datetime.now] reads. *)
Record Store := mkStore {
  conversations : list Conversation;
  messages : list Message;
  next_ObjectId : ObjectId;
  now : Z }.

Definition empty_store (clock : Z) : Store := mkStore [] [] 0%N clock.

(** [{"participants": {"$all": [p1, p2]}}]: the array holds both. *)
Definition all_in (p1 p2 : string) (c : Conversation) : bool :=
  bool_decide (p1 ∈ participants c) && bool_decide (p2 ∈ participants c).

(** [self.conversations.find_one(filter)] *)
Definition find_one_conversation (p1 p2 : string) : M Store (option Conversation) :=
  fun s => (Ok (head (filter (all_in p1 p2) (conversations s))), s).

(** [self.conversations.insert_one(doc)]: the value is [inserted_id]. *)
Definition insert_one_conversation (members : list string) : M Store ObjectId :=
  fun s =>
    let oid := next_ObjectId s in
    (Ok oid,
     mkStore (conversations s ++ [mkConversation oid members (now s) (now s) 0])
             (messages s) (N.succ oid) (now s)).

Definition get_or_create_conversation (participant1_id participant2_id : string)
  : M Store (option ObjectId) :=
  try_except
    ((* Look for existing conversation *)
     conversation <- find_one_conversation participant1_id participant2_id ;;
     match conversation with
     | Some c => ret (Some (conversation__id c))
     | None =>
         (* Create new conversation *)
         inserted_id <- insert_one_conversation [participant1_id; participant2_id] ;;
         ret (Some inserted_id)
     end)%py
    (fun _ => ret None).

(** [.sort("timestamp", -1)]: newest first. *)
Definition newer_first (a b : Message) : bool := timestamp b <=? timestamp a.

(** [.limit(n)] as the server applies it: 0 is no limit at all, and a
    negative limit counts as its absolute value. *)
Definition apply_limit {A} (limit : Z) (docs : list A) : list A :=
  if limit =? 0 then docs else take (Z.to_nat (Z.abs limit)) docs.

(** [list(self.messages.find({"conversation_id": c}).sort("timestamp", -1)
    .skip(skip).limit(limit))]; [Cursor.skip] raises ValueError for a
    negative number. *)
Definition find_messages (conversation_id_ : ObjectId) (limit skip : Z)
  : M Store (list Message) :=
  fun s =>
    if skip <? 0 then (Raise ValueError, s)
    else
      let found := filter (fun m => (conversation_id m =? conversation_id_)%N)
                          (messages s) in
      (Ok (apply_limit limit (drop (Z.to_nat skip) (order_by newer_first found))), s).

(** The ordering the sort of [find_messages] works with. *)
Definition newer_first_rel (a b : Message) : Prop := Is_true (newer_first a b).

(** "At least as recent as", and "not later than". *)
Definition at_least_as_recent (a b : Message) : Prop := timestamp b <= timestamp a.
Definition not_later (a b : Message) : Prop := timestamp a <= timestamp b.

(** The messages of a conversation, as stored. *)
Definition messages_of (s : Store) (c : ObjectId) : list Message :=
  filter (fun m => (conversation_id m =? c)%N) (messages s).

(** The loop that rewrites [_id] and [timestamp] of each message as text
    changes neither which messages are returned nor their order; a
    returned dictionary is the message it prints. *)
Definition get_conversation_messages (conversation_id_ : ObjectId)
    (limit skip : Z) : M Store (list Message) :=
  try_except
    (messages <- find_messages conversation_id_ limit skip ;;
     ret (rev messages))%py   (* Return in chronological order *)
    (fun _ => ret []).

(** [self.messages.insert_one(message_doc)] *)
Definition insert_one_message (conversation_id_ : ObjectId)
    (sender_id_ message_text_ : string) : M Store ObjectId :=
  fun s =>
    let oid := next_ObjectId s in
    (Ok oid,
     mkStore (conversations s)
             (messages s ++ [mkMessage oid conversation_id_ sender_id_
                                       message_text_ (now s) false])
             (N.succ oid) (now s)).

(** [$set: {last_activity: now}, $inc: {message_count: 1}] on one document. *)
Definition touch (clock : Z) (c : Conversation) : Conversation :=
  mkConversation (conversation__id c) (participants c) (created_at c)
                 clock (message_count c + 1).

(** [update_one({"_id": ...}, ...)]: the first document with this id. *)
Fixpoint update_first (oid : ObjectId) (clock : Z) (cs : list Conversation)
  : list Conversation :=
  match cs with
  | [] => []
  | c :: cs' => if (conversation__id c =? oid)%N then touch clock c :: cs'
                else c :: update_first oid clock cs'
  end.

Definition update_one_conversation (oid : ObjectId) : M Store unit :=
  fun s =>
    (Ok tt, mkStore (update_first oid (now s) (conversations s))
                    (messages s) (next_ObjectId s) (now s)).

(** [send_message] for a text message (the image payload is left out). *)
Definition send_message (sender_id_ : string) (conversation_id_ : ObjectId)
    (message_text_ : string) : M Store (option ObjectId) :=
  try_except
    (inserted_id <- insert_one_message conversation_id_ sender_id_ message_text_ ;;
     update_one_conversation conversation_id_ ;;
     ret (Some inserted_id))%py
    (fun _ => ret None).

(** The identifier [find_one] would lead [get_or_create_conversation]
    to return for a pair, if a document matches. *)
Definition first_match (p1 p2 : string) (cs : list Conversation)
  : option ObjectId :=
  conversation__id <$> head (filter (all_in p1 p2) cs).

(** A store with one conversation and two messages in it. *)
Definition two_messages_store : Store :=
  mkStore [mkConversation 0%N ["doctor"; "patient"]%string 100 120 2]
          [mkMessage 1%N 0%N "doctor" "Hello" 110 false;
           mkMessage 2%N 0%N "patient" "Hi" 120 false]%string
          3%N 130.

(** What can happen to the store between two calls: one of the two
    writing methods runs, or time passes. *)
Inductive step (s : Store) : Store -> Prop :=
  | step_get_or_create (a b : string) :
      step s (snd (get_or_create_conversation a b s))
  | step_send_message (sender : string) (c : ObjectId) (text : string) :
      step s (snd (send_message sender c text s))
  | step_clock (t : Z) :
      step s (mkStore (conversations s) (messages s) (next_ObjectId s) t).

Inductive later (s : Store) : Store -> Prop :=
  | later_now : later s s
  | later_step (s1 s2 : Store) : later s s1 -> step s1 s2 -> later s s2.

(** Two conversations are of the same unordered pair when they have the
    same participants, whatever the order. *)
Definition same_pair (c1 c2 : Conversation) : Prop :=
  forall u : string, u ∈ participants c1 <-> u ∈ participants c2.

(** At most one conversation document per unordered pair. *)
Definition one_per_pair (s : Store) : Prop :=
  forall (i j : nat) (c1 c2 : Conversation),
    conversations s !! i = Some c1 ->
    conversations s !! j = Some c2 ->
    same_pair c1 c2 -> i = j.

End Mongo.

(* ===================================================================== *)
(** * Conditions on bookings and on keys *)
(* ===================================================================== *)

(** The form passes the checks [book_appointment] makes before it turns
    to the store, and the doctor combobox names the doctor [doctor_id]. *)
Definition form_ready (form : BookingForm) (doctor_id : Z) : Prop :=
  Text.truthy (Text.strip (fname_entry form)) = true
  /\ Text.truthy (Text.strip (lname_entry form)) = true
  /\ Text.truthy (doctor_combo form) = true
  /\ Text.truthy (Text.strip (date_entry form)) = true
  /\ DateValidation.validate_date_yyyy_mm_dd (Text.strip (date_entry form)) = true
  /\ _doctor_map form !! doctor_combo form = Some doctor_id
  /\ doctor_id <> 0.

(** The keys in use in the patient and appointment tables lie below the
    AUTO_INCREMENT counters, as they do when every row got its key from
    the counter. *)
Definition keys_below_counters (db : MySQL.Db) : Prop :=
  Forall (fun p => MySQL.patient_id p < MySQL.patient_AUTO_INCREMENT db)
         (MySQL.patient db)
  /\ Forall (fun a => MySQL.appointment_id a < MySQL.appointment_AUTO_INCREMENT db)
            (MySQL.appointment db).

(** Two states of the database with the same tables, counters and clock:
    they differ at most in the statements issued. *)
Definition same_tables (a b : MySQL.Db) : Prop :=
  MySQL.doctor a = MySQL.doctor b
  /\ MySQL.patient a = MySQL.patient b
  /\ MySQL.patient_AUTO_INCREMENT a = MySQL.patient_AUTO_INCREMENT b
  /\ MySQL.appointment a = MySQL.appointment b
  /\ MySQL.appointment_AUTO_INCREMENT a = MySQL.appointment_AUTO_INCREMENT b
  /\ MySQL.medical_files a = MySQL.medical_files b
  /\ MySQL.medical_files_AUTO_INCREMENT a = MySQL.medical_files_AUTO_INCREMENT b
  /\ MySQL.observation a = MySQL.observation b
  /\ MySQL.CURRENT_TIMESTAMP a = MySQL.CURRENT_TIMESTAMP b.

(* ===================================================================== *)
(** * clinic_v2_withoutgui.py : the queries over appointments *)
(* ===================================================================== *)

Module Neo4jQueries.

Import Neo4j.

(** The paths [(d:Doctor {id:$did})-[:HAS_APPOINTMENT]->(a:Appointment)
    <-[:HAS_APPOINTMENT]-(p:Patient)]: one per appointment node the doctor
    is linked to and patient node linked to that appointment. *)
Definition doctor_paths (g : Graph) (did : Z) : list (Appointment * Patient) :=
  if has_doctor_node g did
  then
    a ← filter (fun a => bool_decide ((did, appointment_id a) ∈ DOCTOR_HAS_APPOINTMENT g))
               (appointments g);
    p ← filter (fun p => bool_decide ((patient_id p, appointment_id a)
                                      ∈ PATIENT_HAS_APPOINTMENT g))
               (patients g);
    [(a, p)]
  else [].

(** [ORDER BY date] on rows whose second column is the date. *)
Definition by_date_leb (r1 r2 : Z * string * string * string) : bool :=
  String.leb (snd (fst (fst r1))) (snd (fst (fst r2))).

(** [RETURN a.id AS aid, a.date AS date, p.first_name AS pfn,
     p.last_name AS pln ORDER BY date] *)
Definition get_appointments_for_doctor (doctor_id_ : Z)
  : M Graph (list (Z * string * string * string)) :=
  fun g =>
    (Ok (order_by by_date_leb
           (map (fun ap => (appointment_id (fst ap), appointment_date (fst ap),
                            patient_first_name (snd ap), patient_last_name (snd ap)))
                (doctor_paths g doctor_id_))), g).

(** [MATCH (d:Doctor {id:$did})-[:HAS_APPOINTMENT]->(:Appointment)
     <-[:HAS_APPOINTMENT]-(p:Patient)
     RETURN DISTINCT p.id AS id, p.first_name AS fn, p.last_name AS ln
     ORDER BY fn, ln] *)
Definition get_patients_for_doctor (doctor_id_ : Z)
  : M Graph (list (Z * string * string)) :=
  fun g =>
    let rows := map (fun ap => (patient_id (snd ap), patient_first_name (snd ap),
                                patient_last_name (snd ap)))
                    (doctor_paths g doctor_id_) in
    (Ok (order_by (fun a b => name_leb (doctor_name a) (doctor_name b))
                  (remove_dups rows)), g).

End Neo4jQueries.

(** The order of [ORDER BY date] as a relation on rows. *)
Definition by_date (r1 r2 : Z * string * string * string) : Prop :=
  Is_true (Neo4jQueries.by_date_leb r1 r2).

(* ===================================================================== *)
(** * clinic_v2_withoutGUI.py : the other file methods *)
(* ===================================================================== *)

Module MySQLFiles.

Import MySQL.

Definition with_medical_files (db : Db) (rows : list FileRow) : Db :=
  mkDb (doctor db) (patient db) (patient_AUTO_INCREMENT db)
       (appointment db) (appointment_AUTO_INCREMENT db)
       rows (medical_files_AUTO_INCREMENT db)
       (observation db) (CURRENT_TIMESTAMP db) (issued db).

(** [DELETE FROM medical_files WHERE file_id = %s]; the value is
    [cursor.rowcount]. *)
Definition execute_delete_medical_file (file_id_ : Z) : M Db Z :=
  (log (QUERY "DELETE FROM medical_files WHERE file_id = %s") ;;
   db <- get ;;
   let gone := filter (fun r => file_id r =? file_id_) (medical_files db) in
   let kept := filter (fun r => negb (file_id r =? file_id_)) (medical_files db) in
   put (with_medical_files db kept) ;;
   ret (Z.of_nat (length gone)))%py.

Definition delete_file (file_id_ : Z) : M Db bool :=
  try_except
    (rowcount <- execute_delete_medical_file file_id_ ;;
     commit ;;
     if 0 <? rowcount then ret true else ret false)%py
    (fun _ => ret false).

(** The dictionary [get_files_by_observation] builds from a row: the
    columns of its SELECT. *)
Record FileSummary := mkFileSummary {
  summary_file_id : Z;
  summary_filename : string;
  summary_file_type : string;
  summary_file_size : Z;
  summary_upload_date : Z;
  summary_description : option string }.

Definition summary (r : FileRow) : FileSummary :=
  mkFileSummary (file_id r) (filename r) (file_type r) (file_size r)
                (upload_date r) (description r).

Definition of_observation (observation_id_ : Z) (r : FileRow) : bool :=
  match observation_id r with
  | Some o => o =? observation_id_
  | None => false
  end.

(** [ORDER BY upload_date DESC] *)
Definition latest_first (a b : FileRow) : bool := upload_date b <=? upload_date a.

(** [SELECT file_id, filename, file_type, file_size, upload_date, description
     FROM medical_files WHERE observation_id = %s ORDER BY upload_date DESC]
    and [fetchall()]. *)
Definition execute_select_files_of_observation (observation_id_ : Z)
  : M Db (list FileRow) :=
  (log (QUERY "SELECT file_id, filename, file_type, file_size, upload_date, description FROM medical_files WHERE observation_id = %s ORDER BY upload_date DESC") ;;
   db <- get ;;
   ret (order_by latest_first
          (filter (of_observation observation_id_) (medical_files db))))%py.

(** The loop appends one dictionary per row. *)
Definition get_files_by_observation (observation_id_ : Z)
  : M Db (list FileSummary) :=
  try_except
    (results <- execute_select_files_of_observation observation_id_ ;;
     ret (map summary results))%py
    (fun _ => ret []).

(** The database together with the local disk [save_file_to_disk] writes
    to: the files on it with their bytes. *)
Record Computer := mkComputer {
  database : Db;
  disk : gmap string (list Byte.byte) }.

(** A method of the database object run on the computer. *)
Definition on_database {A} (c : M Db A) : M Computer A :=
  fun w => match c (database w) with
           | (r, db') => (r, mkComputer db' (disk w))
           end.

(** [with open(output_path, 'wb') as file: file.write(data)]; whether the
    path can be opened for writing is the operating system's answer. *)
Definition write_file (can_open : string -> bool) (output_path : string)
    (data : list Byte.byte) : M Computer unit :=
  fun w =>
    if can_open output_path
    then (Ok tt, mkComputer (database w) (<[output_path := data]> (disk w)))
    else (Raise OSError, w).

Definition save_file_to_disk (can_open : string -> bool) (file_id_ : Z)
    (output_path : option string) : M Computer bool :=
  try_except
    (file_info <- on_database (retrieve_file file_id_) ;;
     match file_info with
     | None => ret false
     | Some info =>
         let output_path :=
           match output_path with
           | Some path => if Text.truthy path then path else filename info
           | None => filename info
           end in
         write_file can_open output_path (file_data info) ;;
         ret true
     end)%py
    (fun _ => ret false).

End MySQLFiles.

(** Newest upload first, on the summaries [get_files_by_observation]
    returns. *)
Definition summary_latest_first (a b : MySQLFiles.FileSummary) : Prop :=
  MySQLFiles.summary_upload_date b <= MySQLFiles.summary_upload_date a.

Definition latest_first_rel (a b : MySQL.FileRow) : Prop :=
  Is_true (MySQLFiles.latest_first a b).

(* ===================================================================== *)
(** * The query tab of the two GUI files *)
(* ===================================================================== *)

Module QueryTab.

(** What [run_query] leaves on the screen. *)
Inductive Shown (Row : Type) : Type :=
  | InputErrorDialog          (* "Please enter a SELECT query to execute." *)
  | NoColumnsLabel            (* "Query executed but returned no columns." *)
  | ResultTable (colnames : list string) (rows : list Row)
  | QueryErrorDialog.         (* "Error executing query: ..." *)
Arguments InputErrorDialog {Row}.
Arguments NoColumnsLabel {Row}.
Arguments ResultTable {Row} colnames rows.
Arguments QueryErrorDialog {Row}.

(** The part of [run_query] after [safe_select] has returned. *)
Definition show {Row} (answer : list string * list Row) : Shown Row :=
  match fst answer with
  | [] => NoColumnsLabel
  | _ :: _ => ResultTable (fst answer) (snd answer)
  end.

(** [DoctorWindow.run_query] of clinic_v2_enhanced_v2.py; [query_text] is
    the content of the text widget. *)
Definition run_query_mysql {Row Param : Type}
    (cursor_execute : string -> list Param -> MySQL.Db ->
                      option (option (list string) * list Row) * MySQL.Db)
    (query_text : string) : M MySQL.Db (Shown Row) :=
  let q := Text.strip query_text in
  if negb (Text.truthy q) then ret InputErrorDialog
  else
    try_except
      (answer <- MySQLGui.safe_select cursor_execute q [] ;;
       ret (show answer))%py
      (fun _ => ret QueryErrorDialog).

(** [DoctorWindow.run_query] of clinic_v2_enhanced.py. *)
Definition run_query_neo4j {V : Type}
    (session_run : string -> Neo4j.Graph ->
                   option (list (Neo4jGui.Record_ V)) * Neo4j.Graph)
    (query_text : string) : M Neo4j.Graph (Shown (list (option V))) :=
  let q := Text.strip query_text in
  if negb (Text.truthy q) then ret InputErrorDialog
  else
    try_except
      (answer <- Neo4jGui.safe_select session_run q ;;
       ret (show answer))%py
      (fun _ => ret QueryErrorDialog).

End QueryTab.

(* ===================================================================== *)
(** * mongodb_messaging.py: read marks and the unread counter *)
(* ===================================================================== *)

Module MongoInbox.

Import Mongo.

(** [{"conversation_id": c, "sender_id": {"$ne": user_id},
      "is_read": False}] *)
Definition unread_for (c : ObjectId) (user_id : string) (m : Message) : bool :=
  (conversation_id m =? c)%N
  && negb (String.eqb (sender_id m) user_id)
  && negb (is_read m).

(** [{"$set": {"is_read": True, "read_at": now}}] on one message; the
    field [read_at], which no method reads, is not kept. *)
Definition set_read (m : Message) : Message :=
  mkMessage (message__id m) (conversation_id m) (sender_id m)
            (message_text m) (timestamp m) true.

(** [self.messages.update_many(filter, update)]: the value is
    [modified_count]. *)
Definition update_many_read (c : ObjectId) (user_id : string) : M Store Z :=
  fun s =>
    (Ok (Z.of_nat (length (filter (fun m => unread_for c user_id m) (messages s)))),
     mkStore (conversations s)
             (map (fun m => if unread_for c user_id m then set_read m else m)
                  (messages s))
             (next_ObjectId s) (now s)).

Definition mark_messages_as_read (conversation_id_ : ObjectId) (user_id : string)
  : M Store bool :=
  try_except
    (result <- update_many_read conversation_id_ user_id ;;
     ret true)%py
    (fun _ => ret false).

(** [self.conversations.find({"participants": user_id})] *)
Definition find_conversations (user_id : string) : M Store (list Conversation) :=
  fun s => (Ok (filter (fun c => bool_decide (user_id ∈ participants c))
                       (conversations s)), s).

(** [self.messages.count_documents(filter)] *)
Definition count_documents (c : ObjectId) (user_id : string) : M Store Z :=
  fun s => (Ok (Z.of_nat (length (filter (fun m => unread_for c user_id m)
                                         (messages s)))), s).

(** The [for conv in conversations] loop with its running total. *)
Fixpoint count_loop (user_id : string) (convs : list Conversation)
    (total_unread : Z) : M Store Z :=
  match convs with
  | [] => ret total_unread
  | conv :: rest =>
      (unread_count <- count_documents (conversation__id conv) user_id ;;
       count_loop user_id rest (total_unread + unread_count))%py
  end.

Definition get_unread_message_count (user_id : string) : M Store Z :=
  try_except
    (conversations <- find_conversations user_id ;;
     count_loop user_id conversations 0)%py
    (fun _ => ret 0).

(** The unread messages of one conversation for one user, as stored. *)
Definition unread_in (s : Store) (c : ObjectId) (user_id : string) : list Message :=
  filter (fun m => unread_for c user_id m) (messages s).

(** What the loop of [get_unread_message_count] adds up over [convs]. *)
Definition total_unread (s : Store) (user_id : string)
    (convs : list Conversation) : Z :=
  foldr (fun conv acc =>
           Z.of_nat (length (unread_in s (conversation__id conv) user_id)) + acc)
        0 convs.

(** The conversation documents [find_conversations] gives for a user. *)
Definition conversations_of (s : Store) (user_id : string) : list Conversation :=
  filter (fun c => bool_decide (user_id ∈ participants c)) (conversations s).

(** Every conversation document has its own [_id]. *)
Definition distinct_ids (s : Store) : Prop :=
  NoDup (map conversation__id (conversations s)).

(** The conversation [c] exists and [user_id] takes part in it. *)
Definition takes_part (s : Store) (c : ObjectId) (user_id : string) : Prop :=
  exists conv, conv ∈ conversations s
               /\ conversation__id conv = c
               /\ user_id ∈ participants conv.

(** Identifiers in use are below the next one the client generates. *)
Definition ids_below_next (s : Store) : Prop :=
  Forall (fun c => (conversation__id c < next_ObjectId s)%N) (conversations s).

(** What a conversation's [message_count] is compared with. *)
Definition stored_count (s : Store) (c : Conversation) : Z :=
  Z.of_nat (length (messages_of s (conversation__id c))).

(** What a client of the facade does to the store between two reads: it
    opens a conversation, sends to a conversation that exists, marks
    messages as read, or lets time pass. *)
Inductive client_step (s : Store) : Store -> Prop :=
  | client_opens (a b : string) :
      client_step s (snd (get_or_create_conversation a b s))
  | client_sends (sender : string) (c : ObjectId) (text : string) :
      c ∈ map conversation__id (conversations s) ->
      client_step s (snd (send_message sender c text s))
  | client_reads (c : ObjectId) (user_id : string) :
      client_step s (snd (mark_messages_as_read c user_id s))
  | client_waits (t : Z) :
      client_step s (mkStore (conversations s) (messages s) (next_ObjectId s) t).

Inductive client_run (s : Store) : Store -> Prop :=
  | run_nil : client_run s s
  | run_step (s1 s2 : Store) :
      client_run s s1 -> client_step s1 s2 -> client_run s s2.

(** What such a run keeps true of the store. *)
Definition well_kept (s : Store) : Prop :=
  ids_below_next s
  /\ distinct_ids s
  /\ Forall (fun m => conversation_id m ∈ map conversation__id (conversations s))
            (messages s)
  /\ Forall (fun conv => message_count conv = stored_count s conv)
            (conversations s).

(** The store after a conversation has been opened and a greeting sent. *)
Definition greeted_store : Store :=
  snd (send_message "doctor" 0%N "Hello"
         (snd (get_or_create_conversation "doctor" "patient" (empty_store 100)))).

End MongoInbox.

(* ===================================================================== *)
(** * mongodb_messaging.py: accounts, sessions and the conversation list *)
(* ===================================================================== *)

Module MongoAccounts.

Import Mongo.

Record User := mkUser {
  user__id : ObjectId;
  username : string;
  password_hash : list Byte.byte;
  user_type : string;
  first_name : string;
  last_name : string;
  user_id : option Z;
  user_created_at : Z;
  user_is_active : bool }.

Record Session := mkSession {
  session__id : ObjectId;
  session_user_id : ObjectId;
  session_created_at : Z;
  expires_at : Z;
  session_is_active : bool }.

(** The database [clinic_messaging]: the collections of [Mongo] with the
    id generator and the clock, the collections [users] and
    [user_sessions], and how many salts [bcrypt.gensalt] has drawn.  The
    clock counts milliseconds since 1970-01-01T00:00:00Z, the precision
    the store keeps a date with. *)
Record Database := mkDatabase {
  chat : Store;
  users : list User;
  user_sessions : list Session;
  salts_drawn : nat }.

(** A text handed in where an id is expected: the text of an ObjectId,
    or a text [ObjectId(text)] refuses with InvalidId. *)
Definition IdText : Type := option ObjectId.

(** [ObjectId(text)] *)
Definition ObjectId_ (text : IdText) : M Database ObjectId :=
  match text with
  | Some oid => ret oid
  | None => raise StoreError
  end.

(** The next ObjectId that is generated. *)
Definition new_ObjectId : M Database ObjectId :=
  fun db =>
    let s := chat db in
    (Ok (next_ObjectId s),
     mkDatabase (mkStore (conversations s) (messages s)
                         (N.succ (next_ObjectId s)) (now s))
                (users db) (user_sessions db) (salts_drawn db)).

(** [datetime.now(timezone.utc)] *)
Definition utcnow : M Database Z := fun db => (Ok (now (chat db)), db).

(** [self.users.find_one(filter)] *)
Definition find_one_user (matches : User -> bool) : M Database (option User) :=
  fun db => (Ok (head (filter (fun u => matches u) (users db))), db).

(** [self.users.insert_one(doc)]: the value is [inserted_id]. *)
Definition insert_one_user (doc : ObjectId -> User) : M Database ObjectId :=
  (oid <- new_ObjectId ;;
   fun db => (Ok oid, mkDatabase (chat db) (users db ++ [doc oid])
                                 (user_sessions db) (salts_drawn db)))%py.

(** [self.user_sessions.find_one(filter)] *)
Definition find_one_session (matches : Session -> bool)
  : M Database (option Session) :=
  fun db => (Ok (head (filter (fun x => matches x) (user_sessions db))), db).

(** [self.user_sessions.insert_one(doc)] *)
Definition insert_one_session (doc : ObjectId -> Session) : M Database ObjectId :=
  (oid <- new_ObjectId ;;
   fun db => (Ok oid, mkDatabase (chat db) (users db)
                                 (user_sessions db ++ [doc oid]) (salts_drawn db)))%py.

(** [t.replace(hour=23, minute=59, second=59)]: the same day and the same
    fraction of the second. *)
Definition replace_23_59_59 (t : Z) : Z :=
  t - t mod 86400000 + 86399000 + t mod 1000.

(** [str.encode('utf-8')] for code points below 256. *)
Definition encode_utf8_char (c : ascii) : list Byte.byte :=
  let n := N_of_ascii c in
  if (n <? 128)%N then [byte_of_ascii c]
  else [byte_of_ascii (ascii_of_N (192 + n / 64));
        byte_of_ascii (ascii_of_N (128 + n mod 64))].

Fixpoint encode_utf8 (s : string) : list Byte.byte :=
  match s with
  | EmptyString => []
  | String c rest => encode_utf8_char c ++ encode_utf8 rest
  end.

Section Bcrypt.

(** The bcrypt library: the salts its generator gives, one after the
    other, and its two functions; [None] is the ValueError they raise for
    an argument they refuse. *)
Variable gensalt : nat -> list Byte.byte.
Variable hashpw : list Byte.byte -> list Byte.byte -> option (list Byte.byte).
Variable checkpw : list Byte.byte -> list Byte.byte -> option bool.

Definition bcrypt_gensalt : M Database (list Byte.byte) :=
  fun db => (Ok (gensalt (salts_drawn db)),
             mkDatabase (chat db) (users db) (user_sessions db)
                        (S (salts_drawn db))).

Definition bcrypt_hashpw (password salt : list Byte.byte)
  : M Database (list Byte.byte) :=
  match hashpw password salt with
  | Some hashed => ret hashed
  | None => raise ValueError
  end.

Definition bcrypt_checkpw (password hashed : list Byte.byte) : M Database bool :=
  match checkpw password hashed with
  | Some same => ret same
  | None => raise ValueError
  end.

Definition create_user (username_ password user_type_ first_name_ last_name_ : string)
    (user_id_ : option Z) : M Database (option ObjectId) :=
  try_except
    ((* Check if username already exists *)
     existing <- find_one_user (fun u => String.eqb (username u) username_) ;;
     match existing with
     | Some _ => ret None
     | None =>
         (* Hash password *)
         salt <- bcrypt_gensalt ;;
         password_hash_ <- bcrypt_hashpw (encode_utf8 password) salt ;;
         created <- utcnow ;;
         inserted_id <- insert_one_user
           (fun oid => mkUser oid username_ password_hash_ user_type_
                              first_name_ last_name_ user_id_ created true) ;;
         ret (Some inserted_id)
     end)%py
    (fun _ => ret None).

(** The value is the session id; [None] is the empty text of the
    [except] branch. *)
Definition _create_session (user_id_ : ObjectId) : M Database IdText :=
  try_except
    (created <- utcnow ;;
     inserted_id <- insert_one_session
       (fun oid => mkSession oid user_id_ created (replace_23_59_59 created) true) ;;
     ret (Some inserted_id))%py
    (fun _ => ret None).

(** What [authenticate_user] returns for a user. *)
Record UserInfo := mkUserInfo {
  info__id : ObjectId;
  info_username : string;
  info_user_type : string;
  info_first_name : string;
  info_last_name : string;
  info_user_id : option Z;
  info_session_id : IdText }.

Definition authenticate_user (username_ password : string)
  : M Database (option UserInfo) :=
  try_except
    (user <- find_one_user (fun u => String.eqb (username u) username_
                                     && user_is_active u) ;;
     match user with
     | None => ret None
     | Some user =>
         (* Check password *)
         same <- bcrypt_checkpw (encode_utf8 password) (password_hash user) ;;
         if same then
           (* Create session *)
           session_id <- _create_session (user__id user) ;;
           ret (Some (mkUserInfo (user__id user) (username user) (user_type user)
                                 (first_name user) (last_name user)
                                 (user_id user) session_id))
         else ret None
     end)%py
    (fun _ => ret None).

End Bcrypt.

Definition validate_session (session_id : IdText) : M Database (option ObjectId) :=
  try_except
    (oid <- ObjectId_ session_id ;;
     current <- utcnow ;;
     session <- find_one_session
       (fun x => (session__id x =? oid)%N && session_is_active x
                 && (current <? expires_at x)) ;;
     ret (session_user_id <$> session))%py
    (fun _ => ret None).

(** [{"$set": {"is_active": False}}] *)
Definition deactivated (x : Session) : Session :=
  mkSession (session__id x) (session_user_id x) (session_created_at x)
            (expires_at x) false.

(** [update_one({"_id": oid}, ...)] on a list of sessions: the first
    document with this id is rewritten; the number is [modified_count],
    which counts a document only if the update changed it. *)
Fixpoint deactivate_first (oid : ObjectId) (l : list Session) : list Session * Z :=
  match l with
  | [] => ([], 0)
  | x :: rest =>
      if (session__id x =? oid)%N
      then (deactivated x :: rest, if session_is_active x then 1 else 0)
      else (x :: fst (deactivate_first oid rest), snd (deactivate_first oid rest))
  end.

Definition update_one_session (oid : ObjectId) : M Database Z :=
  fun db =>
    (Ok (snd (deactivate_first oid (user_sessions db))),
     mkDatabase (chat db) (users db)
                (fst (deactivate_first oid (user_sessions db))) (salts_drawn db)).

Definition logout_user (session_id : IdText) : M Database bool :=
  try_except
    (oid <- ObjectId_ session_id ;;
     modified_count <- update_one_session oid ;;
     ret (0 <? modified_count))%py
    (fun _ => ret false).

(** Time passing: the clock reads [t]. *)
Definition at_time (t : Z) (db : Database) : Database :=
  mkDatabase (mkStore (conversations (chat db)) (messages (chat db))
                      (next_ObjectId (chat db)) t)
             (users db) (user_sessions db) (salts_drawn db).

(** The index on [expires_at] with [expireAfterSeconds=0]: the store may
    at any time delete sessions whose time has come; [chosen] says which
    of them a pass of its monitor takes. *)
Definition ttl_monitor (chosen : Session -> bool) (db : Database) : Database :=
  mkDatabase (chat db) (users db)
             (filter (fun x => negb (chosen x && (expires_at x <=? now (chat db))))
                     (user_sessions db))
             (salts_drawn db).

(** Session ids in use are below the next id that is generated, and no
    two sessions share one. *)
Definition sessions_below_next (db : Database) : Prop :=
  Forall (fun x => (session__id x < next_ObjectId (chat db))%N) (user_sessions db).

Definition distinct_sessions (db : Database) : Prop :=
  NoDup (map session__id (user_sessions db)).

(** ** The list of a user's conversations *)

Record OtherParticipant := mkOtherParticipant {
  other__id : ObjectId;
  other_username : string;
  other_first_name : string;
  other_last_name : string;
  other_user_type : string }.

Record ConversationInfo := mkConversationInfo {
  conv__id : ObjectId;
  conv_last_activity : Z;
  conv_message_count : Z;
  other_participant : OtherParticipant }.

(** [.sort("last_activity", -1)] *)
Definition active_first (a b : Conversation) : bool :=
  last_activity b <=? last_activity a.

(** [next(p for p in conv['participants'] if p != user_id)]; [None] is
    the StopIteration of a generator that yields nothing. *)
Definition next_other (user_id_ : string) (conv : Conversation) : option string :=
  head (filter (fun p => negb (String.eqb p user_id_)) (participants conv)).

Section UserConversations.

(** [ObjectId(text)] for the text of a participant: [None] is InvalidId. *)
Variable ObjectId_of_text : string -> option ObjectId.

(** The loop over the conversations; [None] when an exception leaves it. *)
Fixpoint conversation_loop (db : Database) (user_id_ : string)
    (convs : list Conversation) (result : list ConversationInfo)
  : option (list ConversationInfo) :=
  match convs with
  | [] => Some result
  | conv :: rest =>
      match next_other user_id_ conv with
      | None => None
      | Some other_participant_id =>
          match ObjectId_of_text other_participant_id with
          | None => None
          | Some oid =>
              match head (filter (fun u => (user__id u =? oid)%N) (users db)) with
              | Some other_user =>
                  conversation_loop db user_id_ rest
                    (result ++ [mkConversationInfo
                                  (conversation__id conv) (last_activity conv)
                                  (message_count conv)
                                  (mkOtherParticipant
                                     (user__id other_user) (username other_user)
                                     (first_name other_user) (last_name other_user)
                                     (user_type other_user))])
              | None => conversation_loop db user_id_ rest result
              end
          end
      end
  end.

Definition get_user_conversations (user_id_ : string) (db : Database)
  : list ConversationInfo :=
  let conversations :=
    order_by active_first
      (filter (fun c => bool_decide (user_id_ ∈ participants c))
              (conversations (chat db))) in
  match conversation_loop db user_id_ conversations [] with
  | Some result => result
  | None => []          (* except Exception: return [] *)
  end.

End UserConversations.

(** A conversation in which nobody but [user_id_] takes part. *)
Definition alone_in (user_id_ : string) (conv : Conversation) : Prop :=
  user_id_ ∈ participants conv
  /\ forall p, p ∈ participants conv -> p = user_id_.

(** The messaging methods of [Mongo] run on the collections of [chat]. *)
Definition on_chat (s : Store) (db : Database) : Database :=
  mkDatabase s (users db) (user_sessions db) (salts_drawn db).

Definition active_first_rel (a b : Conversation) : Prop :=
  Is_true (active_first a b).

(** An entry of the list describes a conversation. *)
Definition describes (parse : string -> option ObjectId) (user_id_ : string)
    (conv : Conversation) (info : ConversationInfo) : Prop :=
  conv__id info = conversation__id conv
  /\ conv_last_activity info = last_activity conv
  /\ conv_message_count info = message_count conv
  /\ exists other, next_other user_id_ conv = Some other
                   /\ other <> user_id_
                   /\ parse other = Some (other__id (other_participant info)).

(** Most recently active first. *)
Definition info_active_first (a b : ConversationInfo) : Prop :=
  conv_last_activity b <= conv_last_activity a.

(** A store in which "u" first opened a conversation with "u" and then
    one with "v", and a database with a registered user for "v". *)
Definition alone_store : Store :=
  snd (get_or_create_conversation "u" "u" (empty_store 100)).

Definition alone_then_v_store : Store :=
  snd (get_or_create_conversation "u" "v" alone_store).

Definition one_user_database : Database :=
  mkDatabase (empty_store 100)
             [mkUser 7%N "v" [] "patient" "Vera" "Lind" (Some 1) 50 true] [] 0.

Definition parse_uv (text : string) : option ObjectId :=
  if String.eqb text "v" then Some 7%N
  else if String.eqb text "u" then Some 8%N else None.

(** A database with nothing in it. *)
Definition empty_database (clock : Z) : Database :=
  mkDatabase (empty_store clock) [] [] 0.

End MongoAccounts.

(* ===================================================================== *)
(** * clinic_v2_enhanced.py: a messaging user for a doctor or a patient *)
(* ===================================================================== *)

Module MongoSync.

Import Mongo MongoAccounts.

(** [messaging.users.update_one({"username": username},
      {"$setOnInsert": doc}, upsert=True)]: a document with this username
    is left as it is; without one, the document is inserted.  The value
    is [upserted_id]. *)
Definition update_one_upsert (username_ : string) (doc : ObjectId -> User)
  : M Database (option ObjectId) :=
  fun db =>
    if existsb (fun u => String.eqb (username u) username_) (users db)
    then (Ok None, db)
    else (oid <- insert_one_user doc ;; ret (Some oid))%py db.

(** The two functions differ in the word only: ["doctor"] or ["patient"]. *)
Definition ensure_mongo_user (kind : string) (id_ : Z)
    (first_name_ last_name_ : string) : M Database (option ObjectId) :=
  try_except
    (let username_ := (kind ++ "." ++ pretty id_)%string in
     (* Prefer lookup by username to avoid mismatched user_id cases *)
     existing_by_username <-
       find_one_user (fun u => String.eqb (username u) username_) ;;
     match existing_by_username with
     | Some u => ret (Some (user__id u))
     | None =>
         existing <- find_one_user (fun u => bool_decide (user_id u = Some id_)
                                             && String.eqb (user_type u) kind) ;;
         match existing with
         | Some u => ret (Some (user__id u))
         | None =>
             created <- utcnow ;;
             upserted_id <- update_one_upsert username_
               (fun oid => mkUser oid username_ [] kind first_name_ last_name_
                                  (Some id_) created true) ;;
             match upserted_id with
             | Some oid => ret (Some oid)
             | None =>
                 (* Fallback fetch *)
                 fallback <-
                   find_one_user (fun u => String.eqb (username u) username_) ;;
                 ret (user__id <$> fallback)
             end
         end
     end)%py
    (fun _ => ret None).

Definition ensure_mongo_user_for_doctor (doctor_id : Z)
    (first_name_ last_name_ : string) : M Database (option ObjectId) :=
  ensure_mongo_user "doctor" doctor_id first_name_ last_name_.

Definition ensure_mongo_user_for_patient (patient_id : Z)
    (first_name_ last_name_ : string) : M Database (option ObjectId) :=
  ensure_mongo_user "patient" patient_id first_name_ last_name_.

(** The user the functions look for: under the conventional username, or
    else with the id and the kind. *)
Definition stands_for (kind : string) (id_ : Z) (u : User) : Prop :=
  username u = (kind ++ "." ++ pretty id_)%string
  \/ (user_id u = Some id_ /\ user_type u = kind).

End MongoSync.

(* ===================================================================== *)
(** * clinic_v2_withoutgui.py: files kept as MedicalFile nodes *)
(* ===================================================================== *)

Module Neo4jFiles.

Import Neo4j.

(** The graph together with what the file methods need besides: the ids
    of its Observation nodes, one node per id by the uniqueness
    constraint, and the local time as [isoformat()] prints it. *)
Record World := mkWorld {
  graph : Graph;
  observation_nodes : list Z;
  now_isoformat : string }.

(** A method of [Neo4j] run in the world. *)
Definition on_graph {A} (c : M Graph A) : M World A :=
  fun w => match c (graph w) with
           | (r, g') => (r, mkWorld g' (observation_nodes w) (now_isoformat w))
           end.

Definition with_files (g : Graph) (nodes : list MedicalFile)
    (links : list (Z * Z)) : Graph :=
  mkGraph (counters g) (doctors g) (patients g) (appointments g) nodes
          (HAS_DOCTOR g) (TREATS g) (DOCTOR_HAS_APPOINTMENT g)
          (PATIENT_HAS_APPOINTMENT g) links.

Definition has_file_node (g : Graph) (fid : Z) : bool :=
  existsb (fun mf => file_id mf =? fid) (files g).

Definition has_observation_node (w : World) (oid : Z) : bool :=
  existsb (Z.eqb oid) (observation_nodes w).

(** [CREATE (mf:MedicalFile {id:$id, ...})]: refused by the uniqueness
    constraint when a MedicalFile with this id exists. *)
Definition run_create_file (mf : MedicalFile) : M World unit :=
  fun w =>
    let g := graph w in
    if has_file_node g (file_id mf)
    then (Raise StoreError, w)
    else (Ok tt, mkWorld (with_files g (files g ++ [mf]) (HAS_FILE g))
                         (observation_nodes w) (now_isoformat w)).

(** [MATCH (o:Observation {id:$oid}), (mf:MedicalFile {id:$fid})
     MERGE (o)-[:HAS_FILE]->(mf)]: nothing happens when one of the two
    nodes is missing, or when the relationship is there already. *)
Definition run_merge_has_file (oid fid : Z) : M World unit :=
  fun w =>
    let g := graph w in
    if has_observation_node w oid && has_file_node g fid
       && negb (bool_decide ((oid, fid) ∈ HAS_FILE g))
    then (Ok tt, mkWorld (with_files g (files g) (HAS_FILE g ++ [(oid, fid)]))
                         (observation_nodes w) (now_isoformat w))
    else (Ok tt, w).

(** [with open(file_path, 'rb') as f: data = f.read()] *)
Definition open_rb (env : MySQL.Env) (file_path : string)
  : M World (list Byte.byte) :=
  match MySQL.read_file env file_path with
  | Some data => ret data
  | None => raise OSError
  end.

(** [datetime.datetime.now().isoformat()] *)
Definition isoformat_now : M World string := fun w => (Ok (now_isoformat w), w).

Definition store_file (env : MySQL.Env) (file_path : string)
    (observation_id : option Z) (description_ : option string)
  : M World (option Z) :=
  try_except
    (data <- open_rb env file_path ;;
     let filename_ := Text.basename file_path in
     let file_size_ := Z.of_nat (length data) in
     let file_type_ :=
       match MySQL.guess_type env file_path with
       | Some t => if Text.truthy t then t
                   else Text.lower (Text.splitext_ext filename_)
       | None => Text.lower (Text.splitext_ext filename_)
       end in
     fid <- on_graph (_next_id "MedicalFile") ;;
     ud <- isoformat_now ;;
     run_create_file (mkMedicalFile fid filename_ file_type_ file_size_ data ud
                                    description_) ;;
     match observation_id with
     | Some oid => run_merge_has_file oid fid
     | None => ret tt
     end ;;
     ret (Some fid))%py
    (fun _ => ret None).

(** The dictionary [retrieve_file] returns: the node and the id of the
    observation it is linked to. *)
Record FileDict := mkFileDict {
  dict_file : MedicalFile;
  dict_observation_id : option Z }.

(** [MATCH (mf:MedicalFile {id:$id}) RETURN mf] and [.single()] *)
Definition run_match_file (file_id_ : Z) : M World (option MedicalFile) :=
  fun w => (Ok (head (filter (fun mf => file_id mf =? file_id_) (files (graph w)))), w).

(** [MATCH (o:Observation)-[:HAS_FILE]->(mf:MedicalFile {id:$id})
     RETURN o.id AS oid] and [.single()] *)
Definition run_match_observation (file_id_ : Z) : M World (option Z) :=
  fun w => (Ok (head (filter (fun oid => bool_decide ((oid, file_id_)
                                                       ∈ HAS_FILE (graph w)))
                             (observation_nodes w))), w).

Definition retrieve_file (file_id_ : Z) : M World (option FileDict) :=
  try_except
    (rec <- run_match_file file_id_ ;;
     match rec with
     | None => ret None
     | Some mf =>
         (* Find observation if linked *)
         obs <- run_match_observation file_id_ ;;
         ret (Some (mkFileDict mf obs))
     end)%py
    (fun _ => ret None).

(** [MATCH (mf:MedicalFile {id:$id}) DETACH DELETE mf RETURN 1] and
    [.single()]: the nodes go with their relationships. *)
Definition run_detach_delete (file_id_ : Z) : M World (option Z) :=
  fun w =>
    let g := graph w in
    (Ok (if has_file_node g file_id_ then Some 1 else None),
     mkWorld (with_files g
                (filter (fun mf => negb (file_id mf =? file_id_)) (files g))
                (filter (fun link => negb (snd link =? file_id_)) (HAS_FILE g)))
             (observation_nodes w) (now_isoformat w)).

Definition delete_file (file_id_ : Z) : M World bool :=
  try_except
    (result <- run_detach_delete file_id_ ;;
     ret (match result with Some _ => true | None => false end))%py
    (fun _ => ret false).

(** [link_file_to_observation] has no [try]: an error of the store leaves
    it as an exception. *)
Definition link_file_to_observation (file_id_ observation_id : Z) : M World unit :=
  run_merge_has_file observation_id file_id_.

(** A world with one observation and a file to upload. *)
Definition one_observation_world : World :=
  mkWorld (mkGraph [initial_counter] [] [] [] [] [] [] [] [] []) [7]
          "2024-03-01T09:30:00".

End Neo4jFiles.

(* ===================================================================== *)
(** * Two patients of one name *)
(* ===================================================================== *)

Module Namesakes.

(** The sample database with a second patient called Lars Nilsson. *)
Definition two_lars_db : MySQL.Db :=
  MySQL.mkDb MySQLGui.sample_doctors
    (MySQLGui.sample_patients ++ [MySQL.mkPatientRow 3 "Lars" "Nilsson" 1])
    4
    (MySQL.appointment MySQLGui.sample_db) 5 [] 1 [1; 2; 3; 4; 5; 6; 7]%Z 0 [].

(** [small_graph] with a second patient called Lars Nilsson. *)
Definition two_lars_graph : Neo4j.Graph :=
  Neo4j.with_counters
    (Neo4j.with_patients Neo4j.small_graph
       (Neo4j.patients Neo4j.small_graph ++ [Neo4j.mkPatient 3 "Lars" "Nilsson"]))
    [<["doctor"%string := 2]> (<["patient"%string := 4]> Neo4j.initial_counter)].

End Namesakes.

(* ===================================================================== *)
(** * Properties *)
(* ===================================================================== *)

(** ** The monad *)

Lemma bind_ok {S A B} (c : M S A) (k : A -> M S B) s a s' :
  c s = (Ok a, s') -> bind c k s = k a s'.
Proof. intros H. unfold bind. now rewrite H. Qed.

Lemma bind_ret {S A B} (a : A) (k : A -> M S B) (s : S) :
  bind (ret a) k s = k a s.
Proof. reflexivity. Qed.

Lemma bind_raise {S A B} (c : M S A) (k : A -> M S B) s e s' :
  c s = (Raise e, s') -> bind c k s = (Raise e, s').
Proof. intros H. unfold bind. now rewrite H. Qed.

(** ** The string methods on examples *)

Section TextExamples.

Import Text.
Local Open Scope string_scope.

Example strip_spaces : strip "  2024-01-15 " = "2024-01-15".
Proof. reflexivity. Qed.
Example strip_inner : strip " Anna Maria " = "Anna Maria".
Proof. reflexivity. Qed.
Example lower_mixed : lower "SeLeCT *" = "select *".
Proof. reflexivity. Qed.
Example basename_path : basename "/home/user/images/xray.jpg" = "xray.jpg".
Proof. reflexivity. Qed.
Example basename_plain : basename "xray.jpg" = "xray.jpg".
Proof. reflexivity. Qed.
Example basename_slash : basename "a/b/" = "".
Proof. reflexivity. Qed.
Example splitext_upper : splitext_ext "xray.JPG" = ".JPG".
Proof. reflexivity. Qed.
Example splitext_hidden : splitext_ext ".bashrc" = "".
Proof. reflexivity. Qed.
Example splitext_dots : splitext_ext "..a.b" = ".b".
Proof. reflexivity. Qed.
Example splitext_none : splitext_ext "README" = "".
Proof. reflexivity. Qed.
Example splitext_last : splitext_ext "a.tar.gz" = ".gz".
Proof. reflexivity. Qed.

End TextExamples.

(** ** The sequence allocator *)

Section SequenceAllocator.

Import Neo4j.

Lemma next_id_step (t : string) (g : Graph) (v : Z) :
  stored_value g t = Some v ->
  exists g1, _next_id t g = (Ok v, g1) /\ stored_value g1 t = Some (v + 1).
Proof.
  unfold stored_value, _next_id.
  destruct g as [cs ds ps aps fs r1 r2 r3 r4 r5]; simpl.
  destruct cs as [|ctr rest]; [discriminate|]; simpl.
  intros Hv. eexists. split.
  - rewrite Hv. reflexivity.
  - simpl. unfold bump. rewrite Hv. simpl. apply lookup_insert_eq.
Qed.

Lemma next_ids_from (t : string) (n : nat) : forall (g : Graph) (v : Z),
  stored_value g t = Some v ->
  exists gn, next_ids t n g = (Ok (map (fun i => v + Z.of_nat i) (seq 0 n)), gn)
             /\ stored_value gn t = Some (v + Z.of_nat n).
Proof.
  induction n as [|n IH]; intros g v Hv.
  - exists g. split; [reflexivity|]. rewrite Hv. f_equal. simpl. lia.
  - destruct (next_id_step t g v Hv) as (g1 & Hcall & Hv1).
    destruct (IH g1 (v + 1) Hv1) as (gn & Hrest & Hvn).
    exists gn. split.
    + cbn [next_ids]. rewrite (bind_ok _ _ _ _ _ Hcall).
      rewrite (bind_ok _ _ _ _ _ Hrest). unfold ret. f_equal. f_equal.
      cbn [seq map]. f_equal; [lia|].
      rewrite <- seq_shift, map_map. apply map_ext. intros i. lia.
    + rewrite Hvn. f_equal. lia.
Qed.

Lemma arithmetic_run_increasing (v : Z) (n : nat) : forall k : nat,
  StronglySorted Z.lt (map (fun i => v + Z.of_nat i) (seq k n)).
Proof.
  induction n as [|n IH]; intros k; cbn [seq map]; constructor.
  - apply IH.
  - apply List.Forall_forall. intros x Hx. apply in_map_iff in Hx.
    destruct Hx as (i & <- & Hi). apply in_seq in Hi. lia.
Qed.

Lemma increasing_NoDup (l : list Z) : StronglySorted Z.lt l -> NoDup l.
Proof.
  induction 1 as [|x l Hs IH Hx]; constructor; [|exact IH].
  intros Hin. rewrite Forall_forall in Hx. specialize (Hx x Hin). lia.
Qed.

(** C1: when the shared Counter record holds the value [v] for the label
    [t], one call of [_next_id t] returns [v] and leaves [v + 1] stored,
    and [n] successive calls return [v, v+1, ..., v+n-1] -- strictly
    increasing, hence pairwise distinct -- and leave [v + n] stored. *)
Theorem next_id_successive_calls (t : string) (g : Graph) (v : Z) (n : nat) :
  stored_value g t = Some v ->
  (exists g1, _next_id t g = (Ok v, g1) /\ stored_value g1 t = Some (v + 1))
  /\ exists ids gn,
       next_ids t n g = (Ok ids, gn)
       /\ ids = map (fun i => v + Z.of_nat i) (seq 0 n)
       /\ length ids = n
       /\ StronglySorted Z.lt ids
       /\ NoDup ids
       /\ stored_value gn t = Some (v + Z.of_nat n).
Proof.
  intros Hv. split; [now apply next_id_step|].
  destruct (next_ids_from t n g v Hv) as (gn & Hrun & Hvn).
  eexists _, gn. split; [exact Hrun|]. split; [reflexivity|].
  split; [now rewrite length_map, length_seq|].
  split; [apply arithmetic_run_increasing|].
  split; [apply increasing_NoDup, arithmetic_run_increasing|exact Hvn].
Qed.

(** A database right after [connect]: the Counter record exists, every
    field at 1. *)
Example connected_graph :
  _ensure_constraints_and_counters empty_graph
  = (Ok tt, with_counters empty_graph [initial_counter]).
Proof. reflexivity. Qed.

Lemma next_id_successive_calls_witness :
  let g := with_counters empty_graph [initial_counter] in
  stored_value g "Patient" = Some 1
  /\ exists ids gn, next_ids "Patient" 3 g = (Ok ids, gn) /\ ids = [1; 2; 3].
Proof.
  intros g. split; [reflexivity|].
  destruct (next_id_successive_calls "Patient" g 1 3 eq_refl)
    as (_ & ids & gn & Hrun & Hids & _).
  exists ids, gn. split; [exact Hrun | exact Hids].
Defined.

Lemma next_ids_without_counter (t : string) (g : Graph) (n : nat) :
  counters g = [] -> next_ids t n g = (Ok (repeat 1 n), g).
Proof.
  intros Hc. induction n as [|n IH]; [reflexivity|].
  cbn [next_ids repeat].
  assert (Hcall : _next_id t g = (Ok 1, g)) by (unfold _next_id; now rewrite Hc).
  rewrite (bind_ok _ _ _ _ _ Hcall), (bind_ok _ _ _ _ _ IH). reflexivity.
Qed.

(** C10: when no Counter record named 'global_ids' exists, [_next_id t]
    returns 1 and writes nothing, whatever [t] is; so [n] successive calls
    all return 1, leave the store as it was, and from the second call on
    the ids handed out are not distinct. *)
Theorem next_id_without_counter (t : string) (g : Graph) (n : nat) :
  counters g = [] ->
  _next_id t g = (Ok 1, g)
  /\ next_ids t n g = (Ok (repeat 1 n), g)
  /\ ((2 <= n)%nat -> ~ NoDup (repeat 1 n)).
Proof.
  intros Hc. split; [unfold _next_id; now rewrite Hc|].
  split; [now apply next_ids_without_counter|].
  intros Hn Hnd. destruct n as [|[|n]]; [lia|lia|].
  cbn [repeat] in Hnd. apply NoDup_cons_1_1 in Hnd. apply Hnd. left.
Qed.

Lemma next_id_without_counter_witness :
  counters empty_graph = []
  /\ _next_id "Patient" empty_graph = (Ok 1, empty_graph)
  /\ next_ids "Patient" 2 empty_graph = (Ok [1; 1], empty_graph).
Proof.
  split; [reflexivity|].
  destruct (next_id_without_counter "Patient" empty_graph 2 eq_refl)
    as (H1 & H2 & _).
  split; [exact H1 | exact H2].
Defined.

End SequenceAllocator.

(** ** Files of an observation (Neo4j) *)

Section FilesByObservation.

Import Neo4j.
Local Open Scope string_scope.

Lemma order_by_nil {A} (leb : A -> A -> bool) : order_by leb [] = [].
Proof. reflexivity. Qed.

Example two_files_linked :
  map file_id (order_by upload_date_desc (linked_files two_files_graph 7)) = [2; 1].
Proof. vm_compute. reflexivity. Qed.

(** C9: [get_files_by_observation] returns a list of at most one entry
    and leaves the store as it is; the list is empty when no file is
    linked to the observation; and where the driver still yields the
    records after the session is closed, the one entry is the last record
    of the result, however many files are linked. *)
Theorem get_files_by_observation_at_most_one
    (drv : closed_result) (observation_id : Z) (g : Graph) :
  exists files,
    get_files_by_observation drv observation_id g = (Ok files, g)
    /\ (length files <= 1)%nat
    /\ (linked_files g observation_id = [] -> files = [])
    /\ (drv = Buffered ->
        forall mf,
          last (order_by upload_date_desc (linked_files g observation_id)) = Some mf ->
          files = [file_info mf]).
Proof.
  unfold get_files_by_observation, try_except, get_files_by_observation_body.
  unfold loop_variable. destruct drv; cbn [iterate_closed].
  - destruct (last (order_by upload_date_desc (linked_files g observation_id)))
      as [mf|] eqn:Hlast.
    + eexists. split; [reflexivity|]. split; [simpl; lia|]. split.
      * intros Hnone. rewrite Hnone, order_by_nil in Hlast. discriminate.
      * intros _ mf' [= <-]. reflexivity.
    + eexists. split; [reflexivity|]. split; [simpl; lia|]. split.
      * reflexivity.
      * intros _ mf' [=].
  - eexists. split; [reflexivity|]. split; [simpl; lia|]. split.
    + reflexivity.
    + intros [=].
  - eexists. split; [reflexivity|]. split; [simpl; lia|]. split.
    + reflexivity.
    + intros [=].
Qed.

Lemma get_files_by_observation_at_most_one_witness :
  (exists files,
     get_files_by_observation Buffered 7 two_files_graph = (Ok files, two_files_graph)
     /\ map info_file_id files = [1])
  /\ fst (get_files_by_observation Buffered 8 two_files_graph) = Ok [].
Proof.
  split.
  - destruct (get_files_by_observation_at_most_one Buffered 7 two_files_graph)
      as (files & Hrun & _ & _ & Hlast).
    exists files. split; [exact Hrun|].
    rewrite (Hlast eq_refl
               (mkMedicalFile 1 "xray.jpg" "image/jpeg" 3 [] "2024-01-01T10:00:00" None)
               eq_refl).
    reflexivity.
  - destruct (get_files_by_observation_at_most_one Buffered 8 two_files_graph)
      as (files & Hrun & _ & Hnone & _).
    rewrite Hrun. simpl. f_equal. apply Hnone. reflexivity.
Defined.

End FilesByObservation.

(** ** Doctors of a department *)

Section DoctorsByDepartment.

Local Open Scope string_scope.

Lemma name_leb_total (a b : string * string) :
  name_leb a b = true \/ name_leb b a = true.
Proof.
  unfold name_leb. rewrite (String.eqb_sym (fst b) (fst a)).
  destruct (String.eqb (fst a) (fst b)); apply String.leb_total.
Qed.

Instance by_name_total : Total by_name.
Proof.
  intros a b. unfold by_name.
  destruct (name_leb_total (snd (fst a), snd a) (snd (fst b), snd b)) as [H|H];
    rewrite H; simpl; auto.
Qed.

(** The Neo4j variant: the list is ordered by name, and it is the doctors
    of the department, each once. *)
Lemma neo4j_doctors_by_department_ordered (department_id : Z) (g : Neo4j.Graph) :
  exists rows,
    Neo4j.get_doctors_by_department department_id g = (Ok rows, g)
    /\ Sorted by_name rows
    /\ rows ≡ₚ
       map (fun doc => (Neo4j.doctor_id doc, Neo4j.doctor_first_name doc,
                        Neo4j.doctor_last_name doc))
           (filter (fun doc => bool_decide
                      ((department_id, Neo4j.doctor_id doc) ∈ Neo4j.HAS_DOCTOR g))
                   (Neo4j.doctors g)).
Proof.
  eexists. split; [reflexivity|]. split.
  - unfold order_by. apply (Sorted_merge_sort by_name).
  - unfold order_by. apply merge_sort_Permutation.
Qed.

(** C8, the MySQL variant on the repository's own sample data: for the
    department "Internal medicine" (key 4) [on_dept_selected] lists
    Dr. Robert Davis before Dr. Maria Rodriguez, the order of the rows in
    the table, which is not the order of the names. *)
Theorem mysql_doctors_by_department_unordered :
  let listing :=
    MySQLGui.on_dept_selected {["Internal medicine" := 4]} "Internal medicine"
                              (MySQLGui.mkDoctorCombo [] ∅) MySQLGui.sample_db in
  (exists combo,
     fst listing = Ok (Some combo)
     /\ MySQLGui.combo_values combo = ["Dr. Robert Davis"; "Dr. Maria Rodriguez"])
  /\ fst (MySQLGui.execute_select_doctors 4 MySQLGui.sample_db)
     = Ok [(8, "Robert", "Davis"); (9, "Maria", "Rodriguez")]
  /\ ~ Sorted by_name [(8, "Robert", "Davis"); (9, "Maria", "Rodriguez")].
Proof.
  split; [eexists; split; vm_compute; reflexivity|].
  split; [vm_compute; reflexivity|].
  intros Hs. inversion Hs as [|x l _ Hhd]; subst.
  inversion Hhd as [|y l' Hle]; subst. vm_compute in Hle. exact Hle.
Qed.

End DoctorsByDepartment.

(** ** The research-query guard *)

Section QueryGuard.

Local Open Scope string_scope.

Lemma in_all_ascii (c : ascii) : In c all_ascii.
Proof.
  unfold all_ascii. apply in_map_iff. exists (nat_of_ascii c). split.
  - apply ascii_nat_embedding.
  - apply in_seq. pose proof (nat_ascii_bounded c). lia.
Qed.

(** For a lower-case letter [k] of the basic alphabet, [lower] sends
    exactly [k] and its capital to [k]. *)
Lemma lower_char_is_letter (k c : ascii) :
  Text.between 97 122 (Text.code k) = true ->
  Ascii.eqb (Text.lower_char c) k = same_letter k c.
Proof.
  assert (Hall : forallb (fun k => forallb (fun c =>
            implb (Text.between 97 122 (Text.code k))
                  (Bool.eqb (Ascii.eqb (Text.lower_char c) k) (same_letter k c)))
            all_ascii) all_ascii = true) by (vm_compute; reflexivity).
  rewrite forallb_forall in Hall. specialize (Hall k (in_all_ascii k)).
  rewrite forallb_forall in Hall. specialize (Hall c (in_all_ascii c)).
  intros Hk. rewrite Hk in Hall. simpl in Hall.
  now apply Bool.eqb_prop in Hall.
Qed.

Lemma startswith_lower (keyword : string) : forall q : string,
  lowercase_word keyword ->
  Text.startswith (Text.lower q) keyword = begins_ignoring_case keyword q.
Proof.
  unfold Text.startswith, lowercase_word.
  induction keyword as [|k keyword IH]; intros q Hw.
  - destruct q; reflexivity.
  - simpl in Hw. apply Forall_cons in Hw as [Hk Hw].
    destruct q as [|c q]; [reflexivity|].
    cbn [Text.lower String.prefix begins_ignoring_case].
    rewrite <- (lower_char_is_letter k c Hk), <- (IH q Hw).
    destruct (ascii_dec k (Text.lower_char c)) as [->|Hne].
    + now rewrite Ascii.eqb_refl.
    + apply not_eq_sym, Ascii.eqb_neq in Hne. now rewrite Hne.
Qed.

Lemma leading_keyword_spec (keyword query : string) :
  lowercase_word keyword ->
  leading_keyword keyword query
  = begins_ignoring_case keyword (Text.strip query).
Proof. intros Hw. unfold leading_keyword. now apply startswith_lower. Qed.

Lemma select_lowercase : lowercase_word "select".
Proof. unfold lowercase_word. simpl. repeat constructor. Qed.
Lemma match_lowercase : lowercase_word "match".
Proof. unfold lowercase_word. simpl. repeat constructor. Qed.
Lemma return_lowercase : lowercase_word "return".
Proof. unfold lowercase_word. simpl. repeat constructor. Qed.

(** C6: [safe_select] raises ValueError exactly when the stripped query
    does not begin, letters compared without regard to case, with SELECT
    (MySQL) or with MATCH or RETURN (Neo4j); it then hands nothing to the
    store.  Otherwise nothing but the leading keyword was looked at: the
    MySQL variant hands the query as it was given to the cursor, the
    Neo4j variant hands the stripped query it checked to the session, and
    the answer of the store is returned. *)
Theorem safe_select_guard {Row Param V : Type}
    (cursor_execute : string -> list Param -> MySQL.Db ->
                      option (option (list string) * list Row) * MySQL.Db)
    (session_run : string -> Neo4j.Graph ->
                   option (list (Neo4jGui.Record_ V)) * Neo4j.Graph)
    (query : string) (params : list Param) (db : MySQL.Db) (g : Neo4j.Graph) :
  let q := Text.strip query in
  let read_mysql := begins_ignoring_case "select" q in
  let read_neo4j := begins_ignoring_case "match" q
                    || begins_ignoring_case "return" q in
  (fst (MySQLGui.safe_select cursor_execute query params db) = Raise ValueError
   <-> read_mysql = false)
  /\ (read_mysql = false ->
      MySQLGui.safe_select cursor_execute query params db = (Raise ValueError, db))
  /\ (read_mysql = true ->
      MySQLGui.safe_select cursor_execute query params db
      = match cursor_execute query params (snd (MySQL.log (MySQL.QUERY query) db)) with
        | (Some (description, rows), db') => (Ok (default [] description, rows), db')
        | (None, db') => (Raise StoreError, db')
        end)
  /\ (fst (Neo4jGui.safe_select session_run query g) = Raise ValueError
      <-> read_neo4j = false)
  /\ (read_neo4j = false ->
      Neo4jGui.safe_select session_run query g = (Raise ValueError, g))
  /\ (read_neo4j = true ->
      Neo4jGui.safe_select session_run query g
      = match session_run q g with
        | (Some records, g') =>
            let colnames := match records with rec :: _ => map fst rec | [] => [] end in
            (Ok (colnames, map (fun rec => map (Neo4jGui.record_get rec) colnames) records), g')
        | (None, g') => (Raise StoreError, g')
        end).
Proof.
  intros q read_mysql read_neo4j.
  assert (Hm : forall b, read_mysql = b ->
            Text.startswith (Text.lower (Text.strip query)) "select" = b).
  { intros b <-. apply (leading_keyword_spec "select" query select_lowercase). }
  assert (Hn : forall b, read_neo4j = b ->
            Text.startswith (Text.lower (Text.strip query)) "match"
            || Text.startswith (Text.lower (Text.strip query)) "return" = b).
  { intros b <-. unfold read_neo4j, q.
    now rewrite <- (leading_keyword_spec "match" query match_lowercase),
                <- (leading_keyword_spec "return" query return_lowercase). }
  assert (M0 : read_mysql = false ->
            MySQLGui.safe_select cursor_execute query params db = (Raise ValueError, db)).
  { intros H. unfold MySQLGui.safe_select. now rewrite (Hm _ H). }
  assert (M1 : read_mysql = true ->
      MySQLGui.safe_select cursor_execute query params db
      = match cursor_execute query params (snd (MySQL.log (MySQL.QUERY query) db)) with
        | (Some (description, rows), db') => (Ok (default [] description, rows), db')
        | (None, db') => (Raise StoreError, db')
        end).
  { intros H. unfold MySQLGui.safe_select. rewrite (Hm _ H). cbn [negb].
    unfold MySQLGui.execute_query, bind, MySQL.log. cbn [snd].
    destruct (cursor_execute query params _) as [[[[d|] rows]|] db']; reflexivity. }
  assert (N0 : read_neo4j = false ->
            Neo4jGui.safe_select session_run query g = (Raise ValueError, g)).
  { intros H. unfold Neo4jGui.safe_select. now rewrite (Hn _ H). }
  assert (N1 : read_neo4j = true ->
      Neo4jGui.safe_select session_run query g
      = match session_run q g with
        | (Some records, g') =>
            let colnames := match records with rec :: _ => map fst rec | [] => [] end in
            (Ok (colnames, map (fun rec => map (Neo4jGui.record_get rec) colnames) records), g')
        | (None, g') => (Raise StoreError, g')
        end).
  { intros H. unfold Neo4jGui.safe_select. rewrite (Hn _ H). cbn [negb].
    unfold Neo4jGui.run_query, bind. fold q.
    destruct (session_run q g) as [[records|] g']; reflexivity. }
  repeat split; auto.
  - intros Hraise. destruct read_mysql eqn:E; [|reflexivity].
    rewrite (M1 eq_refl) in Hraise.
    destruct (cursor_execute query params _) as [[[d rows]|] db']; discriminate.
  - intros H. now rewrite (M0 H).
  - intros Hraise. destruct read_neo4j eqn:E; [|reflexivity].
    rewrite (N1 eq_refl) in Hraise.
    destruct (session_run q g) as [[records|] g']; discriminate.
  - intros H. now rewrite (N0 H).
Qed.

Lemma safe_select_guard_witness :
  let cursor_execute := fun (_ : string) (_ : list Z) (db : MySQL.Db) =>
                          (Some (Some ["n"], [1]), db) in
  let session_run := fun (_ : string) (g : Neo4j.Graph) =>
                       (Some [[("n", 1)]], g) in
  begins_ignoring_case "select" (Text.strip "  SeLeCt 1 ") = true
  /\ fst (MySQLGui.safe_select cursor_execute "  SeLeCt 1 " [] MySQLGui.sample_db)
     = Ok (["n"], [1])
  /\ Neo4jGui.safe_select session_run "  SeLeCt 1 " Neo4j.empty_graph
     = (Raise ValueError, Neo4j.empty_graph).
Proof.
  intros cursor_execute session_run.
  destruct (safe_select_guard cursor_execute session_run "  SeLeCt 1 " []
              MySQLGui.sample_db Neo4j.empty_graph)
    as (_ & _ & M1 & _ & N0 & _).
  split; [reflexivity|]. split.
  - rewrite (M1 eq_refl). reflexivity.
  - exact (N0 eq_refl).
Defined.

End QueryGuard.

(** ** Date validation and booking *)

Section DateFormat.

Import DateValidation.
Local Open Scope string_scope.

Lemma re_digits_inv (n : nat) : forall s r : string,
  re_digits n s = Some r ->
  exists ds : list ascii,
    length ds = n
    /\ Forall (fun c => Text.isdigit c = true) ds
    /\ s = string_of_list_ascii ds ++ r.
Proof.
  induction n as [|n IH]; intros s r H.
  - injection H as <-. exists []. repeat split; constructor.
  - destruct s as [|c s]; [discriminate|]. cbn [re_digits] in H.
    destruct (Text.isdigit c) eqn:Hc; [|discriminate].
    destruct (IH s r H) as (ds & Hlen & Hds & ->).
    exists (c :: ds). split; [simpl; lia|]. split; [now constructor|reflexivity].
Qed.

Lemma re_literal_inv (c : ascii) (s r : string) :
  re_literal c s = Some r -> s = String c r.
Proof.
  destruct s as [|d s]; [discriminate|]. cbn [re_literal].
  destruct (Ascii.eqb c d) eqn:E; [|discriminate].
  apply Ascii.eqb_eq in E as ->. now intros [= ->].
Qed.

Lemma re_end_inv (s : string) :
  re_end s = true -> s = "" \/ s = String "010" "".
Proof.
  destruct s as [|c [|d s]]; cbn [re_end]; try discriminate; auto.
  intros H. apply Ascii.eqb_eq in H as ->. now right.
Qed.

(** What [re.match] accepts: the ten characters of the pattern, and
    possibly one newline after them. *)
Lemma re_match_date_inv (s : string) :
  re_match_date s = true ->
  exists y1 y2 y3 y4 m1 m2 d1 d2 rest,
    Forall (fun c => Text.isdigit c = true) [y1; y2; y3; y4; m1; m2; d1; d2]
    /\ s = string_of_list_ascii [y1; y2; y3; y4; "-"; m1; m2; "-"; d1; d2]%char ++ rest
    /\ (rest = "" \/ rest = String "010" "").
Proof.
  unfold re_match_date.
  destruct (re_digits 4 s) as [s1|] eqn:E1; [|discriminate]. cbn [mbind option_bind].
  destruct (re_literal "-" s1) as [s2|] eqn:E2; [|discriminate]. cbn [mbind option_bind].
  destruct (re_digits 2 s2) as [s3|] eqn:E3; [|discriminate]. cbn [mbind option_bind].
  destruct (re_literal "-" s3) as [s4|] eqn:E4; [|discriminate]. cbn [mbind option_bind].
  destruct (re_digits 2 s4) as [rest|] eqn:E5; [|discriminate].
  intros Hend. apply re_end_inv in Hend.
  apply re_digits_inv in E1 as (ys & Hly & Hys & ->).
  apply re_literal_inv in E2 as ->.
  apply re_digits_inv in E3 as (ms & Hlm & Hms & ->).
  apply re_literal_inv in E4 as ->.
  apply re_digits_inv in E5 as (dd & Hld & Hdd & ->).
  destruct ys as [|y1 [|y2 [|y3 [|y4 [|? ?]]]]]; try discriminate.
  destruct ms as [|m1 [|m2 [|? ?]]]; try discriminate.
  destruct dd as [|d1 [|d2 [|? ?]]]; try discriminate.
  exists y1, y2, y3, y4, m1, m2, d1, d2, rest.
  split; [|split; [reflexivity|exact Hend]].
  repeat match goal with
         | H : Forall _ (_ :: _) |- _ => apply Forall_cons in H as [? H]
         end.
  repeat constructor; assumption.
Qed.

(** [strptime] reads at most ten characters with this format. *)
Lemma directive_Y_length s v r :
  directive_Y s = Some (v, r) -> String.length s = (4 + String.length r)%nat.
Proof.
  destruct s as [|a [|b [|c [|d s]]]]; try discriminate. cbn [directive_Y].
  destruct (_ && _); [|discriminate]. now intros [= _ <-].
Qed.

Lemma re_literal_length c s r :
  re_literal c s = Some r -> String.length s = (1 + String.length r)%nat.
Proof. intros H. apply re_literal_inv in H as ->. reflexivity. Qed.

Lemma directive_m_length s v r :
  directive_m s = Some (v, r) -> (String.length s <= 2 + String.length r)%nat.
Proof.
  destruct s as [|a [|b s]]; cbn [directive_m]; try discriminate;
    repeat match goal with
           | |- context [if ?b then _ else _] => destruct b
           end; try discriminate; intros [= _ <-]; simpl; lia.
Qed.

Lemma directive_d_length s v r :
  directive_d s = Some (v, r) -> (String.length s <= 2 + String.length r)%nat.
Proof.
  destruct s as [|a [|b s]]; cbn [directive_d]; try discriminate;
    repeat match goal with
           | |- context [if ?b then _ else _] => destruct b
           end; try discriminate; intros [= _ <-]; simpl; lia.
Qed.

Lemma strptime_length (s : string) (ymd : Z * Z * Z) :
  strptime_Y_m_d s = Some ymd -> (String.length s <= 10)%nat.
Proof.
  unfold strptime_Y_m_d.
  destruct (directive_Y s) as [[y s1]|] eqn:E1; [|discriminate]. cbn [mbind option_bind].
  destruct (re_literal "-" s1) as [s2|] eqn:E2; [|discriminate]. cbn [mbind option_bind].
  destruct (directive_m s2) as [[m s3]|] eqn:E3; [|discriminate]. cbn [mbind option_bind].
  destruct (re_literal "-" s3) as [s4|] eqn:E4; [|discriminate]. cbn [mbind option_bind].
  destruct (directive_d s4) as [[d s5]|] eqn:E5; [|discriminate]. cbn [mbind option_bind].
  destruct s5; [|discriminate]. intros _.
  apply directive_Y_length in E1. apply re_literal_length in E2.
  apply directive_m_length in E3. apply re_literal_length in E4.
  apply directive_d_length in E5. simpl in *. lia.
Qed.

Lemma validate_date_needs_shape (s : string) :
  validate_date_yyyy_mm_dd s = true -> date_shape s.
Proof.
  unfold validate_date_yyyy_mm_dd.
  destruct (re_match_date s) eqn:Hre; [|discriminate]. cbn [negb].
  destruct (strptime_Y_m_d s) as [ymd|] eqn:Hp; [|discriminate]. intros _.
  apply re_match_date_inv in Hre
    as (y1 & y2 & y3 & y4 & m1 & m2 & d1 & d2 & rest & Hd & -> & [-> | ->]).
  - exists y1, y2, y3, y4, m1, m2, d1, d2. split; [exact Hd|reflexivity].
  - apply strptime_length in Hp. simpl in Hp. lia.
Qed.

End DateFormat.

Section Booking.

Import DateValidation.
Local Open Scope string_scope.

Example validate_date_ok : validate_date_yyyy_mm_dd "2024-01-15" = true.
Proof. reflexivity. Qed.
Example validate_date_leap : validate_date_yyyy_mm_dd "2024-02-29" = true.
Proof. reflexivity. Qed.
Example validate_date_not_leap : validate_date_yyyy_mm_dd "2023-02-29" = false.
Proof. reflexivity. Qed.
Example validate_date_feb_30 : validate_date_yyyy_mm_dd "2024-02-30" = false.
Proof. reflexivity. Qed.
Example validate_date_year_0 : validate_date_yyyy_mm_dd "0000-01-01" = false.
Proof. reflexivity. Qed.
Example validate_date_short : validate_date_yyyy_mm_dd "2024-1-5" = false.
Proof. reflexivity. Qed.
Example validate_date_newline :
  re_match_date (String.append "2024-01-15" (String "010" "")) = true
  /\ validate_date_yyyy_mm_dd (String.append "2024-01-15" (String "010" "")) = false.
Proof. split; reflexivity. Qed.

Lemma validate_date_rejects (s : string) :
  ~ date_shape s -> validate_date_yyyy_mm_dd s = false.
Proof.
  intros Hn. destruct (validate_date_yyyy_mm_dd s) eqn:E; [|reflexivity].
  destruct (Hn (validate_date_needs_shape s E)).
Qed.

Lemma mysql_booking_rejected varchar_eqb (form : BookingForm) (db : MySQL.Db) :
  validate_date_yyyy_mm_dd (Text.strip (date_entry form)) = false ->
  exists message,
    MySQLGui.book_appointment varchar_eqb form db = (Ok (InputError message), db).
Proof.
  intros Hv. unfold MySQLGui.book_appointment.
  destruct (negb _); [eexists; reflexivity|].
  rewrite Hv. eexists; reflexivity.
Qed.

Lemma neo4j_booking_rejected (form : BookingForm) (g : Neo4j.Graph) :
  validate_date_yyyy_mm_dd (Text.strip (date_entry form)) = false ->
  exists message,
    Neo4jGui.book_appointment form g = (Ok (InputError message), g).
Proof.
  intros Hv. unfold Neo4jGui.book_appointment.
  destruct (negb _); [eexists; reflexivity|].
  rewrite Hv. eexists; reflexivity.
Qed.

(** C4, as the code has it: [validate_date_yyyy_mm_dd] returns False on
    every string that fails the pattern; [book_appointment] validates the
    text of the date entry with the surrounding whitespace stripped, and
    when that stripped text fails the pattern -- or is turned down by
    [validate_date_yyyy_mm_dd] for another reason, as 2024-13-40 is -- it
    ends with an input-error dialog before any statement is issued and
    leaves the database as it was. *)
Theorem booking_rejects_malformed_date
    (varchar_eqb : string -> string -> bool) (form : BookingForm)
    (db : MySQL.Db) (g : Neo4j.Graph) (s : string) :
  (~ date_shape s -> validate_date_yyyy_mm_dd s = false)
  /\ (~ date_shape (Text.strip (date_entry form))
      \/ validate_date_yyyy_mm_dd (Text.strip (date_entry form)) = false ->
      (exists message,
         MySQLGui.book_appointment varchar_eqb form db = (Ok (InputError message), db))
      /\ (exists message,
            Neo4jGui.book_appointment form g = (Ok (InputError message), g)))
  /\ date_shape "2024-13-40"
  /\ validate_date_yyyy_mm_dd "2024-13-40" = false.
Proof.
  split; [apply validate_date_rejects|]. split.
  - intros H.
    assert (Hv : validate_date_yyyy_mm_dd (Text.strip (date_entry form)) = false)
      by (destruct H as [H|H]; [now apply validate_date_rejects|exact H]).
    split; [now apply mysql_booking_rejected|now apply neo4j_booking_rejected].
  - split; [|reflexivity].
    exists "2"%char, "0"%char, "2"%char, "4"%char, "1"%char, "3"%char, "4"%char, "0"%char.
    split; [repeat constructor|reflexivity].
Qed.

Lemma booking_rejects_malformed_date_witness :
  validate_date_yyyy_mm_dd (Text.strip (date_entry (MySQLGui.booking_of_lars "2024-13-40")))
  = false
  /\ exists message,
       MySQLGui.book_appointment String.eqb (MySQLGui.booking_of_lars "2024-13-40")
                                 MySQLGui.sample_db
       = (Ok (InputError message), MySQLGui.sample_db).
Proof.
  split; [reflexivity|].
  destruct (booking_rejects_malformed_date String.eqb
              (MySQLGui.booking_of_lars "2024-13-40") MySQLGui.sample_db
              Neo4j.empty_graph "2024-13-40") as (_ & Hbook & _).
  destruct (Hbook (or_intror eq_refl)) as (Hmysql & _). exact Hmysql.
Defined.

(** C4 as it was worded does not hold: the date " 2024-01-15", typed with
    a space in front, fails the pattern and [validate_date_yyyy_mm_dd]
    returns False on it, yet [book_appointment] strips it first, accepts
    it and issues its statements. *)
Lemma padded_date_is_booked :
  ~ date_shape " 2024-01-15"
  /\ validate_date_yyyy_mm_dd " 2024-01-15" = false
  /\ exists db',
       MySQLGui.book_appointment String.eqb (MySQLGui.booking_of_lars " 2024-01-15")
                                 MySQLGui.sample_db
       = (Ok Success, db')
       /\ MySQL.issued db'
          = [MySQL.SELECT_patient_WHERE_name "Lars" "Nilsson";
             MySQL.INSERT_appointment 1 "2024-01-15" 1;
             MySQL.COMMIT]
       /\ MySQL.appointment db'
          = (MySQL.appointment MySQLGui.sample_db
             ++ [MySQL.mkAppointmentRow 5 1 "2024-01-15" 1])%list.
Proof.
  split.
  - intros (y1 & y2 & y3 & y4 & m1 & m2 & d1 & d2 & Hd & Heq).
    cbn [string_of_list_ascii] in Heq. injection Heq as <-.
    apply Forall_cons in Hd as [Hy1 _]. discriminate Hy1.
  - split; [reflexivity|]. eexists. split; [vm_compute; reflexivity|].
    split; reflexivity.
Qed.

End Booking.

Section ExistingPatient.

Local Open Scope string_scope.

Lemma mysql_booking_existing_patient
    (varchar_eqb : string -> string -> bool) (form : BookingForm)
    (db : MySQL.Db) (p : MySQL.PatientRow) (others : list MySQL.PatientRow) :
  let fname := Text.strip (fname_entry form) in
  let lname := Text.strip (lname_entry form) in
  filter (fun r => varchar_eqb (MySQL.patient_first_name r) fname
                   && varchar_eqb (MySQL.patient_last_name r) lname)
         (MySQL.patient db) = p :: others ->
  exists dialog db',
    MySQLGui.book_appointment varchar_eqb form db = (Ok dialog, db')
    /\ MySQL.patient db' = MySQL.patient db
    /\ (dialog = Success ->
        exists doctor_id,
          _doctor_map form !! doctor_combo form = Some doctor_id
          /\ MySQL.appointment db'
             = (MySQL.appointment db
                ++ [MySQL.mkAppointmentRow (MySQL.appointment_AUTO_INCREMENT db)
                      doctor_id (Text.strip (date_entry form)) (MySQL.patient_id p)])%list)
    /\ (dialog <> Success -> MySQL.appointment db' = MySQL.appointment db).
Proof.
  intros fname lname Hfound. unfold MySQLGui.book_appointment. fold fname lname.
  destruct (negb (_ && _ && _ && _)).
  { eexists _, _. split; [reflexivity|]. repeat split; congruence. }
  destruct (negb (DateValidation.validate_date_yyyy_mm_dd _)).
  { eexists _, _. split; [reflexivity|]. repeat split; congruence. }
  unfold try_except.
  destruct (_doctor_map form !! doctor_combo form) as [did|] eqn:Hdoc; cbn [no_doctor].
  2:{ eexists _, _. split; [reflexivity|]. repeat split; congruence. }
  destruct (did =? 0)%Z.
  { eexists _, _. split; [reflexivity|]. repeat split; congruence. }
  cbn [default].
  assert (Hsel : exists db1,
    MySQLGui.execute_select_patient varchar_eqb fname lname db
    = (Ok (map MySQL.patient_id (p :: others)), db1)
    /\ MySQL.patient db1 = MySQL.patient db
    /\ MySQL.appointment db1 = MySQL.appointment db
    /\ MySQL.appointment_AUTO_INCREMENT db1 = MySQL.appointment_AUTO_INCREMENT db).
  { unfold MySQLGui.execute_select_patient, bind, MySQL.log, get, ret.
    cbn [MySQL.patient]. rewrite Hfound. eexists. split; [reflexivity|].
    repeat split. }
  destruct Hsel as (db1 & Hsel & Hp1 & Ha1 & Hk1).
  rewrite (bind_ok _ _ _ _ _ Hsel).
  cbn [MySQLGui.fetchone map head tail fst snd]. unfold bind at 1. cbn [ret].
  destruct others as [|p2 rest]; cbn [map MySQLGui.handle_unread_result].
  2:{ unfold bind, raise. eexists _, _. split; [reflexivity|].
      split; [exact Hp1|]. split; [congruence|]. intros _. exact Ha1. }
  unfold bind at 1. cbn [ret].
  unfold bind at 1. unfold MySQLGui.execute_insert_appointment.
  unfold bind at 1. unfold MySQL.log at 1. unfold bind at 1. unfold get at 1.
  match goal with |- context [if ?c then _ else _] => destruct c end.
  { eexists _, _. split; [reflexivity|]. cbn. split; [exact Hp1|].
    split; [congruence|]. intros _. exact Ha1. }
  unfold bind, MySQLGui.add_appointment, MySQL.commit, MySQL.log, ret.
  cbn.
  eexists _, _. split; [reflexivity|]. cbn. split; [exact Hp1|]. split.
  - intros _. exists did. split; [reflexivity|]. now rewrite Ha1, Hk1.
  - congruence.
Qed.

(** [_next_id] touches nothing but the Counter record. *)
Lemma next_id_frame (label : string) (g : Neo4j.Graph) :
  exists id g1,
    Neo4j._next_id label g = (Ok id, g1)
    /\ Neo4j.patients g1 = Neo4j.patients g
    /\ Neo4j.doctors g1 = Neo4j.doctors g
    /\ Neo4j.appointments g1 = Neo4j.appointments g
    /\ Neo4j.PATIENT_HAS_APPOINTMENT g1 = Neo4j.PATIENT_HAS_APPOINTMENT g.
Proof.
  unfold Neo4j._next_id.
  destruct (map _ (Neo4j.counters g)) as [|[id ?] ?];
    eexists _, _; (split; [reflexivity|]); repeat split; reflexivity.
Qed.

Lemma neo4j_create_appointment (doctor_id : Z) (date : string) (patient_id : Z)
    (g : Neo4j.Graph) :
  exists r g',
    Neo4j.create_appointment doctor_id date patient_id g = (r, g')
    /\ Neo4j.patients g' = Neo4j.patients g
    /\ (Neo4j.appointments g' = Neo4j.appointments g
        \/ exists a,
             Neo4j.appointments g' = (Neo4j.appointments g ++ [a])%list
             /\ Neo4j.appointment_date a = date
             /\ Neo4j.PATIENT_HAS_APPOINTMENT g'
                = (Neo4j.PATIENT_HAS_APPOINTMENT g
                   ++ [(patient_id, Neo4j.appointment_id a)])%list).
Proof.
  unfold Neo4j.create_appointment.
  destruct (next_id_frame "Appointment" g) as (aid & g1 & Hid & Hp & Hd & Ha & Hr).
  rewrite (bind_ok _ _ _ _ _ Hid).
  unfold bind, Neo4j.run_create_appointment, ret.
  destruct (Neo4j.has_doctor_node g1 doctor_id && Neo4j.has_patient_node g1 patient_id).
  - destruct (Neo4j.has_appointment_node g1 aid).
    + eexists _, _. split; [reflexivity|]. split; [exact Hp|]. left. exact Ha.
    + eexists _, _. split; [reflexivity|]. cbn. split; [exact Hp|]. right.
      eexists. rewrite Ha, Hr. repeat split; reflexivity.
  - eexists _, _. split; [reflexivity|]. split; [exact Hp|]. left. exact Ha.
Qed.

Lemma neo4j_booking_existing_patient (form : BookingForm) (g : Neo4j.Graph)
    (p : Neo4j.Patient) (others : list Neo4j.Patient) :
  let fname := Text.strip (fname_entry form) in
  let lname := Text.strip (lname_entry form) in
  filter (fun r => String.eqb (Neo4j.patient_first_name r) fname
                   && String.eqb (Neo4j.patient_last_name r) lname)
         (Neo4j.patients g) = p :: others ->
  exists dialog g',
    Neo4jGui.book_appointment form g = (Ok dialog, g')
    /\ Neo4j.patients g' = Neo4j.patients g
    /\ (Neo4j.appointments g' = Neo4j.appointments g
        \/ exists a,
             Neo4j.appointments g' = (Neo4j.appointments g ++ [a])%list
             /\ Neo4j.appointment_date a = Text.strip (date_entry form)
             /\ Neo4j.PATIENT_HAS_APPOINTMENT g'
                = (Neo4j.PATIENT_HAS_APPOINTMENT g
                   ++ [(Neo4j.patient_id p, Neo4j.appointment_id a)])%list).
Proof.
  intros fname lname Hfound. unfold Neo4jGui.book_appointment. fold fname lname.
  destruct (negb (_ && _ && _ && _)).
  { eexists _, _. split; [reflexivity|]. split; [reflexivity|]. now left. }
  destruct (negb (DateValidation.validate_date_yyyy_mm_dd _)).
  { eexists _, _. split; [reflexivity|]. split; [reflexivity|]. now left. }
  unfold try_except.
  destruct (no_doctor _).
  { eexists _, _. split; [reflexivity|]. split; [reflexivity|]. now left. }
  unfold bind at 1. unfold Neo4j.get_patient_by_name. rewrite Hfound.
  unfold bind at 1. cbn [ret].
  destruct (neo4j_create_appointment
              (default 0%Z (_doctor_map form !! doctor_combo form))
              (Text.strip (date_entry form)) (Neo4j.patient_id p) g)
    as (r & g' & Hrun & Hp & Ha).
  unfold bind. rewrite Hrun.
  destruct r; eexists _, _; (split; [reflexivity|]); split; assumption.
Qed.

(** C5 on two patients of one name.  The booking form is filled in for
    Lars Nilsson, with a valid date and a doctor that exists, and two
    Patient records carry that name.  The MySQL variant fetches the first
    matching row and leaves the second unread on its cursor: the INSERT
    of the appointment is refused by the connector, the booking ends in
    the Database Error dialog, and no appointment is created.  The graph
    variant, on the same data, books the appointment for the first
    matching patient, and so does the MySQL variant as long as only one
    row matches. *)
Theorem booking_for_namesake_fails :
  let form := MySQLGui.booking_of_lars "2024-03-01" in
  (exists db',
     MySQLGui.book_appointment String.eqb form Namesakes.two_lars_db
     = (Ok DatabaseError, db')
     /\ MySQL.patient db' = MySQL.patient Namesakes.two_lars_db
     /\ MySQL.appointment db' = MySQL.appointment Namesakes.two_lars_db
     /\ MySQL.issued db' = [MySQL.SELECT_patient_WHERE_name "Lars" "Nilsson"])
  /\ (exists g',
        Neo4jGui.book_appointment form Namesakes.two_lars_graph = (Ok Success, g')
        /\ Neo4j.patients g' = Neo4j.patients Namesakes.two_lars_graph
        /\ Neo4j.appointments g' = [Neo4j.mkAppointment 1 "2024-03-01"]
        /\ Neo4j.PATIENT_HAS_APPOINTMENT g' = [(1, 1)])
  /\ (exists db',
        MySQLGui.book_appointment String.eqb form MySQLGui.sample_db
        = (Ok Success, db')
        /\ MySQL.patient db' = MySQL.patient MySQLGui.sample_db
        /\ MySQL.appointment db'
           = (MySQL.appointment MySQLGui.sample_db
              ++ [MySQL.mkAppointmentRow 5 1 "2024-03-01" 1])%list).
Proof.
  intros form. split; [|split].
  - eexists. split; [vm_compute; reflexivity|]. repeat split; reflexivity.
  - eexists. split; [vm_compute; reflexivity|]. repeat split; reflexivity.
  - eexists. split; [vm_compute; reflexivity|]. split; reflexivity.
Qed.

Example mysql_booking_of_lars :
  exists db',
    MySQLGui.book_appointment String.eqb (MySQLGui.booking_of_lars "2024-03-01")
                              MySQLGui.sample_db = (Ok Success, db')
    /\ MySQL.patient db' = MySQLGui.sample_patients
    /\ MySQL.appointment db'
       = (MySQL.appointment MySQLGui.sample_db
          ++ [MySQL.mkAppointmentRow 5 1 "2024-03-01" 1])%list.
Proof. eexists. split; [vm_compute; reflexivity|]. split; reflexivity. Qed.

Example neo4j_booking_of_lars :
  exists g',
    Neo4jGui.book_appointment (MySQLGui.booking_of_lars "2024-03-01")
                              Neo4j.small_graph = (Ok Success, g')
    /\ Neo4j.patients g' = Neo4j.patients Neo4j.small_graph
    /\ Neo4j.appointments g' = [Neo4j.mkAppointment 1 "2024-03-01"]
    /\ Neo4j.PATIENT_HAS_APPOINTMENT g' = [(1, 1)].
Proof. eexists. split; [vm_compute; reflexivity|]. repeat split; reflexivity. Qed.

End ExistingPatient.

(** ** File storage (MySQL) *)

Section FileRoundTrip.

Import MySQL.
Local Open Scope string_scope.

Lemma filter_none {A} (f : A -> bool) (l : list A) :
  existsb f l = false -> filter f l = [].
Proof.
  induction l as [|x l IH]; [reflexivity|]. cbn [existsb].
  intros H. apply orb_false_elim in H as [Hx Hl].
  rewrite filter_cons. destruct (decide (f x)) as [Hfx|_].
  - rewrite Hx in Hfx. destruct Hfx.
  - now apply IH.
Qed.

Lemma store_file_returns (env : Env) (file_path : string)
    (observation_id_ : option Z) (description_ : option string) (db : Db)
    (fid : Z) (db' : Db) :
  store_file env file_path observation_id_ description_ db = (Ok (Some fid), db') ->
  exists data ftype row,
    read_file env file_path = Some data
    /\ row = mkFileRow fid (Text.basename file_path)
               ftype (Z.of_nat (length data)) data
               (CURRENT_TIMESTAMP db) observation_id_ description_
    /\ medical_files db' = (medical_files db ++ [row])%list
    /\ existsb (fun r => file_id r =? fid)%Z (medical_files db) = false.
Proof.
  unfold store_file, try_except, open_rb.
  destruct (read_file env file_path) as [data|] eqn:Hread.
  2:{ unfold bind, raise, ret. intros [=]. }
  unfold bind at 1. cbn [ret].
  unfold bind at 1. unfold execute_insert_medical_files.
  unfold bind at 1. unfold log at 1. unfold bind at 1. unfold get at 1.
  cbn [medical_files_AUTO_INCREMENT medical_files observation].
  destruct (negb _ || existsb _ (medical_files db)) eqn:Hrefused.
  { unfold raise, ret. intros [=]. }
  apply orb_false_elim in Hrefused as [_ Hfree].
  unfold bind, add_file, commit, log, ret. cbn.
  intros [= <- <-]. cbn.
  eexists data, _, _. split; [reflexivity|]. split; [reflexivity|].
  split; [reflexivity|exact Hfree].
Qed.

(** C3: when [store_file] of a readable path returns an id, [retrieve_file]
    of that id, called next, yields a record whose [file_data] is the
    bytes of the file and whose [filename] is the basename of the path;
    and [store_file(path)] does return an id whenever the path can be read
    and the next key of the table is free. *)
Theorem store_then_retrieve (env : Env) (file_path : string)
    (observation_id_ : option Z) (description_ : option string)
    (db : Db) (data : list Byte.byte) :
  read_file env file_path = Some data ->
  (forall fid db',
     store_file env file_path observation_id_ description_ db = (Ok (Some fid), db') ->
     exists row db'',
       retrieve_file fid db' = (Ok (Some row), db'')
       /\ file_id row = fid
       /\ file_data row = data
       /\ filename row = Text.basename file_path
       /\ file_size row = Z.of_nat (length data))
  /\ (existsb (fun r => file_id r =? medical_files_AUTO_INCREMENT db)%Z
              (medical_files db) = false ->
      exists db',
        store_file env file_path None None db
        = (Ok (Some (medical_files_AUTO_INCREMENT db)), db')).
Proof.
  intros Hread. split.
  - intros fid db' Hstore.
    destruct (store_file_returns _ _ _ _ _ _ _ Hstore)
      as (data' & ftype & row & Hread' & Hrow & Htable & Hfree).
    rewrite Hread in Hread'. injection Hread' as <-.
    unfold retrieve_file, try_except, execute_select_medical_file.
    unfold bind, log, get, ret. cbn [medical_files fst snd].
    rewrite Htable, filter_app, (filter_none _ _ Hfree). cbn [app].
    rewrite filter_cons.
    assert (Hid : file_id row = fid) by (rewrite Hrow; reflexivity).
    destruct (decide (Is_true (file_id row =? fid)%Z)) as [_|Hno].
    2:{ exfalso. apply Hno. rewrite Hid, Z.eqb_refl. exact I. }
    cbn [head]. eexists row, _. split; [reflexivity|].
    split; [exact Hid|]. rewrite Hrow. cbn. repeat split; reflexivity.
  - intros Hfree. unfold store_file, try_except, open_rb. rewrite Hread.
    unfold bind at 1. cbn [ret].
    unfold bind at 1. unfold execute_insert_medical_files.
    unfold bind at 1. unfold log at 1. unfold bind at 1. unfold get at 1.
    cbn [medical_files_AUTO_INCREMENT medical_files observation negb orb].
    rewrite Hfree.
    unfold bind, add_file, commit, log, ret. cbn. eexists. reflexivity.
Qed.

Lemma store_then_retrieve_witness :
  exists fid db' row db'',
    store_file one_file_env "/home/user/images/xray.jpg" None None MySQLGui.sample_db
    = (Ok (Some fid), db')
    /\ retrieve_file fid db' = (Ok (Some row), db'')
    /\ file_data row = [Byte.xff; Byte.xd8; Byte.xff]
    /\ filename row = "xray.jpg".
Proof.
  destruct (store_then_retrieve one_file_env "/home/user/images/xray.jpg" None None
              MySQLGui.sample_db [Byte.xff; Byte.xd8; Byte.xff] eq_refl)
    as (Hround & Hstored).
  destruct (Hstored eq_refl) as (db' & Hstore).
  destruct (Hround _ _ Hstore) as (row & db'' & Hget & _ & Hdata & Hname & _).
  exists (medical_files_AUTO_INCREMENT MySQLGui.sample_db), db', row, db''.
  split; [exact Hstore|]. split; [exact Hget|]. split; [exact Hdata | exact Hname].
Defined.

End FileRoundTrip.

(** ** Conversations (MongoDB) *)

Section Conversations.

Import Mongo.
Local Open Scope string_scope.

Lemma all_in_sym (a b : string) (c : Conversation) : all_in a b c = all_in b a c.
Proof. unfold all_in. apply andb_comm. Qed.

Lemma first_match_sym (a b : string) (cs : list Conversation) :
  first_match a b cs = first_match b a cs.
Proof.
  unfold first_match. f_equal. f_equal.
  apply list_filter_iff. intros c. now rewrite all_in_sym.
Qed.

Lemma first_match_app (a b : string) (cs extra : list Conversation) (id : ObjectId) :
  first_match a b cs = Some id -> first_match a b (cs ++ extra) = Some id.
Proof.
  unfold first_match. rewrite filter_app.
  destruct (filter (all_in a b) cs); [discriminate|]. intros H. exact H.
Qed.

Lemma first_match_update (a b : string) (oid : ObjectId) (t : Z)
    (cs : list Conversation) :
  first_match a b (update_first oid t cs) = first_match a b cs.
Proof.
  unfold first_match. induction cs as [|c cs IH]; [reflexivity|].
  cbn [update_first]. destruct (conversation__id c =? oid)%N.
  - rewrite !filter_cons. change (all_in a b (touch t c)) with (all_in a b c).
    destruct (decide (all_in a b c)); reflexivity.
  - rewrite !filter_cons. destruct (decide (all_in a b c)); [reflexivity|exact IH].
Qed.

Lemma first_match_none (a b : string) (cs : list Conversation) (c : Conversation) :
  first_match a b cs = None -> c ∈ cs -> all_in a b c = false.
Proof.
  unfold first_match. intros Hnone Hin.
  destruct (filter (all_in a b) cs) as [|x l] eqn:Hf; [|discriminate].
  destruct (all_in a b c) eqn:E; [|reflexivity].
  assert (Hc : c ∈ filter (all_in a b) cs)
    by (apply list_elem_of_filter; split; [rewrite E; exact I|exact Hin]).
  rewrite Hf in Hc. inversion Hc.
Qed.

(** What one call does: it returns the first match when there is one and
    writes nothing; otherwise it appends the document of the pair and
    returns its new id. *)
Lemma get_or_create_conversation_spec (a b : string) (s : Store) :
  (exists id, first_match a b (conversations s) = Some id
              /\ get_or_create_conversation a b s = (Ok (Some id), s))
  \/ (first_match a b (conversations s) = None
      /\ get_or_create_conversation a b s
         = (Ok (Some (next_ObjectId s)),
            mkStore (conversations s
                     ++ [mkConversation (next_ObjectId s) [a; b] (now s) (now s) 0])
                    (messages s) (N.succ (next_ObjectId s)) (now s))).
Proof.
  unfold get_or_create_conversation, try_except, bind, find_one_conversation,
    first_match.
  destruct (head (filter (all_in a b) (conversations s))) as [c|].
  - left. exists (conversation__id c). split; reflexivity.
  - right. split; reflexivity.
Qed.

Lemma all_in_new_pair (a b : string) (id : ObjectId) (t1 t2 n : Z) :
  all_in a b (mkConversation id [a; b] t1 t2 n) = true.
Proof.
  unfold all_in. cbn [participants].
  rewrite !bool_decide_eq_true_2; [reflexivity| |]; set_solver.
Qed.

Lemma get_or_create_conversation_returns (a b : string) (s : Store) :
  exists id s',
    get_or_create_conversation a b s = (Ok (Some id), s')
    /\ first_match a b (conversations s') = Some id.
Proof.
  destruct (get_or_create_conversation_spec a b s) as [(id & Hm & Hrun)|[Hnone Hrun]].
  - exists id, s. split; assumption.
  - eexists _, _. split; [exact Hrun|]. cbn [conversations].
    unfold first_match in *. rewrite filter_app.
    destruct (filter (all_in a b) (conversations s)); [|discriminate].
    cbn [app]. rewrite filter_cons.
    destruct (decide (all_in a b _)) as [_|Hno]; [reflexivity|].
    exfalso. apply Hno. rewrite all_in_new_pair. exact I.
Qed.

Lemma step_keeps_first_match (a b : string) (id : ObjectId) (s s' : Store) :
  step s s' ->
  first_match a b (conversations s) = Some id ->
  first_match a b (conversations s') = Some id.
Proof.
  intros Hstep Hm. destruct Hstep as [a' b'|sender c text|t].
  - destruct (get_or_create_conversation_spec a' b' s)
      as [(id' & _ & ->)|[_ ->]]; cbn [snd conversations]; [exact Hm|].
    now apply first_match_app.
  - cbn. now rewrite first_match_update.
  - exact Hm.
Qed.

Lemma later_keeps_first_match (a b : string) (id : ObjectId) (s s' : Store) :
  later s s' ->
  first_match a b (conversations s) = Some id ->
  first_match a b (conversations s') = Some id.
Proof.
  induction 1 as [|s1 s2 _ IH Hstep]; [auto|].
  intros Hm. eapply step_keeps_first_match; [exact Hstep|auto].
Qed.

Lemma get_or_create_conversation_found (a b : string) (id : ObjectId) (s : Store) :
  first_match a b (conversations s) = Some id ->
  get_or_create_conversation a b s = (Ok (Some id), s).
Proof.
  intros Hm.
  destruct (get_or_create_conversation_spec a b s) as [(id' & Hm' & Hrun)|[Hnone _]].
  - rewrite Hm in Hm'. injection Hm' as <-. exact Hrun.
  - rewrite Hm in Hnone. discriminate.
Qed.

Lemma update_first_lookup (oid : ObjectId) (t : Z) (cs : list Conversation) :
  forall (i : nat) (c' : Conversation),
    update_first oid t cs !! i = Some c' ->
    exists c, cs !! i = Some c /\ participants c' = participants c.
Proof.
  induction cs as [|c cs IH]; intros i c' H; [discriminate|].
  cbn [update_first] in H. destruct (conversation__id c =? oid)%N.
  - destruct i as [|i]; cbn in H |- *.
    + injection H as <-. exists c. split; reflexivity.
    + exists c'. split; [exact H|reflexivity].
  - destruct i as [|i]; cbn in H |- *.
    + injection H as <-. exists c. split; reflexivity.
    + now apply IH.
Qed.

Lemma same_pair_all_in (a b : string) (c : Conversation) (id : ObjectId)
    (t1 t2 n : Z) :
  same_pair c (mkConversation id [a; b] t1 t2 n) -> all_in a b c = true.
Proof.
  intros Hsame. unfold all_in.
  rewrite !bool_decide_eq_true_2; [reflexivity| |]; apply Hsame; cbn; set_solver.
Qed.

Lemma same_pair_sym (c1 c2 : Conversation) : same_pair c1 c2 -> same_pair c2 c1.
Proof. intros H u. symmetry. apply H. Qed.

Lemma step_keeps_one_per_pair (s s' : Store) :
  step s s' -> one_per_pair s -> one_per_pair s'.
Proof.
  intros Hstep Hone. destruct Hstep as [a b|sender c text|t]; [| |exact Hone].
  - destruct (get_or_create_conversation_spec a b s)
      as [(id & _ & ->)|[Hnone ->]]; cbn [snd]; [exact Hone|].
    intros i j c1 c2. cbn [conversations].
    set (new := mkConversation (next_ObjectId s) [a; b] (now s) (now s) 0).
    intros H1 H2 Hsame.
    apply lookup_app_Some in H1 as [H1|[Hi H1]];
      apply lookup_app_Some in H2 as [H2|[Hj H2]].
    + exact (Hone i j c1 c2 H1 H2 Hsame).
    + exfalso. apply list_lookup_singleton_Some in H2 as [_ <-].
      pose proof (same_pair_all_in a b c1 _ _ _ _ Hsame) as Hin.
      rewrite (first_match_none a b _ c1 Hnone) in Hin; [discriminate|].
      eapply list_elem_of_lookup_2; exact H1.
    + exfalso. apply list_lookup_singleton_Some in H1 as [_ <-].
      pose proof (same_pair_all_in a b c2 _ _ _ _ (same_pair_sym _ _ Hsame)) as Hin.
      rewrite (first_match_none a b _ c2 Hnone) in Hin; [discriminate|].
      eapply list_elem_of_lookup_2; exact H2.
    + apply list_lookup_singleton_Some in H1 as [H1 _].
      apply list_lookup_singleton_Some in H2 as [H2 _]. lia.
  - intros i j c1 c2. cbn. intros H1 H2 Hsame.
    apply update_first_lookup in H1 as (d1 & H1 & P1).
    apply update_first_lookup in H2 as (d2 & H2 & P2).
    apply (Hone i j d1 d2 H1 H2). intros u. rewrite <- P1, <- P2. apply Hsame.
Qed.

Lemma later_keeps_one_per_pair (s s' : Store) :
  later s s' -> one_per_pair s -> one_per_pair s'.
Proof.
  induction 1 as [|s1 s2 _ IH Hstep]; [auto|].
  intros Hone. eapply step_keeps_one_per_pair; [exact Hstep|auto].
Qed.

Lemma empty_store_one_per_pair (clock : Z) : one_per_pair (empty_store clock).
Proof. intros i j c1 c2 H. discriminate H. Qed.

(** C2: once [get_or_create_conversation(A, B)] has returned an
    identifier, every later call for the pair -- whatever conversations
    were created and messages sent in between, and in either order of the
    two ids -- returns that identifier and leaves the store untouched, so
    no document is added; and the calls keep the store at one conversation
    document per unordered pair: a store that had at most one per pair,
    as the empty store has, still has at most one. *)
Theorem conversation_per_pair (A B : string) (s s1 s2 : Store) (id : ObjectId) :
  get_or_create_conversation A B s = (Ok (Some id), s1) ->
  later s1 s2 ->
  get_or_create_conversation A B s2 = (Ok (Some id), s2)
  /\ get_or_create_conversation B A s2 = (Ok (Some id), s2)
  /\ (one_per_pair s -> one_per_pair s1 /\ one_per_pair s2)
  /\ (forall clock, one_per_pair (empty_store clock)).
Proof.
  intros Hfirst Hlater.
  assert (Hm1 : first_match A B (conversations s1) = Some id).
  { destruct (get_or_create_conversation_returns A B s) as (id' & s' & Hrun & Hm).
    rewrite Hfirst in Hrun. injection Hrun as -> ->. exact Hm. }
  pose proof (later_keeps_first_match A B id s1 s2 Hlater Hm1) as Hm2.
  split; [now apply get_or_create_conversation_found|].
  split; [apply get_or_create_conversation_found; now rewrite first_match_sym|].
  split; [|apply empty_store_one_per_pair].
  intros Hone.
  assert (Hone1 : one_per_pair s1).
  { apply (step_keeps_one_per_pair s); [|exact Hone].
    replace s1 with (snd (get_or_create_conversation A B s))
      by (now rewrite Hfirst).
    constructor. }
  split; [exact Hone1|]. now apply (later_keeps_one_per_pair s1).
Qed.

Lemma conversation_per_pair_witness :
  let s := empty_store 100 in
  let s1 := snd (get_or_create_conversation "doctor" "patient" s) in
  let s2 := snd (send_message "doctor" 0%N "Hello"
                   (snd (get_or_create_conversation "doctor" "nurse" s1))) in
  get_or_create_conversation "doctor" "patient" s = (Ok (Some 0%N), s1)
  /\ later s1 s2
  /\ get_or_create_conversation "patient" "doctor" s2 = (Ok (Some 0%N), s2)
  /\ length (conversations s2) = 2%nat.
Proof.
  intros s s1 s2.
  assert (Hfirst : get_or_create_conversation "doctor" "patient" s = (Ok (Some 0%N), s1))
    by reflexivity.
  assert (Hlater : later s1 s2).
  { eapply later_step; [eapply later_step; [apply later_now|]|].
    - apply (step_get_or_create s1 "doctor" "nurse").
    - apply step_send_message. }
  destruct (conversation_per_pair "doctor" "patient" s s1 s2 0%N Hfirst Hlater)
    as (_ & Hswap & _).
  split; [exact Hfirst|]. split; [exact Hlater|]. split; [exact Hswap|reflexivity].
Defined.

End Conversations.

(** ** Message history (MongoDB) *)

Section MessageHistory.

Import Mongo.

Lemma newer_first_rel_iff (a b : Message) :
  newer_first_rel a b <-> at_least_as_recent a b.
Proof.
  unfold newer_first_rel, newer_first, at_least_as_recent.
  rewrite Is_true_true. apply Z.leb_le.
Qed.

Instance newer_first_total : Total newer_first_rel.
Proof.
  intros a b. rewrite !newer_first_rel_iff. unfold at_least_as_recent. lia.
Qed.

Instance newer_first_trans : Transitive newer_first_rel.
Proof.
  intros a b c. rewrite !newer_first_rel_iff. unfold at_least_as_recent. lia.
Qed.

Lemma StronglySorted_weaken {A} (R1 R2 : relation A) (l : list A) :
  (forall a b, R1 a b -> R2 a b) -> StronglySorted R1 l -> StronglySorted R2 l.
Proof.
  intros Hsub. induction 1 as [|x l Hs IH Hx]; constructor; [exact IH|].
  eapply Forall_impl; [exact Hx|]. intros b. apply Hsub.
Qed.

Lemma order_by_newer_first (l : list Message) :
  StronglySorted at_least_as_recent (order_by newer_first l)
  /\ order_by newer_first l ≡ₚ l.
Proof.
  split; [|apply merge_sort_Permutation].
  apply (StronglySorted_weaken newer_first_rel).
  - intros a b. apply newer_first_rel_iff.
  - apply (StronglySorted_merge_sort newer_first_rel).
Qed.

Lemma StronglySorted_rev {A} (R : relation A) (l : list A) :
  StronglySorted R l -> StronglySorted (flip R) (rev l).
Proof.
  induction 1 as [|x l Hs IH Hx]; [constructor|].
  cbn [rev]. apply StronglySorted_app. split; [|split; [exact IH|]].
  - intros a b Ha Hb. apply list_elem_of_singleton in Hb as ->.
    rewrite Forall_forall in Hx. apply Hx.
    apply list_elem_of_In. apply in_rev. now apply list_elem_of_In.
  - repeat constructor.
Qed.

(** The history for a positive limit and a skip that is not negative:
    at most [limit] messages, oldest first, and they are the most recent
    of the conversation once the [skip] newest are set aside. *)
Lemma get_conversation_messages_recent (c : ObjectId) (limit skip : Z) (s : Store) :
  0 < limit -> 0 <= skip ->
  exists history skipped older,
    get_conversation_messages c limit skip s = (Ok history, s)
    /\ (Z.of_nat (length history) <= limit)
    /\ StronglySorted not_later history
    /\ messages_of s c ≡ₚ skipped ++ rev history ++ older
    /\ length skipped = Nat.min (Z.to_nat skip) (length (messages_of s c))
    /\ length history
       = Nat.min (Z.to_nat limit) (length (messages_of s c) - Z.to_nat skip)
    /\ (forall a b, a ∈ skipped -> b ∈ history -> at_least_as_recent a b)
    /\ (forall a b, a ∈ history -> b ∈ older -> at_least_as_recent a b).
Proof.
  intros Hlimit Hskip.
  unfold get_conversation_messages, try_except, bind, find_messages, ret.
  destruct (skip <? 0) eqn:Hneg; [apply Z.ltb_lt in Hneg; lia|].
  unfold apply_limit. destruct (limit =? 0) eqn:Hzero; [apply Z.eqb_eq in Hzero; lia|].
  rewrite (Z.abs_eq limit) by lia. fold (messages_of s c).
  destruct (order_by_newer_first (messages_of s c)) as [Hsorted Hperm].
  set (sorted := order_by newer_first (messages_of s c)) in *.
  set (k := Z.to_nat skip). set (n := Z.to_nat limit).
  exists (rev (take n (drop k sorted))), (take k sorted), (drop n (drop k sorted)).
  assert (Hsplit : sorted = take k sorted ++ take n (drop k sorted) ++ drop n (drop k sorted))
    by (now rewrite take_drop, take_drop).
  assert (Hlen : length sorted = length (messages_of s c))
    by (now rewrite Hperm).
  split; [reflexivity|]. split.
  { rewrite length_rev, length_take. lia. }
  split.
  { apply (StronglySorted_rev at_least_as_recent).
    rewrite Hsplit in Hsorted.
    apply StronglySorted_app_1_r, StronglySorted_app_1_l in Hsorted. exact Hsorted. }
  split.
  { rewrite rev_involutive, <- Hsplit. now symmetry. }
  split.
  { rewrite length_take, Hlen. reflexivity. }
  split.
  { rewrite length_rev, length_take, length_drop, Hlen. reflexivity. }
  split.
  - intros a b Ha Hb. rewrite Hsplit in Hsorted.
    apply (StronglySorted_app_1_elem_of _ _ _ a b Hsorted Ha).
    apply elem_of_app. left.
    apply list_elem_of_In. apply in_rev. now apply list_elem_of_In.
  - intros a b Ha Hb. rewrite Hsplit in Hsorted.
    apply StronglySorted_app_1_r in Hsorted.
    apply (StronglySorted_app_1_elem_of _ _ _ a b Hsorted); [|exact Hb].
    apply list_elem_of_In. apply in_rev. now apply list_elem_of_In.
Qed.

(** C7 at limit 0: for the conversation of [two_messages_store],
    [get_conversation_messages(c, limit=0)] returns both messages, where
    "at most [limit]" allows none: the store takes a limit of 0 as no
    limit and the method passes the number on as it is. *)
Theorem get_conversation_messages_limit_zero :
  exists history,
    get_conversation_messages 0%N 0 0 two_messages_store
    = (Ok history, two_messages_store)
    /\ map message_text history = ["Hello"; "Hi"]%string
    /\ ~ (Z.of_nat (length history) <= 0).
Proof.
  eexists. split; [vm_compute; reflexivity|]. split; [reflexivity|].
  simpl. lia.
Qed.

Example get_conversation_messages_limit_one :
  map message_text (default [] (returned (fst
    (get_conversation_messages 0%N 1 0 two_messages_store)))) = ["Hi"]%string.
Proof. vm_compute. reflexivity. Qed.

Example get_conversation_messages_skip_one :
  map message_text (default [] (returned (fst
    (get_conversation_messages 0%N 5 1 two_messages_store)))) = ["Hello"]%string.
Proof. vm_compute. reflexivity. Qed.

Example get_conversation_messages_negative_skip :
  get_conversation_messages 0%N 5 (-1) two_messages_store
  = (Ok [], two_messages_store).
Proof. reflexivity. Qed.

End MessageHistory.

(** ** Booking for a patient who is not yet known (MySQL) *)

Section NewPatient.

Local Open Scope string_scope.

Lemma existsb_key_below {A} (key : A -> Z) (k : Z) (l : list A) :
  Forall (fun x => key x < k)%Z l -> existsb (fun x => key x =? k)%Z l = false.
Proof.
  induction 1 as [|x l Hx _ IH]; [reflexivity|]. cbn [existsb].
  rewrite IH, orb_false_r. apply Z.eqb_neq. lia.
Qed.

Lemma form_ready_checks (form : BookingForm) (doctor_id : Z) :
  form_ready form doctor_id ->
  negb (Text.truthy (Text.strip (fname_entry form))
        && Text.truthy (Text.strip (lname_entry form))
        && Text.truthy (doctor_combo form)
        && Text.truthy (Text.strip (date_entry form))) = false
  /\ negb (DateValidation.validate_date_yyyy_mm_dd (Text.strip (date_entry form)))
     = false
  /\ no_doctor (_doctor_map form !! doctor_combo form) = false
  /\ default 0%Z (_doctor_map form !! doctor_combo form) = doctor_id.
Proof.
  intros (H1 & H2 & H3 & H4 & H5 & H6 & H7).
  rewrite H1, H2, H3, H4, H5, H6. cbn [no_doctor default].
  repeat split; try reflexivity. apply Z.eqb_neq. exact H7.
Qed.

Lemma same_tables_refl (db : MySQL.Db) : same_tables db db.
Proof. repeat split. Qed.

Lemma same_tables_trans (a b c : MySQL.Db) :
  same_tables a b -> same_tables b c -> same_tables a c.
Proof.
  unfold same_tables. intros H1 H2.
  repeat match goal with H : _ /\ _ |- _ => destruct H end.
  repeat split; congruence.
Qed.

Lemma log_same_tables (st : MySQL.Statement) (db : MySQL.Db) :
  exists db1, MySQL.log st db = (Ok tt, db1) /\ same_tables db db1
              /\ MySQL.issued db1 = (MySQL.issued db ++ [st])%list.
Proof. eexists. split; [reflexivity|]. split; [repeat split|reflexivity]. Qed.

Lemma has_doctor_same (a b : MySQL.Db) (k : Z) :
  same_tables a b -> MySQLGui.has_doctor b k = MySQLGui.has_doctor a k.
Proof. intros (H & _). unfold MySQLGui.has_doctor. now rewrite H. Qed.

Lemma execute_select_patient_eq (varchar_eqb : string -> string -> bool)
    (fname lname : string) (db : MySQL.Db) :
  exists db1,
    MySQLGui.execute_select_patient varchar_eqb fname lname db
    = (Ok (map MySQL.patient_id
              (filter (fun p => varchar_eqb (MySQL.patient_first_name p) fname
                                && varchar_eqb (MySQL.patient_last_name p) lname)
                      (MySQL.patient db))), db1)
    /\ same_tables db db1.
Proof. eexists. split; [reflexivity|]. repeat split. Qed.

Lemma execute_insert_patient_ok (fname lname : string) (doctor_id : Z)
    (db : MySQL.Db) :
  MySQLGui.has_doctor db doctor_id = true ->
  Forall (fun p => MySQL.patient_id p < MySQL.patient_AUTO_INCREMENT db)
         (MySQL.patient db) ->
  exists db1,
    MySQLGui.execute_insert_patient fname lname doctor_id db
    = (Ok (MySQL.patient_AUTO_INCREMENT db), db1)
    /\ MySQL.patient db1
       = (MySQL.patient db
          ++ [MySQL.mkPatientRow (MySQL.patient_AUTO_INCREMENT db)
                                 fname lname doctor_id])%list
    /\ MySQL.patient_AUTO_INCREMENT db1 = MySQL.patient_AUTO_INCREMENT db + 1
    /\ MySQL.doctor db1 = MySQL.doctor db
    /\ MySQL.appointment db1 = MySQL.appointment db
    /\ MySQL.appointment_AUTO_INCREMENT db1 = MySQL.appointment_AUTO_INCREMENT db.
Proof.
  intros Hdoc Hkeys. unfold MySQLGui.execute_insert_patient.
  unfold bind, MySQL.log, get, MySQLGui.has_doctor, MySQLGui.has_patient in *.
  cbn [MySQL.doctor MySQL.patient MySQL.patient_AUTO_INCREMENT].
  rewrite Hdoc, (existsb_key_below _ _ _ Hkeys). cbn.
  eexists. split; [reflexivity|]. repeat split.
Qed.

Lemma execute_insert_appointment_ok (doctor_id : Z) (date : string)
    (patient_id : Z) (db : MySQL.Db) :
  MySQLGui.has_doctor db doctor_id = true ->
  MySQLGui.has_patient db patient_id = true ->
  Forall (fun a => MySQL.appointment_id a < MySQL.appointment_AUTO_INCREMENT db)
         (MySQL.appointment db) ->
  exists db1,
    MySQLGui.execute_insert_appointment doctor_id date patient_id db
    = (Ok (MySQL.appointment_AUTO_INCREMENT db), db1)
    /\ MySQL.appointment db1
       = (MySQL.appointment db
          ++ [MySQL.mkAppointmentRow (MySQL.appointment_AUTO_INCREMENT db)
                                     doctor_id date patient_id])%list
    /\ MySQL.appointment_AUTO_INCREMENT db1 = MySQL.appointment_AUTO_INCREMENT db + 1
    /\ MySQL.doctor db1 = MySQL.doctor db
    /\ MySQL.patient db1 = MySQL.patient db
    /\ MySQL.patient_AUTO_INCREMENT db1 = MySQL.patient_AUTO_INCREMENT db.
Proof.
  intros Hdoc Hpat Hkeys. unfold MySQLGui.execute_insert_appointment.
  unfold bind, MySQL.log, get, MySQLGui.has_doctor, MySQLGui.has_patient,
    MySQLGui.has_appointment in *.
  cbn [MySQL.doctor MySQL.patient MySQL.appointment MySQL.appointment_AUTO_INCREMENT].
  rewrite Hdoc, Hpat, (existsb_key_below _ _ _ Hkeys). cbn.
  eexists. split; [reflexivity|]. repeat split.
Qed.

Lemma keys_below_after_patient (db db1 : MySQL.Db) (row : MySQL.PatientRow) :
  Forall (fun p => MySQL.patient_id p < MySQL.patient_AUTO_INCREMENT db)
         (MySQL.patient db) ->
  MySQL.patient db1 = (MySQL.patient db ++ [row])%list ->
  MySQL.patient_id row = MySQL.patient_AUTO_INCREMENT db ->
  MySQL.patient_AUTO_INCREMENT db1 = MySQL.patient_AUTO_INCREMENT db + 1 ->
  Forall (fun p => MySQL.patient_id p < MySQL.patient_AUTO_INCREMENT db1)
         (MySQL.patient db1).
Proof.
  intros Hk -> Hid ->. apply Forall_app. split.
  - eapply Forall_impl; [exact Hk|]. cbn. intros; lia.
  - repeat constructor. lia.
Qed.

Lemma keys_below_after_appointment (db db1 : MySQL.Db) (row : MySQL.AppointmentRow) :
  Forall (fun a => MySQL.appointment_id a < MySQL.appointment_AUTO_INCREMENT db)
         (MySQL.appointment db) ->
  MySQL.appointment db1 = (MySQL.appointment db ++ [row])%list ->
  MySQL.appointment_id row = MySQL.appointment_AUTO_INCREMENT db ->
  MySQL.appointment_AUTO_INCREMENT db1 = MySQL.appointment_AUTO_INCREMENT db + 1 ->
  Forall (fun a => MySQL.appointment_id a < MySQL.appointment_AUTO_INCREMENT db1)
         (MySQL.appointment db1).
Proof.
  intros Hk -> Hid ->. apply Forall_app. split.
  - eapply Forall_impl; [exact Hk|]. cbn. intros; lia.
  - repeat constructor. lia.
Qed.

(** The run of [book_appointment] for names no patient row matches,
    statement by statement, with what it leaves of the counters. *)
Lemma mysql_booking_new_patient
    (varchar_eqb : string -> string -> bool) (form : BookingForm)
    (db : MySQL.Db) (doctor_id : Z) :
  let fname := Text.strip (fname_entry form) in
  let lname := Text.strip (lname_entry form) in
  form_ready form doctor_id ->
  MySQLGui.has_doctor db doctor_id = true ->
  keys_below_counters db ->
  filter (fun r => varchar_eqb (MySQL.patient_first_name r) fname
                   && varchar_eqb (MySQL.patient_last_name r) lname)
         (MySQL.patient db) = [] ->
  exists db',
    MySQLGui.book_appointment varchar_eqb form db = (Ok Success, db')
    /\ MySQL.patient db'
       = (MySQL.patient db
          ++ [MySQL.mkPatientRow (MySQL.patient_AUTO_INCREMENT db)
                                 fname lname doctor_id])%list
    /\ MySQL.appointment db'
       = (MySQL.appointment db
          ++ [MySQL.mkAppointmentRow (MySQL.appointment_AUTO_INCREMENT db)
                doctor_id (Text.strip (date_entry form))
                (MySQL.patient_AUTO_INCREMENT db)])%list
    /\ MySQL.doctor db' = MySQL.doctor db
    /\ keys_below_counters db'
    /\ MySQL.appointment_AUTO_INCREMENT db'
       = MySQL.appointment_AUTO_INCREMENT db + 1.
Proof.
  intros fname lname Hready Hdoc [Hpk Hak] Hnone. subst fname lname.
  destruct (form_ready_checks form doctor_id Hready) as (C1 & C2 & C3 & C4).
  unfold MySQLGui.book_appointment.
  rewrite C1, C2. unfold try_except. rewrite C3, C4.
  destruct (execute_select_patient_eq varchar_eqb (Text.strip (fname_entry form))
              (Text.strip (lname_entry form)) db) as (db1 & Hsel & S1).
  rewrite Hnone in Hsel. cbn [map] in Hsel.
  rewrite (bind_ok _ _ _ _ _ Hsel).
  cbn [MySQLGui.fetchone head tail fst snd MySQLGui.handle_unread_result].
  pose proof S1 as (Sd & Sp & Spk & Sa & Sak & _).
  destruct (execute_insert_patient_ok (Text.strip (fname_entry form))
              (Text.strip (lname_entry form)) doctor_id db1) as (db2 & Hins & P2 & K2 & D2 & A2 & AK2).
  { now rewrite (has_doctor_same db db1). }
  { now rewrite <- Sp, <- Spk. }
  destruct (log_same_tables MySQL.COMMIT db2) as (db3 & Hc1 & S3 & _).
  pose proof S3 as (Sd3 & Sp3 & Spk3 & Sa3 & Sak3 & _).
  assert (Hcreate :
    bind (MySQLGui.execute_insert_patient (Text.strip (fname_entry form))
            (Text.strip (lname_entry form)) doctor_id)
         (fun lastrowid => bind MySQL.commit (fun _ => ret lastrowid)) db1
    = (Ok (MySQL.patient_AUTO_INCREMENT db1), db3)).
  { rewrite (bind_ok _ _ _ _ _ Hins). unfold MySQL.commit.
    rewrite (bind_ok _ _ _ _ _ Hc1). reflexivity. }
  rewrite (bind_ok _ _ _ _ _ Hcreate).
  destruct (execute_insert_appointment_ok doctor_id (Text.strip (date_entry form))
              (MySQL.patient_AUTO_INCREMENT db1) db3) as (db4 & Happ & A4 & AK4 & D4 & P4 & PK4).
  { rewrite (has_doctor_same db2 db3 _ S3). unfold MySQLGui.has_doctor.
    rewrite D2. fold (MySQLGui.has_doctor db1 doctor_id).
    now rewrite (has_doctor_same db db1). }
  { unfold MySQLGui.has_patient. rewrite <- Sp3, P2, existsb_app. cbn [existsb MySQL.patient_id].
    now rewrite Z.eqb_refl, orb_true_r. }
  { now rewrite <- Sa3, <- Sak3, A2, AK2, <- Sa, <- Sak. }
  rewrite bind_ret, (bind_ok _ _ _ _ _ Happ).
  destruct (log_same_tables MySQL.COMMIT db4) as (db5 & Hc2 & S5 & _).
  pose proof S5 as (Sd5 & Sp5 & Spk5 & Sa5 & Sak5 & _).
  unfold MySQL.commit. rewrite (bind_ok _ _ _ _ _ Hc2). cbn [ret].
  exists db5. split; [reflexivity|].
  assert (EP : MySQL.patient db5
               = (MySQL.patient db
                  ++ [MySQL.mkPatientRow (MySQL.patient_AUTO_INCREMENT db)
                        (Text.strip (fname_entry form))
                        (Text.strip (lname_entry form)) doctor_id])%list)
    by (now rewrite <- Sp5, P4, <- Sp3, P2, <- Sp, <- Spk).
  assert (EA : MySQL.appointment db5
               = (MySQL.appointment db
                  ++ [MySQL.mkAppointmentRow (MySQL.appointment_AUTO_INCREMENT db)
                        doctor_id (Text.strip (date_entry form))
                        (MySQL.patient_AUTO_INCREMENT db)])%list)
    by (now rewrite <- Sa5, A4, <- Sa3, <- Sak3, A2, AK2, <- Sa, <- Sak, <- Spk).
  split; [exact EP|]. split; [exact EA|].
  split; [now rewrite <- Sd5, D4, <- Sd3, D2, <- Sd|].
  assert (EK : MySQL.appointment_AUTO_INCREMENT db5
               = MySQL.appointment_AUTO_INCREMENT db + 1)
    by (now rewrite <- Sak5, AK4, <- Sak3, AK2, <- Sak).
  split; [|exact EK]. split.
  - eapply keys_below_after_patient; [exact Hpk|exact EP|reflexivity|].
    rewrite <- Spk5, PK4, <- Spk3, K2, <- Spk. reflexivity.
  - eapply keys_below_after_appointment; [exact Hak|exact EA|reflexivity|exact EK].
Qed.

(** When no row of the patient table matches the names of the form,
    [book_appointment] adds exactly one patient row -- the stripped names,
    the selected doctor as primary doctor, the next key -- and one
    appointment row that refers to it. *)
Theorem mysql_booking_creates_patient
    (varchar_eqb : string -> string -> bool) (form : BookingForm)
    (db : MySQL.Db) (doctor_id : Z) :
  let fname := Text.strip (fname_entry form) in
  let lname := Text.strip (lname_entry form) in
  form_ready form doctor_id ->
  MySQLGui.has_doctor db doctor_id = true ->
  keys_below_counters db ->
  filter (fun r => varchar_eqb (MySQL.patient_first_name r) fname
                   && varchar_eqb (MySQL.patient_last_name r) lname)
         (MySQL.patient db) = [] ->
  exists db',
    MySQLGui.book_appointment varchar_eqb form db = (Ok Success, db')
    /\ MySQL.patient db'
       = (MySQL.patient db
          ++ [MySQL.mkPatientRow (MySQL.patient_AUTO_INCREMENT db)
                                 fname lname doctor_id])%list
    /\ MySQL.appointment db'
       = (MySQL.appointment db
          ++ [MySQL.mkAppointmentRow (MySQL.appointment_AUTO_INCREMENT db)
                doctor_id (Text.strip (date_entry form))
                (MySQL.patient_AUTO_INCREMENT db)])%list
    /\ MySQL.doctor db' = MySQL.doctor db
    /\ keys_below_counters db'.
Proof.
  intros fname lname Hready Hdoc Hkeys Hnone.
  destruct (mysql_booking_new_patient varchar_eqb form db doctor_id
              Hready Hdoc Hkeys Hnone) as (db' & Hrun & P & A & D & K & _).
  exists db'. repeat split; try assumption; apply K.
Qed.

Lemma mysql_booking_creates_patient_witness :
  let form := mkBookingForm " Eva " "Berg" "Dr. Anna Johnson" "2024-03-01"
                            {["Dr. Anna Johnson" := 1%Z]} in
  exists db',
    MySQLGui.book_appointment String.eqb form MySQLGui.sample_db = (Ok Success, db')
    /\ MySQL.patient db'
       = (MySQLGui.sample_patients ++ [MySQL.mkPatientRow 3 "Eva" "Berg" 1])%list.
Proof.
  intros form.
  assert (Hready : form_ready form 1).
  { unfold form_ready. repeat split; try reflexivity. discriminate. }
  assert (Hkeys : keys_below_counters MySQLGui.sample_db).
  { split; cbn; repeat constructor; cbn; lia. }
  destruct (mysql_booking_creates_patient String.eqb form MySQLGui.sample_db 1
              Hready eq_refl Hkeys eq_refl) as (db' & Hrun & Hpat & _).
  exists db'. split; [exact Hrun | exact Hpat].
Defined.

(** A booking for names that match one patient row succeeds when the form
    is in order and the doctor exists: one appointment row is added for
    that patient, and nothing else changes. *)
Lemma mysql_booking_existing_succeeds
    (varchar_eqb : string -> string -> bool) (form : BookingForm)
    (db : MySQL.Db) (doctor_id : Z) (p : MySQL.PatientRow) :
  form_ready form doctor_id ->
  MySQLGui.has_doctor db doctor_id = true ->
  keys_below_counters db ->
  filter (fun r => varchar_eqb (MySQL.patient_first_name r)
                               (Text.strip (fname_entry form))
                   && varchar_eqb (MySQL.patient_last_name r)
                                  (Text.strip (lname_entry form)))
         (MySQL.patient db) = [p] ->
  exists db',
    MySQLGui.book_appointment varchar_eqb form db = (Ok Success, db')
    /\ MySQL.patient db' = MySQL.patient db
    /\ MySQL.appointment db'
       = (MySQL.appointment db
          ++ [MySQL.mkAppointmentRow (MySQL.appointment_AUTO_INCREMENT db)
                doctor_id (Text.strip (date_entry form)) (MySQL.patient_id p)])%list
    /\ MySQL.doctor db' = MySQL.doctor db
    /\ keys_below_counters db'.
Proof.
  intros Hready Hdoc [Hpk Hak] Hfound.
  destruct (form_ready_checks form doctor_id Hready) as (C1 & C2 & C3 & C4).
  unfold MySQLGui.book_appointment.
  rewrite C1, C2. unfold try_except. rewrite C3, C4.
  destruct (execute_select_patient_eq varchar_eqb (Text.strip (fname_entry form))
              (Text.strip (lname_entry form)) db) as (db1 & Hsel & S1).
  rewrite Hfound in Hsel. cbn [map] in Hsel.
  rewrite (bind_ok _ _ _ _ _ Hsel).
  cbn [MySQLGui.fetchone head tail fst snd MySQLGui.handle_unread_result].
  pose proof S1 as (Sd & Sp & Spk & Sa & Sak & _).
  rewrite !bind_ret.
  assert (Hin : p ∈ MySQL.patient db).
  { assert (Hp : p ∈ filter (fun r => varchar_eqb (MySQL.patient_first_name r)
                                        (Text.strip (fname_entry form))
                            && varchar_eqb (MySQL.patient_last_name r)
                                           (Text.strip (lname_entry form)))
                            (MySQL.patient db)) by (rewrite Hfound; left).
    now apply list_elem_of_filter in Hp as [_ Hp]. }
  destruct (execute_insert_appointment_ok doctor_id (Text.strip (date_entry form))
              (MySQL.patient_id p) db1) as (db4 & Happ & A4 & AK4 & D4 & P4 & PK4).
  { now rewrite (has_doctor_same db db1). }
  { unfold MySQLGui.has_patient. rewrite <- Sp. apply existsb_exists.
    exists p. split; [now apply list_elem_of_In|apply Z.eqb_refl]. }
  { now rewrite <- Sa, <- Sak. }
  rewrite (bind_ok _ _ _ _ _ Happ).
  destruct (log_same_tables MySQL.COMMIT db4) as (db5 & Hc2 & S5 & _).
  pose proof S5 as (Sd5 & Sp5 & Spk5 & Sa5 & Sak5 & _).
  unfold MySQL.commit. rewrite (bind_ok _ _ _ _ _ Hc2). cbn [ret].
  exists db5. split; [reflexivity|].
  assert (EA : MySQL.appointment db5
               = (MySQL.appointment db
                  ++ [MySQL.mkAppointmentRow (MySQL.appointment_AUTO_INCREMENT db)
                        doctor_id (Text.strip (date_entry form))
                        (MySQL.patient_id p)])%list)
    by (now rewrite <- Sa5, A4, <- Sa, <- Sak).
  split; [now rewrite <- Sp5, P4, <- Sp|]. split; [exact EA|].
  split; [now rewrite <- Sd5, D4, <- Sd|].
  split.
  - now rewrite <- Sp5, <- Spk5, P4, PK4, <- Sp, <- Spk.
  - eapply keys_below_after_appointment; [exact Hak|exact EA|reflexivity|].
    rewrite <- Sak5, AK4, <- Sak. reflexivity.
Qed.

(** Two bookings in a row with the same form, for a patient unknown at
    first: the first creates the patient, the second finds that row again
    (the collation makes every name equal to itself), so the patient table
    holds the new patient once and both appointments refer to it. *)
Theorem mysql_booking_twice_one_patient
    (varchar_eqb : string -> string -> bool) (form : BookingForm)
    (db : MySQL.Db) (doctor_id : Z) :
  let fname := Text.strip (fname_entry form) in
  let lname := Text.strip (lname_entry form) in
  let date := Text.strip (date_entry form) in
  (forall x, varchar_eqb x x = true) ->
  form_ready form doctor_id ->
  MySQLGui.has_doctor db doctor_id = true ->
  keys_below_counters db ->
  filter (fun r => varchar_eqb (MySQL.patient_first_name r) fname
                   && varchar_eqb (MySQL.patient_last_name r) lname)
         (MySQL.patient db) = [] ->
  exists db1 db2,
    MySQLGui.book_appointment varchar_eqb form db = (Ok Success, db1)
    /\ MySQLGui.book_appointment varchar_eqb form db1 = (Ok Success, db2)
    /\ MySQL.patient db2
       = (MySQL.patient db
          ++ [MySQL.mkPatientRow (MySQL.patient_AUTO_INCREMENT db)
                                 fname lname doctor_id])%list
    /\ MySQL.appointment db2
       = (MySQL.appointment db
          ++ [MySQL.mkAppointmentRow (MySQL.appointment_AUTO_INCREMENT db)
                doctor_id date (MySQL.patient_AUTO_INCREMENT db);
              MySQL.mkAppointmentRow (MySQL.appointment_AUTO_INCREMENT db + 1)
                doctor_id date (MySQL.patient_AUTO_INCREMENT db)])%list.
Proof.
  intros fname lname date Hrefl Hready Hdoc Hkeys Hnone. subst fname lname date.
  destruct (mysql_booking_new_patient varchar_eqb form db doctor_id
              Hready Hdoc Hkeys Hnone) as (db1 & Hrun1 & P1 & A1 & D1 & K1 & AK1).
  set (new := MySQL.mkPatientRow (MySQL.patient_AUTO_INCREMENT db)
                (Text.strip (fname_entry form)) (Text.strip (lname_entry form))
                doctor_id) in *.
  assert (Hfound :
    filter (fun r => varchar_eqb (MySQL.patient_first_name r)
                                 (Text.strip (fname_entry form))
                     && varchar_eqb (MySQL.patient_last_name r)
                                    (Text.strip (lname_entry form)))
           (MySQL.patient db1) = [new]).
  { rewrite P1, filter_app, Hnone. cbn [app]. rewrite filter_cons.
    cbn [MySQL.patient_first_name MySQL.patient_last_name new].
    rewrite !Hrefl. reflexivity. }
  assert (Hdoc1 : MySQLGui.has_doctor db1 doctor_id = true)
    by (unfold MySQLGui.has_doctor; rewrite D1; exact Hdoc).
  destruct (mysql_booking_existing_succeeds varchar_eqb form db1 doctor_id new
              Hready Hdoc1 K1 Hfound) as (db2 & Hrun2 & P2 & A2 & _).
  exists db1, db2. split; [exact Hrun1|]. split; [exact Hrun2|].
  split; [now rewrite P2|].
  rewrite A2, A1, AK1. cbn [MySQL.patient_id new]. rewrite <- app_assoc. reflexivity.
Qed.

Lemma mysql_booking_twice_one_patient_witness :
  let form := mkBookingForm " Eva " "Berg" "Dr. Anna Johnson" "2024-03-01"
                            {["Dr. Anna Johnson" := 1%Z]} in
  exists db1 db2,
    MySQLGui.book_appointment String.eqb form MySQLGui.sample_db = (Ok Success, db1)
    /\ MySQLGui.book_appointment String.eqb form db1 = (Ok Success, db2)
    /\ length (MySQL.patient db2) = 3%nat
    /\ map MySQL.appointment_patient_id (MySQL.appointment db2) = [1; 2; 1; 2; 3; 3]%Z.
Proof.
  intros form.
  assert (Hready : form_ready form 1).
  { unfold form_ready. repeat split; try reflexivity. discriminate. }
  assert (Hkeys : keys_below_counters MySQLGui.sample_db).
  { split; cbn; repeat constructor; cbn; lia. }
  destruct (mysql_booking_twice_one_patient String.eqb form MySQLGui.sample_db 1
              String.eqb_refl Hready eq_refl Hkeys eq_refl)
    as (db1 & db2 & Hrun1 & Hrun2 & Hpat & Happ).
  exists db1, db2. split; [exact Hrun1|]. split; [exact Hrun2|].
  split; [now rewrite Hpat|now rewrite Happ].
Defined.

End NewPatient.

(** ** Patients and appointments in the graph (Neo4j) *)

Section GraphPatients.

Import Neo4j.
Local Open Scope string_scope.

(** [_next_id] changes the Counter nodes and nothing else. *)
Lemma next_id_shape (label : string) (g : Graph) :
  exists id g1,
    _next_id label g = (Ok id, g1)
    /\ (g1 = g \/ exists cs, g1 = with_counters g cs).
Proof.
  unfold _next_id.
  destruct (map _ (counters g)) as [|[id ?] ?]; eexists _, _;
    (split; [reflexivity|]); [left; reflexivity|right; eexists; reflexivity].
Qed.

Lemma create_patient_inv (first_name last_name : string) (doctor : option Z)
    (g g' : Graph) (pid : Z) :
  create_patient first_name last_name doctor g = (Ok pid, g') ->
  fst (_next_id "Patient" g) = Ok pid
  /\ has_patient_node g pid = false
  /\ patients g' = (patients g ++ [mkPatient pid first_name last_name])%list
  /\ doctors g' = doctors g
  /\ appointments g' = appointments g.
Proof.
  unfold create_patient.
  destruct (next_id_shape "Patient" g) as (id & g1 & Hid & Hshape).
  rewrite (bind_ok _ _ _ _ _ Hid). rewrite Hid. cbn [fst].
  assert (Hp1 : patients g1 = patients g)
    by (destruct Hshape as [->|[cs ->]]; reflexivity).
  assert (Hd1 : doctors g1 = doctors g)
    by (destruct Hshape as [->|[cs ->]]; reflexivity).
  assert (Ha1 : appointments g1 = appointments g)
    by (destruct Hshape as [->|[cs ->]]; reflexivity).
  unfold bind at 1. unfold run_create_patient. cbn [patient_id].
  destruct (has_patient_node g1 id) eqn:Htaken; [intros [=]|].
  unfold bind at 1.
  destruct doctor as [did|]; cbn [ret].
  - unfold run_merge_treats.
    match goal with |- context [if ?c then _ else _] => destruct c end;
      intros [= <- <-]; cbn; rewrite Hp1, ?Hd1, ?Ha1;
      (split; [reflexivity|]); (split; [|repeat split; reflexivity]);
      unfold has_patient_node in *; now rewrite <- Hp1.
  - intros [= <- <-]. cbn. rewrite Hp1, ?Hd1, ?Ha1.
    split; [reflexivity|]. split; [|repeat split; reflexivity].
    unfold has_patient_node in *. now rewrite <- Hp1.
Qed.

(** After [create_patient] has returned an id, [get_patient_by_name] for
    the same names finds a patient: the new one when nobody had these
    names before, and otherwise still the older patient of that name --
    the lookup takes the first match. *)
Theorem neo4j_create_then_find (first_name last_name : string)
    (doctor : option Z) (g g' : Graph) (pid : Z) :
  create_patient first_name last_name doctor g = (Ok pid, g') ->
  (fst (get_patient_by_name first_name last_name g) = Ok None ->
   get_patient_by_name first_name last_name g'
   = (Ok (Some (pid, first_name, last_name)), g'))
  /\ (forall older,
        fst (get_patient_by_name first_name last_name g) = Ok (Some older) ->
        get_patient_by_name first_name last_name g' = (Ok (Some older), g')).
Proof.
  intros Hcreate.
  destruct (create_patient_inv _ _ _ _ _ _ Hcreate) as (_ & _ & Hp & _).
  unfold get_patient_by_name. rewrite Hp, filter_app.
  destruct (filter _ (patients g)) as [|p ps] eqn:Hold; cbn [fst app].
  - split; [|intros older [=]]. intros _.
    rewrite filter_cons. cbn [patient_first_name patient_last_name].
    rewrite !String.eqb_refl. reflexivity.
  - split; [intros [=]|]. intros older [= <-]. reflexivity.
Qed.

Lemma neo4j_create_then_find_witness :
  exists g',
    create_patient "Eva" "Berg" (Some 1) small_graph = (Ok 3, g')
    /\ get_patient_by_name "Eva" "Berg" g' = (Ok (Some (3, "Eva", "Berg")), g').
Proof.
  eexists. assert (Hrun : create_patient "Eva" "Berg" (Some 1) small_graph
                          = (Ok 3, snd (create_patient "Eva" "Berg" (Some 1) small_graph)))
    by (vm_compute; reflexivity).
  split; [exact Hrun|].
  destruct (neo4j_create_then_find _ _ _ _ _ _ Hrun) as (Hnew & _).
  apply Hnew. reflexivity.
Defined.

(** Without the Counter record every [_next_id] is 1: once one patient
    has been created, every further [create_patient] is refused by the
    uniqueness constraint and raises, whatever the names, and the store
    stays as it is. *)
Theorem neo4j_create_patient_without_counter
    (a b a' b' : string) (d d' : option Z) (g g1 : Graph) (pid : Z) :
  counters g = [] ->
  create_patient a b d g = (Ok pid, g1) ->
  pid = 1 /\ create_patient a' b' d' g1 = (Raise StoreError, g1).
Proof.
  intros Hc Hcreate.
  destruct (create_patient_inv _ _ _ _ _ _ Hcreate) as (Hid & _ & Hp & _).
  assert (Hone : forall h, counters h = [] -> _next_id "Patient" h = (Ok 1, h))
    by (intros h E; unfold _next_id; now rewrite E).
  rewrite (Hone g Hc) in Hid. injection Hid as <-. split; [reflexivity|].
  assert (Hc1 : counters g1 = []).
  { revert Hcreate. unfold create_patient. rewrite (bind_ok _ _ _ _ _ (Hone g Hc)).
    unfold bind at 1. unfold run_create_patient. cbn [patient_id].
    destruct (has_patient_node g 1); [intros [=]|].
    unfold bind at 1. destruct d as [did|]; cbn [ret].
    - unfold run_merge_treats.
      match goal with |- context [if ?c then _ else _] => destruct c end;
        intros [= <-]; cbn; exact Hc.
    - intros [= <-]. cbn. exact Hc. }
  unfold create_patient. rewrite (bind_ok _ _ _ _ _ (Hone g1 Hc1)).
  unfold bind, run_create_patient. cbn [patient_id].
  assert (Htaken : has_patient_node g1 1 = true).
  { unfold has_patient_node. rewrite Hp, existsb_app. cbn. apply orb_true_r. }
  now rewrite Htaken.
Qed.

Lemma neo4j_create_patient_without_counter_witness :
  exists g1,
    create_patient "Eva" "Berg" None empty_graph = (Ok 1, g1)
    /\ create_patient "Lars" "Nilsson" None g1 = (Raise StoreError, g1).
Proof.
  eexists.
  assert (Hrun : create_patient "Eva" "Berg" None empty_graph
                 = (Ok 1, snd (create_patient "Eva" "Berg" None empty_graph)))
    by reflexivity.
  split; [exact Hrun|].
  destruct (neo4j_create_patient_without_counter "Eva" "Berg" "Lars" "Nilsson"
              None None empty_graph _ 1 eq_refl Hrun) as (_ & Hsecond).
  exact Hsecond.
Defined.

(** What a call of [create_appointment] that returned has done. *)
Lemma create_appointment_inv (did : Z) (date : string) (pid : Z)
    (g g' : Graph) (aid : Z) :
  create_appointment did date pid g = (Ok aid, g') ->
  fst (_next_id "Appointment" g) = Ok aid
  /\ doctors g' = doctors g
  /\ patients g' = patients g
  /\ ((has_doctor_node g did && has_patient_node g pid = true
       /\ appointments g' = (appointments g ++ [mkAppointment aid date])%list
       /\ DOCTOR_HAS_APPOINTMENT g' = (DOCTOR_HAS_APPOINTMENT g ++ [(did, aid)])%list
       /\ PATIENT_HAS_APPOINTMENT g' = (PATIENT_HAS_APPOINTMENT g ++ [(pid, aid)])%list)
      \/ (has_doctor_node g did && has_patient_node g pid = false
          /\ appointments g' = appointments g
          /\ DOCTOR_HAS_APPOINTMENT g' = DOCTOR_HAS_APPOINTMENT g
          /\ PATIENT_HAS_APPOINTMENT g' = PATIENT_HAS_APPOINTMENT g)).
Proof.
  unfold create_appointment.
  destruct (next_id_shape "Appointment" g) as (id & g1 & Hid & Hshape).
  rewrite (bind_ok _ _ _ _ _ Hid), Hid. cbn [fst].
  assert (Hsame : doctors g1 = doctors g /\ patients g1 = patients g
                  /\ appointments g1 = appointments g
                  /\ DOCTOR_HAS_APPOINTMENT g1 = DOCTOR_HAS_APPOINTMENT g
                  /\ PATIENT_HAS_APPOINTMENT g1 = PATIENT_HAS_APPOINTMENT g)
    by (destruct Hshape as [->|[cs ->]]; repeat split; reflexivity).
  destruct Hsame as (Hd & Hp & Ha & Hda & Hpa).
  unfold bind, run_create_appointment, ret, has_doctor_node, has_patient_node.
  rewrite Hd, Hp.
  destruct (existsb _ (doctors g) && existsb _ (patients g)).
  - destruct (has_appointment_node g1 id); [intros [=]|].
    intros [= <- <-]. cbn. rewrite Hd, Hp, Ha, Hda, Hpa.
    split; [reflexivity|]. split; [reflexivity|]. split; [reflexivity|].
    left. repeat split; reflexivity.
  - intros [= <- <-]. split; [reflexivity|]. split; [exact Hd|]. split; [exact Hp|].
    right. repeat split; assumption.
Qed.

(** [create_appointment] for a doctor or a patient that does not exist
    creates no appointment and no relationship, and all the same returns
    an id and uses it up: the counter has moved on by one. *)
Theorem neo4j_create_appointment_missing_node (did : Z) (date : string)
    (pid : Z) (g : Graph) (v : Z) :
  stored_value g "Appointment" = Some v ->
  has_doctor_node g did && has_patient_node g pid = false ->
  exists g',
    create_appointment did date pid g = (Ok v, g')
    /\ appointments g' = appointments g
    /\ DOCTOR_HAS_APPOINTMENT g' = DOCTOR_HAS_APPOINTMENT g
    /\ PATIENT_HAS_APPOINTMENT g' = PATIENT_HAS_APPOINTMENT g
    /\ stored_value g' "Appointment" = Some (v + 1).
Proof.
  intros Hv Hmissing.
  destruct (next_id_step "Appointment" g v Hv) as (g1 & Hid & Hv1).
  destruct (next_id_shape "Appointment" g) as (id & g1' & Hid' & Hshape).
  rewrite Hid in Hid'. injection Hid' as <- <-.
  assert (Hsame : doctors g1 = doctors g /\ patients g1 = patients g
                  /\ appointments g1 = appointments g
                  /\ DOCTOR_HAS_APPOINTMENT g1 = DOCTOR_HAS_APPOINTMENT g
                  /\ PATIENT_HAS_APPOINTMENT g1 = PATIENT_HAS_APPOINTMENT g)
    by (destruct Hshape as [->|[cs ->]]; repeat split; reflexivity).
  destruct Hsame as (Hd & Hp & Ha & Hda & Hpa).
  exists g1. unfold create_appointment. rewrite (bind_ok _ _ _ _ _ Hid).
  unfold bind, run_create_appointment, ret, has_doctor_node, has_patient_node in *.
  rewrite Hd, Hp, Hmissing. repeat split; assumption.
Qed.

Lemma neo4j_create_appointment_missing_node_witness :
  exists g',
    create_appointment 99 "2024-03-01" 1 small_graph = (Ok 1, g')
    /\ appointments g' = []
    /\ stored_value g' "Appointment" = Some 2.
Proof.
  destruct (neo4j_create_appointment_missing_node 99 "2024-03-01" 1 small_graph 1
              eq_refl eq_refl) as (g' & Hrun & Ha & _ & _ & Hv).
  exists g'. split; [exact Hrun|]. split; [exact Ha | exact Hv].
Defined.

Instance by_date_total : Total by_date.
Proof.
  intros a b. unfold by_date, Neo4jQueries.by_date_leb.
  destruct (String.leb_total (snd (fst (fst a))) (snd (fst (fst b)))) as [H|H];
    rewrite H; simpl; auto.
Qed.

Lemma elem_of_map {A B} (f : A -> B) (l : list A) (x : A) :
  x ∈ l -> f x ∈ map f l.
Proof. intros H. apply list_elem_of_In, in_map. now apply list_elem_of_In. Qed.

Lemma has_node_elem (g : Graph) (p : Patient) :
  p ∈ patients g -> has_patient_node g (patient_id p) = true.
Proof.
  intros H. unfold has_patient_node. apply existsb_exists.
  exists p. split; [now apply list_elem_of_In|apply Z.eqb_refl].
Qed.

(** An appointment made by [create_appointment] for a doctor and a patient
    that exist shows in [get_appointments_for_doctor] of that doctor, with
    its date and the patient's names; and that list is ordered by date. *)
Theorem neo4j_appointment_listed (did : Z) (date : string) (g g' : Graph)
    (aid : Z) (p : Patient) :
  create_appointment did date (patient_id p) g = (Ok aid, g') ->
  has_doctor_node g did = true ->
  p ∈ patients g ->
  exists rows,
    Neo4jQueries.get_appointments_for_doctor did g' = (Ok rows, g')
    /\ (aid, date, patient_first_name p, patient_last_name p) ∈ rows
    /\ Sorted by_date rows.
Proof.
  intros Hcreate Hdoc Hp.
  destruct (create_appointment_inv _ _ _ _ _ _ Hcreate)
    as (_ & Hd & Hpat & [(_ & Ha & Hda & Hpa)|(Hno & _)]).
  2:{ rewrite Hdoc, (has_node_elem g p Hp) in Hno. discriminate. }
  eexists. split; [reflexivity|]. split.
  - unfold order_by. rewrite merge_sort_Permutation.
    apply (elem_of_map
             (fun ap => (appointment_id (fst ap), appointment_date (fst ap),
                         patient_first_name (snd ap), patient_last_name (snd ap)))
             _ (mkAppointment aid date, p)).
    unfold Neo4jQueries.doctor_paths, has_doctor_node. rewrite Hd.
    fold (has_doctor_node g did). rewrite Hdoc.
    apply list_elem_of_bind. exists (mkAppointment aid date). split.
    + apply list_elem_of_bind. exists p. split; [left|].
      apply list_elem_of_filter. split; [|now rewrite Hpat].
      apply bool_decide_spec. rewrite Hpa. cbn [appointment_id]. set_solver.
    + apply list_elem_of_filter. split; [|rewrite Ha; set_solver].
      apply bool_decide_spec. rewrite Hda. cbn [appointment_id]. set_solver.
  - unfold order_by. apply (Sorted_merge_sort by_date).
Qed.

Lemma neo4j_appointment_listed_witness :
  exists g',
    create_appointment 1 "2024-03-01" 1 small_graph = (Ok 1, g')
    /\ fst (Neo4jQueries.get_appointments_for_doctor 1 g')
       = Ok [(1, "2024-03-01", "Lars", "Nilsson")].
Proof.
  assert (Hrun : create_appointment 1 "2024-03-01" 1 small_graph
                 = (Ok 1, snd (create_appointment 1 "2024-03-01" 1 small_graph)))
    by (vm_compute; reflexivity).
  eexists. split; [exact Hrun|].
  assert (Hp : mkPatient 1 "Lars" "Nilsson" ∈ patients small_graph) by left.
  destruct (neo4j_appointment_listed 1 "2024-03-01" small_graph _ 1
              (mkPatient 1 "Lars" "Nilsson") Hrun eq_refl Hp)
    as (rows & Hrows & _ & _).
  rewrite Hrows. cbn [fst]. injection Hrows as <-. vm_compute. reflexivity.
Defined.

(** Once [create_appointment] has linked a doctor and a patient,
    [get_patients_for_doctor] of that doctor lists the patient; the list
    never names a patient twice, however many appointments the two share,
    and it is ordered by name. *)
Theorem neo4j_patient_listed_once (did : Z) (date : string) (g g' : Graph)
    (aid : Z) (p : Patient) :
  create_appointment did date (patient_id p) g = (Ok aid, g') ->
  has_doctor_node g did = true ->
  p ∈ patients g ->
  exists rows,
    Neo4jQueries.get_patients_for_doctor did g' = (Ok rows, g')
    /\ (patient_id p, patient_first_name p, patient_last_name p) ∈ rows
    /\ NoDup rows
    /\ Sorted by_name rows.
Proof.
  intros Hcreate Hdoc Hp.
  destruct (create_appointment_inv _ _ _ _ _ _ Hcreate)
    as (_ & Hd & Hpat & [(_ & Ha & Hda & Hpa)|(Hno & _)]).
  2:{ rewrite Hdoc, (has_node_elem g p Hp) in Hno. discriminate. }
  eexists. split; [reflexivity|]. split; [|split].
  - unfold order_by. rewrite merge_sort_Permutation. apply elem_of_remove_dups.
    apply (elem_of_map
             (fun ap => (patient_id (snd ap), patient_first_name (snd ap),
                         patient_last_name (snd ap)))
             _ (mkAppointment aid date, p)).
    unfold Neo4jQueries.doctor_paths, has_doctor_node. rewrite Hd.
    fold (has_doctor_node g did). rewrite Hdoc.
    apply list_elem_of_bind. exists (mkAppointment aid date). split.
    + apply list_elem_of_bind. exists p. split; [left|].
      apply list_elem_of_filter. split; [|now rewrite Hpat].
      apply bool_decide_spec. rewrite Hpa. cbn [appointment_id]. set_solver.
    + apply list_elem_of_filter. split; [|rewrite Ha; set_solver].
      apply bool_decide_spec. rewrite Hda. cbn [appointment_id]. set_solver.
  - unfold order_by. rewrite merge_sort_Permutation. apply NoDup_remove_dups.
  - unfold order_by. pose proof by_name_total as Htotal.
    apply (Sorted_merge_sort by_name).
Qed.

Lemma neo4j_patient_listed_once_witness :
  let g1 := snd (create_appointment 1 "2024-03-01" 1 small_graph) in
  exists g2,
    create_appointment 1 "2024-03-02" 1 g1 = (Ok 2, g2)
    /\ fst (Neo4jQueries.get_patients_for_doctor 1 g2) = Ok [(1, "Lars", "Nilsson")].
Proof.
  intros g1.
  assert (Hrun : create_appointment 1 "2024-03-02" 1 g1
                 = (Ok 2, snd (create_appointment 1 "2024-03-02" 1 g1)))
    by (vm_compute; reflexivity).
  eexists. split; [exact Hrun|].
  assert (Hp : mkPatient 1 "Lars" "Nilsson" ∈ patients g1) by left.
  destruct (neo4j_patient_listed_once 1 "2024-03-02" g1 _ 2
              (mkPatient 1 "Lars" "Nilsson") Hrun eq_refl Hp)
    as (rows & Hrows & _).
  rewrite Hrows. cbn [fst]. injection Hrows as <-. vm_compute. reflexivity.
Defined.

End GraphPatients.

(** ** Booking for a patient who is known *)

Section KnownPatient.

Local Open Scope string_scope.

Lemma create_appointment_ok (did : Z) (date : string) (pid : Z)
    (g : Neo4j.Graph) (aid : Z) :
  Neo4j.has_doctor_node g did = true ->
  Neo4j.has_patient_node g pid = true ->
  fst (Neo4j._next_id "Appointment" g) = Ok aid ->
  Neo4j.has_appointment_node g aid = false ->
  exists g',
    Neo4j.create_appointment did date pid g = (Ok aid, g')
    /\ Neo4j.patients g' = Neo4j.patients g
    /\ Neo4j.appointments g'
       = (Neo4j.appointments g ++ [Neo4j.mkAppointment aid date])%list
    /\ Neo4j.PATIENT_HAS_APPOINTMENT g'
       = (Neo4j.PATIENT_HAS_APPOINTMENT g ++ [(pid, aid)])%list
    /\ Neo4j.DOCTOR_HAS_APPOINTMENT g'
       = (Neo4j.DOCTOR_HAS_APPOINTMENT g ++ [(did, aid)])%list.
Proof.
  intros Hdoc Hpat Hid Hfree. unfold Neo4j.create_appointment.
  destruct (next_id_shape "Appointment" g) as (id & g1 & Hnext & Hshape).
  rewrite Hnext in Hid. cbn [fst] in Hid. injection Hid as ->.
  rewrite (bind_ok _ _ _ _ _ Hnext).
  assert (Hsame : Neo4j.doctors g1 = Neo4j.doctors g
                  /\ Neo4j.patients g1 = Neo4j.patients g
                  /\ Neo4j.appointments g1 = Neo4j.appointments g
                  /\ Neo4j.DOCTOR_HAS_APPOINTMENT g1 = Neo4j.DOCTOR_HAS_APPOINTMENT g
                  /\ Neo4j.PATIENT_HAS_APPOINTMENT g1 = Neo4j.PATIENT_HAS_APPOINTMENT g)
    by (destruct Hshape as [->|[cs ->]]; repeat split; reflexivity).
  destruct Hsame as (Hd & Hp & Ha & Hda & Hpa).
  unfold bind, Neo4j.run_create_appointment, ret, Neo4j.has_doctor_node,
    Neo4j.has_patient_node, Neo4j.has_appointment_node in *.
  rewrite Hd, Hp, Ha, Hdoc, Hpat, Hfree. cbn [andb].
  eexists. split; [reflexivity|]. cbn. rewrite Hp, Ha, Hpa, Hda.
  repeat split; reflexivity.
Qed.

Lemma neo4j_booking_known_patient (form : BookingForm) (doctor_id : Z)
    (g : Neo4j.Graph) (node : Neo4j.Patient) (nodes : list Neo4j.Patient)
    (aid : Z) :
  form_ready form doctor_id ->
  Neo4j.has_doctor_node g doctor_id = true ->
  fst (Neo4j._next_id "Appointment" g) = Ok aid ->
  Neo4j.has_appointment_node g aid = false ->
  filter (fun r => String.eqb (Neo4j.patient_first_name r)
                              (Text.strip (fname_entry form))
                   && String.eqb (Neo4j.patient_last_name r)
                                 (Text.strip (lname_entry form)))
         (Neo4j.patients g) = node :: nodes ->
  exists g',
    Neo4jGui.book_appointment form g = (Ok Success, g')
    /\ Neo4j.patients g' = Neo4j.patients g
    /\ Neo4j.appointments g'
       = (Neo4j.appointments g
          ++ [Neo4j.mkAppointment aid (Text.strip (date_entry form))])%list
    /\ Neo4j.PATIENT_HAS_APPOINTMENT g'
       = (Neo4j.PATIENT_HAS_APPOINTMENT g ++ [(Neo4j.patient_id node, aid)])%list
    /\ Neo4j.DOCTOR_HAS_APPOINTMENT g'
       = (Neo4j.DOCTOR_HAS_APPOINTMENT g ++ [(doctor_id, aid)])%list.
Proof.
  intros Hready Hdoc Hid Hfree Hfound.
  destruct (form_ready_checks form doctor_id Hready) as (C1 & C2 & C3 & C4).
  unfold Neo4jGui.book_appointment. rewrite C1, C2. unfold try_except.
  rewrite C3, C4.
  unfold bind at 1. unfold Neo4j.get_patient_by_name. rewrite Hfound.
  unfold bind at 1. cbn [ret].
  assert (Hnode : Neo4j.has_patient_node g (Neo4j.patient_id node) = true).
  { apply has_node_elem.
    assert (Hin : node ∈ filter
                    (fun r => String.eqb (Neo4j.patient_first_name r)
                                (Text.strip (fname_entry form))
                              && String.eqb (Neo4j.patient_last_name r)
                                   (Text.strip (lname_entry form)))
                    (Neo4j.patients g)) by (rewrite Hfound; left).
    now apply list_elem_of_filter in Hin as [_ Hin]. }
  destruct (create_appointment_ok doctor_id (Text.strip (date_entry form))
              (Neo4j.patient_id node) g aid Hdoc Hnode Hid Hfree)
    as (g' & Hrun & Hp & Ha & Hpa & Hda).
  rewrite (bind_ok _ _ _ _ _ Hrun). cbn [ret].
  exists g'. repeat split; assumption.
Qed.

(** A booking for a patient who is known.  Whatever else the form holds,
    a booking whose stripped names match a Patient record ends in a
    dialog and leaves the Patient records as they were; in the MySQL
    variant no appointment is added unless the dialog reports success.
    When the form is in order and the doctor exists, the booking reports
    success and adds exactly one appointment, which carries the id of the
    patient found: the one matching row in the MySQL variant, the first
    matching node in the graph variant, where the new Appointment node is
    linked to that patient and to the doctor. *)
Theorem booking_for_known_patient
    (varchar_eqb : string -> string -> bool) (form : BookingForm) (doctor_id : Z)
    (db : MySQL.Db) (row : MySQL.PatientRow) (rows : list MySQL.PatientRow)
    (g : Neo4j.Graph) (node : Neo4j.Patient) (nodes : list Neo4j.Patient)
    (aid : Z) :
  let fname := Text.strip (fname_entry form) in
  let lname := Text.strip (lname_entry form) in
  let date := Text.strip (date_entry form) in
  let mysql_matches :=
    filter (fun r => varchar_eqb (MySQL.patient_first_name r) fname
                     && varchar_eqb (MySQL.patient_last_name r) lname)
           (MySQL.patient db) in
  let neo4j_matches :=
    filter (fun r => String.eqb (Neo4j.patient_first_name r) fname
                     && String.eqb (Neo4j.patient_last_name r) lname)
           (Neo4j.patients g) in
  (mysql_matches = row :: rows ->
   exists dialog db',
     MySQLGui.book_appointment varchar_eqb form db = (Ok dialog, db')
     /\ MySQL.patient db' = MySQL.patient db
     /\ (dialog <> Success -> MySQL.appointment db' = MySQL.appointment db))
  /\ (mysql_matches = [row] ->
      form_ready form doctor_id ->
      MySQLGui.has_doctor db doctor_id = true ->
      keys_below_counters db ->
      exists db',
        MySQLGui.book_appointment varchar_eqb form db = (Ok Success, db')
        /\ MySQL.patient db' = MySQL.patient db
        /\ MySQL.appointment db'
           = (MySQL.appointment db
              ++ [MySQL.mkAppointmentRow (MySQL.appointment_AUTO_INCREMENT db)
                    doctor_id date (MySQL.patient_id row)])%list)
  /\ (neo4j_matches = node :: nodes ->
      exists dialog g',
        Neo4jGui.book_appointment form g = (Ok dialog, g')
        /\ Neo4j.patients g' = Neo4j.patients g)
  /\ (neo4j_matches = node :: nodes ->
      form_ready form doctor_id ->
      Neo4j.has_doctor_node g doctor_id = true ->
      fst (Neo4j._next_id "Appointment" g) = Ok aid ->
      Neo4j.has_appointment_node g aid = false ->
      exists g',
        Neo4jGui.book_appointment form g = (Ok Success, g')
        /\ Neo4j.patients g' = Neo4j.patients g
        /\ Neo4j.appointments g'
           = (Neo4j.appointments g ++ [Neo4j.mkAppointment aid date])%list
        /\ Neo4j.PATIENT_HAS_APPOINTMENT g'
           = (Neo4j.PATIENT_HAS_APPOINTMENT g
              ++ [(Neo4j.patient_id node, aid)])%list
        /\ Neo4j.DOCTOR_HAS_APPOINTMENT g'
           = (Neo4j.DOCTOR_HAS_APPOINTMENT g ++ [(doctor_id, aid)])%list).
Proof.
  intros fname lname date mysql_matches neo4j_matches.
  split; [|split; [|split]].
  - intros Hfound.
    destruct (mysql_booking_existing_patient varchar_eqb form db row rows Hfound)
      as (dialog & db' & Hrun & Hpat & _ & Hkeep).
    exists dialog, db'. split; [exact Hrun|]. split; [exact Hpat|exact Hkeep].
  - intros Hfound Hready Hdoc Hkeys.
    destruct (mysql_booking_existing_succeeds varchar_eqb form db doctor_id row
                Hready Hdoc Hkeys Hfound) as (db' & Hrun & Hpat & Happ & _).
    exists db'. split; [exact Hrun|]. split; [exact Hpat|exact Happ].
  - intros Hfound.
    destruct (neo4j_booking_existing_patient form g node nodes Hfound)
      as (dialog & g' & Hrun & Hpat & _).
    exists dialog, g'. split; [exact Hrun|exact Hpat].
  - intros Hfound Hready Hdoc Hid Hfree.
    exact (neo4j_booking_known_patient form doctor_id g node nodes aid
             Hready Hdoc Hid Hfree Hfound).
Qed.

Lemma booking_for_known_patient_witness :
  let form := MySQLGui.booking_of_lars "2024-03-01" in
  (exists db',
     MySQLGui.book_appointment String.eqb form MySQLGui.sample_db = (Ok Success, db')
     /\ MySQL.appointment db'
        = (MySQL.appointment MySQLGui.sample_db
           ++ [MySQL.mkAppointmentRow 5 1 "2024-03-01" 1])%list)
  /\ (exists g',
        Neo4jGui.book_appointment form Namesakes.two_lars_graph = (Ok Success, g')
        /\ Neo4j.PATIENT_HAS_APPOINTMENT g' = [(1, 1)]
        /\ Neo4j.DOCTOR_HAS_APPOINTMENT g' = [(1, 1)]).
Proof.
  intros form.
  assert (Hready : form_ready form 1).
  { unfold form_ready. repeat split; try reflexivity. discriminate. }
  assert (Hkeys : keys_below_counters MySQLGui.sample_db).
  { split; cbn; repeat constructor; cbn; lia. }
  destruct (booking_for_known_patient String.eqb form 1 MySQLGui.sample_db
              (MySQL.mkPatientRow 1 "Lars" "Nilsson" 1) []
              Namesakes.two_lars_graph (Neo4j.mkPatient 1 "Lars" "Nilsson")
              [Neo4j.mkPatient 3 "Lars" "Nilsson"] 1)
    as (_ & Hmysql & _ & Hneo4j).
  split.
  - destruct (Hmysql eq_refl Hready eq_refl Hkeys) as (db' & Hrun & _ & Happ).
    exists db'. split; [exact Hrun|exact Happ].
  - destruct (Hneo4j eq_refl Hready eq_refl eq_refl eq_refl)
      as (g' & Hrun & _ & _ & Hpa & Hda).
    exists g'. split; [exact Hrun|]. split; [exact Hpa|exact Hda].
Defined.

(** When more than one row of the patient table matches the names of a
    form that is in order, the MySQL [book_appointment] ends in the
    Database Error dialog: [fetchone] leaves a row unread, the next
    [execute] is refused, and the only statement that has reached the
    server is the SELECT.  No table is changed. *)
Theorem mysql_booking_for_namesakes
    (varchar_eqb : string -> string -> bool) (form : BookingForm) (doctor_id : Z)
    (db : MySQL.Db) (row other : MySQL.PatientRow) (rows : list MySQL.PatientRow) :
  form_ready form doctor_id ->
  filter (fun r => varchar_eqb (MySQL.patient_first_name r)
                               (Text.strip (fname_entry form))
                   && varchar_eqb (MySQL.patient_last_name r)
                                  (Text.strip (lname_entry form)))
         (MySQL.patient db) = row :: other :: rows ->
  exists db',
    MySQLGui.book_appointment varchar_eqb form db = (Ok DatabaseError, db')
    /\ same_tables db db'
    /\ MySQL.issued db'
       = (MySQL.issued db
          ++ [MySQL.SELECT_patient_WHERE_name (Text.strip (fname_entry form))
                                              (Text.strip (lname_entry form))])%list.
Proof.
  intros Hready Hfound.
  destruct (form_ready_checks form doctor_id Hready) as (C1 & C2 & C3 & C4).
  unfold MySQLGui.book_appointment. rewrite C1, C2. unfold try_except.
  rewrite C3, C4.
  unfold bind at 1, MySQLGui.execute_select_patient, bind at 1, MySQL.log at 1,
    bind at 1, get at 1, ret at 1.
  cbn [MySQL.patient]. rewrite Hfound.
  cbn [map MySQLGui.fetchone head tail fst snd MySQLGui.handle_unread_result].
  unfold bind, raise, ret. eexists. split; [reflexivity|]. split; [|reflexivity].
  repeat split.
Qed.

Lemma mysql_booking_for_namesakes_witness :
  exists db',
    MySQLGui.book_appointment String.eqb (MySQLGui.booking_of_lars "2024-03-01")
                              Namesakes.two_lars_db = (Ok DatabaseError, db')
    /\ MySQL.appointment db' = MySQL.appointment Namesakes.two_lars_db.
Proof.
  assert (Hready : form_ready (MySQLGui.booking_of_lars "2024-03-01") 1).
  { unfold form_ready. repeat split; try reflexivity. discriminate. }
  destruct (mysql_booking_for_namesakes String.eqb
              (MySQLGui.booking_of_lars "2024-03-01") 1 Namesakes.two_lars_db
              (MySQL.mkPatientRow 1 "Lars" "Nilsson" 1)
              (MySQL.mkPatientRow 3 "Lars" "Nilsson" 1) [] Hready eq_refl)
    as (db' & Hrun & Hsame & _).
  exists db'. split; [exact Hrun|]. symmetry. apply Hsame.
Defined.

End KnownPatient.

(** ** Deleting, listing and downloading stored files (MySQL) *)

Section StoredFiles.

Import MySQL MySQLFiles.
Local Open Scope string_scope.

Lemma retrieve_file_eq (fid : Z) (db : Db) :
  exists db1,
    retrieve_file fid db
    = (Ok (head (filter (fun r => file_id r =? fid)%Z (medical_files db))), db1)
    /\ same_tables db db1.
Proof.
  unfold retrieve_file, try_except, execute_select_medical_file, bind, log, get, ret.
  cbn [medical_files].
  destruct (head _); eexists; (split; [reflexivity|]); repeat split.
Qed.

Lemma rowcount_positive {A} (f : A -> bool) (l : list A) :
  (0 <? Z.of_nat (length (filter f l)))%Z = existsb f l.
Proof.
  induction l as [|x l IH]; [reflexivity|].
  rewrite filter_cons. cbn [existsb]. destruct (f x) eqn:Hx.
  - destruct (decide (Is_true true)) as [_|Hn]; [|destruct Hn; exact I].
    cbn [length orb]. apply Z.ltb_lt. lia.
  - destruct (decide (Is_true false)) as [[]|_]. exact IH.
Qed.

Lemma filter_filter_out {A} (key : A -> Z) (k : Z) (l : list A) :
  filter (fun r => key r =? k)%Z (filter (fun r => negb (key r =? k)%Z) l) = [].
Proof.
  induction l as [|x l IH]; [reflexivity|].
  rewrite filter_cons. destruct (key x =? k)%Z eqn:E; cbn [negb].
  - destruct (decide (Is_true false)) as [[]|_]. exact IH.
  - destruct (decide (Is_true true)) as [_|Hn]; [|destruct Hn; exact I].
    rewrite filter_cons, E.
    destruct (decide (Is_true false)) as [[]|_]. exact IH.
Qed.

Lemma filter_filter_other {A} (key : A -> Z) (k other : Z) (l : list A) :
  other <> k ->
  filter (fun r => key r =? other)%Z (filter (fun r => negb (key r =? k)%Z) l)
  = filter (fun r => key r =? other)%Z l.
Proof.
  intros Hne. induction l as [|x l IH]; [reflexivity|].
  rewrite (filter_cons (fun r => negb (key r =? k)%Z)).
  destruct (key x =? k)%Z eqn:E; cbn [negb].
  - destruct (decide (Is_true false)) as [[]|_]. rewrite IH.
    rewrite filter_cons. apply Z.eqb_eq in E.
    destruct (decide (Is_true (key x =? other)%Z)) as [Hy|_]; [|reflexivity].
    apply Is_true_true, Z.eqb_eq in Hy. congruence.
  - destruct (decide (Is_true true)) as [_|Hn]; [|destruct Hn; exact I].
    rewrite !filter_cons, IH. reflexivity.
Qed.

(** [delete_file] says whether a record with this id was there; after it
    [retrieve_file] of the id finds nothing, and every other file is
    retrieved as before. *)
Theorem mysql_delete_file (fid : Z) (db : Db) :
  exists db',
    delete_file fid db
    = (Ok (existsb (fun r => file_id r =? fid)%Z (medical_files db)), db')
    /\ fst (retrieve_file fid db') = Ok None
    /\ (forall other, other <> fid ->
          fst (retrieve_file other db') = fst (retrieve_file other db))
    /\ (existsb (fun r => file_id r =? fid)%Z (medical_files db) = false ->
        medical_files db' = medical_files db).
Proof.
  assert (Hrun : exists db',
    delete_file fid db
    = (Ok (existsb (fun r => file_id r =? fid)%Z (medical_files db)), db')
    /\ medical_files db'
       = filter (fun r => negb (file_id r =? fid)%Z) (medical_files db)).
  { unfold delete_file, try_except, execute_delete_medical_file.
    unfold bind, log, get, put, commit, log, ret. cbn [medical_files].
    rewrite rowcount_positive.
    destruct (existsb _ (medical_files db)); eexists; split; reflexivity. }
  destruct Hrun as (db' & Hrun & Hrows). exists db'. split; [exact Hrun|].
  split; [|split].
  - destruct (retrieve_file_eq fid db') as (db1 & -> & _). cbn [fst].
    now rewrite Hrows, filter_filter_out.
  - intros other Hne.
    destruct (retrieve_file_eq other db') as (db1 & -> & _).
    destruct (retrieve_file_eq other db) as (db2 & -> & _). cbn [fst].
    now rewrite Hrows, filter_filter_other.
  - intros Hnone. rewrite Hrows. clear -Hnone.
    induction (medical_files db) as [|x l IH]; [reflexivity|].
    cbn [existsb] in Hnone. apply orb_false_elim in Hnone as [Hx Hl].
    rewrite filter_cons, Hx. cbn [negb].
    destruct (decide (Is_true true)) as [_|Hn]; [|destruct Hn; exact I].
    now rewrite IH.
Qed.

Lemma mysql_delete_file_witness :
  let db := snd (store_file one_file_env "/home/user/images/xray.jpg" None None
                            MySQLGui.sample_db) in
  fst (delete_file 1 db) = Ok true
  /\ fst (retrieve_file 1 (snd (delete_file 1 db))) = Ok None
  /\ fst (delete_file 7 db) = Ok false.
Proof.
  intros db.
  destruct (mysql_delete_file 1 db) as (db' & Hrun & Hgone & _).
  destruct (mysql_delete_file 7 db) as (db7 & Hrun7 & _).
  rewrite Hrun, Hrun7. cbn [fst snd]. repeat split; [exact Hgone].
Defined.

Instance latest_first_total : Total latest_first_rel.
Proof.
  intros a b. unfold latest_first_rel, latest_first.
  rewrite !Is_true_true, !Z.leb_le. lia.
Qed.

Instance latest_first_trans : Transitive latest_first_rel.
Proof.
  intros a b c. unfold latest_first_rel, latest_first.
  rewrite !Is_true_true, !Z.leb_le. lia.
Qed.

Lemma Sorted_map {A B} (R : relation A) (R' : relation B) (f : A -> B) (l : list A) :
  (forall a b, R a b -> R' (f a) (f b)) -> Sorted R l -> Sorted R' (map f l).
Proof.
  intros Hf. induction 1 as [|x l Hs IH Hx]; [constructor|].
  cbn [map]. constructor; [exact IH|].
  destruct Hx as [|y l' Hxy]; constructor. now apply Hf.
Qed.

(** A file stored with an observation id shows in
    [get_files_by_observation] of that observation, under its own id and
    the basename of its path; the list has one entry for each stored file
    of the observation -- one more than before the upload -- newest first. *)
Theorem mysql_stored_file_listed (env : Env) (file_path : string) (o : Z)
    (description_ : option string) (db db' : Db) (fid : Z) :
  store_file env file_path (Some o) description_ db = (Ok (Some fid), db') ->
  exists files db'',
    get_files_by_observation o db' = (Ok files, db'')
    /\ length files = S (length (filter (of_observation o) (medical_files db)))
    /\ (exists f, f ∈ files /\ summary_file_id f = fid
                  /\ summary_filename f = Text.basename file_path)
    /\ Sorted summary_latest_first files.
Proof.
  intros Hstore.
  destruct (store_file_returns _ _ _ _ _ _ _ Hstore)
    as (data & ftype & row & _ & Hrow & Htable & _).
  unfold get_files_by_observation, try_except, execute_select_files_of_observation.
  unfold bind, log, get, ret. cbn [medical_files].
  eexists _, _. split; [reflexivity|].
  assert (Hperm : order_by latest_first (filter (of_observation o) (medical_files db'))
                  ≡ₚ filter (of_observation o) (medical_files db) ++ [row]).
  { unfold order_by. rewrite merge_sort_Permutation, Htable, filter_app.
    rewrite filter_cons_True; [reflexivity|].
    rewrite Hrow. unfold of_observation. cbn [observation_id].
    rewrite Z.eqb_refl. exact I. }
  split; [|split].
  - rewrite length_map, Hperm, length_app. cbn [length]. lia.
  - exists (summary row). split.
    + apply elem_of_map. rewrite Hperm. set_solver.
    + rewrite Hrow. split; reflexivity.
  - apply (Sorted_map latest_first_rel).
    + intros a b. unfold latest_first_rel, latest_first, summary_latest_first.
      rewrite Is_true_true, Z.leb_le. cbn. auto.
    + unfold order_by. apply (Sorted_merge_sort latest_first_rel).
Qed.

Lemma mysql_stored_file_listed_witness :
  exists fid db' files db'',
    store_file one_file_env "/home/user/images/xray.jpg" (Some 7) None MySQLGui.sample_db
    = (Ok (Some fid), db')
    /\ get_files_by_observation 7 db' = (Ok files, db'')
    /\ map summary_filename files = ["xray.jpg"].
Proof.
  assert (Hstore : store_file one_file_env "/home/user/images/xray.jpg" (Some 7) None
                     MySQLGui.sample_db
                   = (Ok (Some 1),
                      snd (store_file one_file_env "/home/user/images/xray.jpg"
                             (Some 7) None MySQLGui.sample_db)))
    by (vm_compute; reflexivity).
  destruct (mysql_stored_file_listed _ _ _ _ _ _ _ Hstore)
    as (files & db'' & Hlist & _).
  eexists 1, _, files, db''. split; [exact Hstore|]. split; [exact Hlist|].
  revert Hlist. vm_compute. intros [= <- _]. reflexivity.
Defined.

Lemma stored_file_is_found (env : Env) (file_path : string)
    (observation_id_ : option Z) (description_ : option string)
    (db db' : Db) (fid : Z) :
  store_file env file_path observation_id_ description_ db = (Ok (Some fid), db') ->
  exists data row,
    read_file env file_path = Some data
    /\ head (filter (fun r => file_id r =? fid)%Z (medical_files db')) = Some row
    /\ file_data row = data
    /\ filename row = Text.basename file_path.
Proof.
  intros Hstore.
  destruct (store_file_returns _ _ _ _ _ _ _ Hstore)
    as (data & ftype & row & Hread & Hrow & Htable & Hfree).
  exists data, row. split; [exact Hread|].
  rewrite Htable, filter_app, (filter_none _ _ Hfree). cbn [app].
  rewrite filter_cons_True; [|rewrite Hrow; cbn; rewrite Z.eqb_refl; exact I].
  split; [reflexivity|]. rewrite Hrow. split; reflexivity.
Qed.

(** Download after upload: [save_file_to_disk] of the id [store_file]
    returned writes the very bytes that were read from the uploaded file,
    to the given path -- or, when none is given, to the stored filename --
    and touches no other file on the disk; it returns False and writes
    nothing when that path cannot be opened. *)
Theorem mysql_download_round_trip (env : Env) (can_open : string -> bool)
    (file_path : string) (observation_id_ : option Z)
    (description_ : option string) (db db' : Db) (fid : Z)
    (output_path : option string) (files : gmap string (list Byte.byte)) :
  let target := match output_path with
                | Some path => if Text.truthy path then path
                               else Text.basename file_path
                | None => Text.basename file_path
                end in
  store_file env file_path observation_id_ description_ db = (Ok (Some fid), db') ->
  exists data w',
    read_file env file_path = Some data
    /\ save_file_to_disk can_open fid output_path (mkComputer db' files)
       = (Ok (can_open target), w')
    /\ (can_open target = true ->
        disk w' !! target = Some data
        /\ forall other, other <> target -> disk w' !! other = files !! other)
    /\ (can_open target = false -> disk w' = files).
Proof.
  intros target Hstore.
  destruct (stored_file_is_found _ _ _ _ _ _ _ Hstore)
    as (data & row & Hread & Hhead & Hdata & Hname).
  destruct (retrieve_file_eq fid db') as (db1 & Hget & _).
  rewrite Hhead in Hget.
  exists data.
  unfold save_file_to_disk, try_except.
  assert (Hinfo : on_database (retrieve_file fid) (mkComputer db' files)
                  = (Ok (Some row), mkComputer db1 files))
    by (unfold on_database; cbn [database disk]; now rewrite Hget).
  rewrite (bind_ok _ _ _ _ _ Hinfo). rewrite Hname, Hdata. fold target.
  unfold bind, write_file, ret. cbn [database disk].
  destruct (can_open target) eqn:Hopen.
  - eexists. split; [exact Hread|]. split; [reflexivity|]. cbn [disk]. split.
    + intros _. split; [apply lookup_insert_eq|].
      intros other Hne. now apply lookup_insert_ne.
    + intros [=].
  - eexists. split; [exact Hread|]. split; [reflexivity|]. cbn [disk]. split.
    + intros [=].
    + reflexivity.
Qed.

Lemma mysql_download_round_trip_witness :
  let db' := snd (store_file one_file_env "/home/user/images/xray.jpg" None None
                             MySQLGui.sample_db) in
  exists w',
    save_file_to_disk (fun _ => true) 1 None (mkComputer db' ∅) = (Ok true, w')
    /\ disk w' !! "xray.jpg" = Some [Byte.xff; Byte.xd8; Byte.xff].
Proof.
  intros db'.
  assert (Hstore : store_file one_file_env "/home/user/images/xray.jpg" None None
                              MySQLGui.sample_db = (Ok (Some 1), db'))
    by (vm_compute; reflexivity).
  destruct (mysql_download_round_trip one_file_env (fun _ => true) _ _ _ _ _ _
              None ∅ Hstore) as (data & w' & Hread & Hsave & Hwritten & _).
  exists w'. split; [exact Hsave|].
  destruct (Hwritten eq_refl) as [Hfile _].
  injection Hread as <-. exact Hfile.
Defined.

(** [save_file_to_disk] of an id that is not in the table returns False
    and leaves the disk as it is. *)
Theorem mysql_download_missing (can_open : string -> bool) (fid : Z)
    (output_path : option string) (w : Computer) :
  existsb (fun r => file_id r =? fid)%Z (medical_files (database w)) = false ->
  exists w',
    save_file_to_disk can_open fid output_path w = (Ok false, w')
    /\ disk w' = disk w.
Proof.
  intros Hnone. destruct (retrieve_file_eq fid (database w)) as (db1 & Hget & _).
  rewrite (filter_none _ _ Hnone) in Hget. cbn [head] in Hget.
  unfold save_file_to_disk, try_except.
  assert (Hinfo : on_database (retrieve_file fid) w = (Ok None, mkComputer db1 (disk w)))
    by (unfold on_database; now rewrite Hget).
  rewrite (bind_ok _ _ _ _ _ Hinfo). eexists. split; reflexivity.
Qed.

Lemma mysql_download_missing_witness :
  exists w',
    save_file_to_disk (fun _ => true) 5 (Some "out.bin")
                      (mkComputer MySQLGui.sample_db ∅) = (Ok false, w')
    /\ disk w' = ∅.
Proof.
  exact (mysql_download_missing (fun _ => true) 5 (Some "out.bin")
           (mkComputer MySQLGui.sample_db ∅) eq_refl).
Defined.

End StoredFiles.

(** ** The query tab *)

Section QueryTabProperties.

Import Text.
Local Open Scope string_scope.

Lemma rstrip_idempotent (s : string) : rstrip (rstrip s) = rstrip s.
Proof.
  induction s as [|c s IH]; [reflexivity|]. cbn [rstrip].
  destruct (rstrip s) as [|d r] eqn:Hr.
  - destruct (isspace c) eqn:Hc; [reflexivity|]. cbn [rstrip]. now rewrite Hc.
  - cbn [rstrip]. cbn [rstrip] in IH. rewrite IH. reflexivity.
Qed.

Lemma rstrip_keeps_head (c : ascii) (s : string) :
  isspace c = false -> exists r, rstrip (String c s) = String c r.
Proof.
  intros Hc. cbn [rstrip]. destruct (rstrip s) as [|d r].
  - rewrite Hc. now exists "".
  - now exists (String d r).
Qed.

Lemma lstrip_head (s : string) :
  lstrip s = "" \/ exists c r, lstrip s = String c r /\ isspace c = false.
Proof.
  induction s as [|c s IH]; [now left|]. cbn [lstrip].
  destruct (isspace c) eqn:Hc; [exact IH|]. right. now exists c, s.
Qed.

(** Stripping a stripped string changes nothing. *)
Lemma strip_idempotent (s : string) : strip (strip s) = strip s.
Proof.
  unfold strip. destruct (lstrip_head s) as [->|(c & r & -> & Hc)]; [reflexivity|].
  destruct (rstrip_keeps_head c r Hc) as (r' & Hr). rewrite Hr.
  cbn [lstrip]. rewrite Hc, <- Hr. apply rstrip_idempotent.
Qed.

(** [run_query] never raises and never hands the store a text that does
    not begin with the read keyword: for such a text -- the empty one
    included -- it ends in a dialog and the store is as before.  For a
    text that passes, what reaches the store is the stripped text of the
    widget; the answer of the store is shown as a table of its columns
    and rows (or as the label for an answer without columns), and an
    error of the driver ends in the error dialog too. *)
Theorem run_query_guard {Row Param V : Type}
    (cursor_execute : string -> list Param -> MySQL.Db ->
                      option (option (list string) * list Row) * MySQL.Db)
    (session_run : string -> Neo4j.Graph ->
                   option (list (Neo4jGui.Record_ V)) * Neo4j.Graph)
    (query_text : string) (db : MySQL.Db) (g : Neo4j.Graph) :
  let q := strip query_text in
  let read_mysql := begins_ignoring_case "select" q in
  let read_neo4j := begins_ignoring_case "match" q
                    || begins_ignoring_case "return" q in
  (read_mysql = false ->
   QueryTab.run_query_mysql cursor_execute query_text db
   = (Ok (if truthy q then QueryTab.QueryErrorDialog
          else QueryTab.InputErrorDialog), db))
  /\ (read_mysql = true ->
      QueryTab.run_query_mysql cursor_execute query_text db
      = match cursor_execute q [] (snd (MySQL.log (MySQL.QUERY q) db)) with
        | (Some (description, rows), db') =>
            (Ok (QueryTab.show (default [] description, rows)), db')
        | (None, db') => (Ok QueryTab.QueryErrorDialog, db')
        end)
  /\ (read_neo4j = false ->
      QueryTab.run_query_neo4j session_run query_text g
      = (Ok (if truthy q then QueryTab.QueryErrorDialog
             else QueryTab.InputErrorDialog), g))
  /\ (read_neo4j = true ->
      QueryTab.run_query_neo4j session_run query_text g
      = match session_run q g with
        | (Some records, g') =>
            let colnames := match records with
                            | rec :: _ => map fst rec
                            | [] => []
                            end in
            (Ok (QueryTab.show
                   (colnames,
                    map (fun rec => map (Neo4jGui.record_get rec) colnames)
                        records)), g')
        | (None, g') => (Ok QueryTab.QueryErrorDialog, g')
        end).
Proof.
  intros q read_mysql read_neo4j.
  assert (Hs : startswith (lower (strip q)) "select" = read_mysql).
  { unfold q. rewrite strip_idempotent. apply (startswith_lower "select"), select_lowercase. }
  assert (Hm : startswith (lower (strip q)) "match"
               || startswith (lower (strip q)) "return" = read_neo4j).
  { unfold q. rewrite strip_idempotent.
    now rewrite (startswith_lower "match" _ match_lowercase),
                (startswith_lower "return" _ return_lowercase). }
  assert (Hempty : truthy q = false -> read_mysql = false /\ read_neo4j = false).
  { unfold read_mysql, read_neo4j. destruct q; [split; reflexivity|discriminate]. }
  split; [|split; [|split]].
  - intros Hno. unfold QueryTab.run_query_mysql. fold q.
    destruct (truthy q); cbn [negb]; [|reflexivity].
    unfold try_except, bind, MySQLGui.safe_select. rewrite Hs, Hno. reflexivity.
  - intros Hyes. unfold QueryTab.run_query_mysql. fold q.
    destruct (truthy q) eqn:Ht; cbn [negb].
    2:{ destruct (Hempty eq_refl) as [E _]. congruence. }
    unfold try_except, bind at 1, MySQLGui.safe_select. rewrite Hs, Hyes. cbn [negb].
    cbv beta iota delta [bind MySQLGui.execute_query MySQL.log ret snd].
    destruct (cursor_execute q [] _) as [[[[d|] rows]|] db']; reflexivity.
  - intros Hno. unfold QueryTab.run_query_neo4j. fold q.
    destruct (truthy q); cbn [negb]; [|reflexivity].
    unfold try_except, bind, Neo4jGui.safe_select. rewrite Hm, Hno. reflexivity.
  - intros Hyes. unfold QueryTab.run_query_neo4j. fold q.
    destruct (truthy q) eqn:Ht; cbn [negb].
    2:{ destruct (Hempty eq_refl) as [_ E]. congruence. }
    unfold try_except, bind at 1, Neo4jGui.safe_select. rewrite Hm, Hyes. cbn [negb].
    unfold q at 1 2. rewrite strip_idempotent. fold q.
    cbv beta iota delta [bind Neo4jGui.run_query ret].
    destruct (session_run q g) as [[records|] g']; reflexivity.
Qed.

Lemma run_query_guard_witness :
  let cursor_execute := fun (_ : string) (_ : list Z) (db : MySQL.Db) =>
                          (Some (Some ["n"], [1]), db) in
  let session_run := fun (_ : string) (g : Neo4j.Graph) =>
                       (Some [[("n", 1)]], g) in
  QueryTab.run_query_mysql cursor_execute "  drop table patient " MySQLGui.sample_db
  = (Ok QueryTab.QueryErrorDialog, MySQLGui.sample_db)
  /\ fst (QueryTab.run_query_mysql cursor_execute " select 1 " MySQLGui.sample_db)
     = Ok (QueryTab.ResultTable ["n"] [1])
  /\ QueryTab.run_query_neo4j session_run " RETURN 1 AS n " Neo4j.empty_graph
     = (Ok (QueryTab.ResultTable ["n"] [[Some 1]]), Neo4j.empty_graph)
  /\ QueryTab.run_query_neo4j session_run "CREATE (n)" Neo4j.empty_graph
     = (Ok QueryTab.QueryErrorDialog, Neo4j.empty_graph).
Proof.
  intros cursor_execute session_run. split; [|split; [|split]].
  - destruct (run_query_guard cursor_execute session_run "  drop table patient "
                MySQLGui.sample_db Neo4j.empty_graph) as (Hno & _).
    rewrite (Hno eq_refl). reflexivity.
  - destruct (run_query_guard cursor_execute session_run " select 1 "
                MySQLGui.sample_db Neo4j.empty_graph) as (_ & Hyes & _).
    rewrite (Hyes eq_refl). reflexivity.
  - destruct (run_query_guard cursor_execute session_run " RETURN 1 AS n "
                MySQLGui.sample_db Neo4j.empty_graph) as (_ & _ & _ & Hyes).
    rewrite (Hyes eq_refl). reflexivity.
  - destruct (run_query_guard cursor_execute session_run "CREATE (n)"
                MySQLGui.sample_db Neo4j.empty_graph) as (_ & _ & Hno & _).
    rewrite (Hno eq_refl). reflexivity.
Defined.

End QueryTabProperties.

(** ** Read marks and the unread counter *)

Section Inbox.

Import Mongo MongoInbox.

Lemma count_loop_total (u : string) (s : Store) (convs : list Conversation) :
  forall total, count_loop u convs total s = (Ok (total + total_unread s u convs), s).
Proof.
  induction convs as [|conv rest IH]; intros total; cbn [count_loop total_unread foldr].
  - unfold ret. now rewrite Z.add_0_r.
  - unfold bind, count_documents. rewrite IH. fold (unread_in s (conversation__id conv) u).
    fold (total_unread s u rest). f_equal. f_equal. lia.
Qed.

Lemma get_unread_message_count_total (u : string) (s : Store) :
  get_unread_message_count u s = (Ok (total_unread s u (conversations_of s u)), s).
Proof.
  unfold get_unread_message_count, try_except, bind, find_conversations.
  fold (conversations_of s u). now rewrite count_loop_total.
Qed.

Lemma total_unread_shift (s s' : Store) (u : string) (c : ObjectId) (delta : Z)
    (convs : list Conversation) :
  (forall conv, conv ∈ convs ->
     Z.of_nat (length (unread_in s' (conversation__id conv) u))
     = Z.of_nat (length (unread_in s (conversation__id conv) u))
       + (if (conversation__id conv =? c)%N then delta else 0)) ->
  total_unread s' u convs
  = total_unread s u convs
    + delta * Z.of_nat (length (filter (fun conv => (conversation__id conv =? c)%N) convs)).
Proof.
  induction convs as [|conv rest IH]; intros Hshift; cbn [total_unread foldr].
  - cbn. lia.
  - fold (total_unread s' u rest). fold (total_unread s u rest).
    rewrite IH by (intros x Hx; apply Hshift; now right).
    rewrite (Hshift conv) by now left.
    rewrite filter_cons. destruct (conversation__id conv =? c)%N eqn:E.
    + rewrite decide_True by exact I. cbn [length]. lia.
    + rewrite decide_False by (intros []). lia.
Qed.

Lemma one_with_id (c : ObjectId) (convs : list Conversation) (conv : Conversation) :
  NoDup (map conversation__id convs) ->
  conv ∈ convs -> conversation__id conv = c ->
  length (filter (fun x => (conversation__id x =? c)%N) convs) = 1%nat.
Proof.
  induction convs as [|x rest IH]; intros Hnd Hin Hid; [now apply elem_of_nil in Hin|].
  cbn [map] in Hnd. apply NoDup_cons in Hnd as [Hx Hrest].
  rewrite filter_cons. apply elem_of_cons in Hin as [<-|Hin].
  - rewrite decide_True by (rewrite Hid, N.eqb_refl; exact I). cbn [length]. f_equal.
    apply length_zero_iff_nil. apply filter_none.
    destruct (existsb _ rest) eqn:Hex; [|reflexivity].
    apply existsb_exists in Hex as (y & Hy & Hy'). apply N.eqb_eq in Hy'.
    exfalso. apply Hx. rewrite Hid, <- Hy'. apply list_elem_of_fmap. exists y.
    split; [reflexivity|now apply list_elem_of_In].
  - destruct (conversation__id x =? c)%N eqn:E.
    + exfalso. apply N.eqb_eq in E. apply Hx. rewrite E, <- Hid.
      apply list_elem_of_fmap. now exists conv.
    + rewrite decide_False by (intros []). now apply IH.
Qed.

Lemma conversations_of_distinct (s : Store) (u : string) :
  distinct_ids s -> NoDup (map conversation__id (conversations_of s u)).
Proof.
  unfold distinct_ids, conversations_of. generalize (conversations s).
  induction l as [|x rest IH]; intros Hnd; [constructor|].
  cbn [map] in Hnd. apply NoDup_cons in Hnd as [Hx Hrest].
  rewrite filter_cons. destruct (decide _); [|now apply IH].
  cbn [map]. apply NoDup_cons. split; [|now apply IH].
  intros Hin. apply Hx. apply list_elem_of_fmap in Hin as (y & -> & Hy).
  apply list_elem_of_filter in Hy as [_ Hy]. apply list_elem_of_fmap. now exists y.
Qed.

Lemma takes_part_once (s : Store) (c : ObjectId) (u : string) :
  distinct_ids s -> takes_part s c u ->
  length (filter (fun x => (conversation__id x =? c)%N) (conversations_of s u)) = 1%nat.
Proof.
  intros Hnd (conv & Hin & Hid & Hu).
  apply (one_with_id c _ conv); [now apply conversations_of_distinct| |exact Hid].
  unfold conversations_of. apply list_elem_of_filter. split; [|exact Hin].
  now apply bool_decide_pack.
Qed.

Lemma filter_cons_bool {A} (f : A -> bool) (x : A) (l : list A) :
  filter f (x :: l) = if f x then x :: filter f l else filter f l.
Proof.
  rewrite filter_cons. destruct (decide (f x)) as [H|H]; destruct (f x);
    try reflexivity; [destruct H|exfalso; apply H; exact I].
Qed.

Lemma unread_after_marking (c : ObjectId) (u : string) (s : Store) (cid : ObjectId) :
  unread_in (snd (mark_messages_as_read c u s)) cid u
  = if (cid =? c)%N then [] else unread_in s cid u.
Proof.
  unfold mark_messages_as_read, try_except, bind, update_many_read, ret, unread_in.
  cbn [snd messages]. induction (messages s) as [|m ms IH]; [now destruct (cid =? c)%N|].
  cbn [map]. rewrite !filter_cons_bool, IH. clear IH.
  destruct (cid =? c)%N eqn:Ecc.
  - apply N.eqb_eq in Ecc as ->. unfold unread_for, set_read.
    destruct (conversation_id m =? c)%N eqn:Ec, (String.eqb (sender_id m) u) eqn:Eu,
             (is_read m) eqn:Er; cbn [andb negb conversation_id sender_id is_read];
      rewrite ?Ec, ?Eu, ?Er; reflexivity.
  - assert (Hsame : unread_for cid u (if unread_for c u m then set_read m else m)
                    = unread_for cid u m).
    { unfold unread_for at 2. destruct (conversation_id m =? c)%N eqn:Ec;
        cbn [andb]; [|reflexivity].
      assert (Ecid : (conversation_id m =? cid)%N = false).
      { apply N.eqb_eq in Ec. rewrite Ec. apply N.eqb_neq. apply N.eqb_neq in Ecc.
        congruence. }
      destruct (negb (String.eqb (sender_id m) u) && negb (is_read m));
        unfold unread_for, set_read; cbn [conversation_id]; now rewrite Ecid. }
    rewrite Hsame. destruct (unread_for cid u m) eqn:Em; [|reflexivity].
    f_equal. unfold unread_for in Em |- *.
    destruct (conversation_id m =? c)%N eqn:Ec; [|reflexivity].
    exfalso. apply N.eqb_eq in Ec. rewrite Ec, N.eqb_sym, Ecc in Em. discriminate.
Qed.


Lemma marking_keeps_own (c : ObjectId) (u : string) (ms : list Message) :
  filter (fun m => String.eqb (sender_id m) u)
         (map (fun m => if unread_for c u m then set_read m else m) ms)
  = filter (fun m => String.eqb (sender_id m) u) ms.
Proof.
  induction ms as [|m ms IH]; [reflexivity|]. cbn [map].
  rewrite !filter_cons_bool, IH. unfold unread_for.
  destruct (String.eqb (sender_id m) u) eqn:Eu.
  - cbn [negb]. rewrite andb_false_r. cbn [andb]. now rewrite Eu.
  - destruct (_ && _ && _); unfold set_read; cbn [sender_id]; now rewrite Eu.
Qed.

Lemma marking_keeps_others (c c' : ObjectId) (u : string) (ms : list Message) :
  c' <> c ->
  filter (fun m => (conversation_id m =? c')%N)
         (map (fun m => if unread_for c u m then set_read m else m) ms)
  = filter (fun m => (conversation_id m =? c')%N) ms.
Proof.
  intros Hne. induction ms as [|m ms IH]; [reflexivity|]. cbn [map].
  rewrite !filter_cons_bool, IH. unfold unread_for.
  destruct (conversation_id m =? c)%N eqn:Ec; cbn [andb]; [|reflexivity].
  apply N.eqb_eq in Ec.
  assert (E : (conversation_id m =? c')%N = false) by (apply N.eqb_neq; congruence).
  destruct (_ && _); unfold set_read; cbn [conversation_id]; now rewrite E.
Qed.

(** [mark_messages_as_read] for a conversation the user takes part in:
    [get_unread_message_count] of that user goes down by exactly the
    messages of this conversation that were unread for them, none of the
    conversation is unread for them afterwards, and neither the user's own
    messages nor the messages of any other conversation are touched. *)
Theorem mark_as_read_lowers_unread_count (c : ObjectId) (u : string) (s : Store) :
  distinct_ids s -> takes_part s c u ->
  exists s' n,
    mark_messages_as_read c u s = (Ok true, s')
    /\ get_unread_message_count u s = (Ok n, s)
    /\ get_unread_message_count u s'
       = (Ok (n - Z.of_nat (length (unread_in s c u))), s')
    /\ unread_in s' c u = []
    /\ filter (fun m => String.eqb (sender_id m) u) (messages s')
       = filter (fun m => String.eqb (sender_id m) u) (messages s)
    /\ (forall c', c' <> c -> messages_of s' c' = messages_of s c')
    /\ conversations s' = conversations s.
Proof.
  intros Hnd Hpart.
  exists (snd (mark_messages_as_read c u s)), (total_unread s u (conversations_of s u)).
  pose proof (unread_after_marking c u s) as Hafter.
  set (s' := snd (mark_messages_as_read c u s)) in *.
  assert (Hconv : conversations s' = conversations s) by reflexivity.
  split; [reflexivity|]. split; [apply get_unread_message_count_total|].
  split; [|split; [|split; [|split]]].
  - rewrite get_unread_message_count_total. f_equal. f_equal.
    unfold conversations_of at 1. rewrite Hconv. fold (conversations_of s u).
    rewrite (total_unread_shift s s' u c (- Z.of_nat (length (unread_in s c u)))).
    + rewrite (takes_part_once s c u Hnd Hpart). lia.
    + intros conv _. rewrite Hafter.
      destruct (conversation__id conv =? c)%N eqn:E; cbn [length]; [|lia].
      apply N.eqb_eq in E. rewrite E. lia.
  - rewrite Hafter. now rewrite N.eqb_refl.
  - apply marking_keeps_own.
  - intros c' Hne. apply marking_keeps_others, Hne.
  - exact Hconv.
Qed.

Lemma mark_as_read_lowers_unread_count_witness :
  exists s',
    mark_messages_as_read 0%N "patient" two_messages_store = (Ok true, s')
    /\ get_unread_message_count "patient" two_messages_store
       = (Ok 1, two_messages_store)
    /\ get_unread_message_count "patient" s' = (Ok 0, s').
Proof.
  assert (Hnd : distinct_ids two_messages_store) by (repeat constructor; set_solver).
  assert (Hpart : takes_part two_messages_store 0%N "patient").
  { eexists. split; [left|]. split; [reflexivity|]. cbn. set_solver. }
  destruct (mark_as_read_lowers_unread_count 0%N "patient" two_messages_store
              Hnd Hpart) as (s' & n & Hrun & Hbefore & Hafter & _).
  exists s'. split; [exact Hrun|].
  assert (Hn : n = 1).
  { assert (E : Ok (A := Z) n = Ok 1); [|now injection E].
    change (Ok n) with (fst (Ok n, two_messages_store)).
    rewrite <- Hbefore. reflexivity. }
  subst n. split; [exact Hbefore|exact Hafter].
Defined.


Lemma send_message_eq (sender : string) (c : ObjectId) (text : string) (s : Store) :
  send_message sender c text s
  = (Ok (Some (next_ObjectId s)),
     mkStore (update_first c (now s) (conversations s))
             (messages s ++ [mkMessage (next_ObjectId s) c sender text (now s) false])
             (N.succ (next_ObjectId s)) (now s)).
Proof. reflexivity. Qed.

Lemma total_unread_update_first (S : Store) (v : string) (c : ObjectId) (t : Z)
    (cs : list Conversation) :
  total_unread S v (filter (fun x => bool_decide (v ∈ participants x))
                           (update_first c t cs))
  = total_unread S v (filter (fun x => bool_decide (v ∈ participants x)) cs).
Proof.
  induction cs as [|x cs IH]; [reflexivity|]. cbn [update_first].
  destruct (conversation__id x =? c)%N.
  - rewrite !filter_cons_bool. unfold touch at 1. cbn [participants].
    destruct (bool_decide _); reflexivity.
  - rewrite !filter_cons_bool. destruct (bool_decide _); [|exact IH].
    unfold total_unread in IH |- *. cbn [foldr]. now rewrite IH.
Qed.

(** A message sent to a conversation counts as unread for every other
    member of it: [get_unread_message_count] of a member goes up by one,
    and the sender's own count stays as it is. *)
Theorem send_message_raises_unread_count (sender : string) (c : ObjectId)
    (text v : string) (s : Store) :
  distinct_ids s -> takes_part s c v ->
  exists mid s' n,
    send_message sender c text s = (Ok (Some mid), s')
    /\ get_unread_message_count v s = (Ok n, s)
    /\ get_unread_message_count v s'
       = (Ok (if String.eqb sender v then n else n + 1), s').
Proof.
  intros Hnd Hpart. rewrite send_message_eq.
  set (new := mkMessage (next_ObjectId s) c sender text (now s) false).
  set (s' := mkStore _ _ _ _).
  exists (next_ObjectId s), s', (total_unread s v (conversations_of s v)).
  split; [reflexivity|]. split; [apply get_unread_message_count_total|].
  rewrite get_unread_message_count_total. f_equal. f_equal.
  unfold conversations_of at 1. unfold s' at 2. cbn [conversations].
  rewrite total_unread_update_first. fold (conversations_of s v).
  rewrite (total_unread_shift s s' v c (if String.eqb sender v then 0 else 1)).
  - rewrite (takes_part_once s c v Hnd Hpart). destruct (String.eqb sender v); lia.
  - intros conv _. unfold unread_in, s'. cbn [messages].
    rewrite filter_app, length_app, filter_cons_bool, filter_nil.
    assert (Hnew : unread_for (conversation__id conv) v new
                   = (conversation__id conv =? c)%N && negb (String.eqb sender v)).
    { unfold unread_for, new. cbn [conversation_id sender_id is_read negb].
      now rewrite andb_true_r, (N.eqb_sym c). }
    rewrite Hnew.
    destruct (conversation__id conv =? c)%N, (String.eqb sender v);
      cbn [andb negb length]; lia.
Qed.

Lemma send_message_raises_unread_count_witness :
  exists mid s',
    send_message "doctor" 0%N "See you" two_messages_store = (Ok (Some mid), s')
    /\ get_unread_message_count "patient" s' = (Ok 2, s')
    /\ get_unread_message_count "doctor" s' = (Ok 1, s').
Proof.
  assert (Hnd : distinct_ids two_messages_store) by (repeat constructor; set_solver).
  assert (Hpatient : takes_part two_messages_store 0%N "patient").
  { eexists. split; [left|]. split; [reflexivity|]. cbn. set_solver. }
  destruct (send_message_raises_unread_count "doctor" 0%N "See you" "patient"
              two_messages_store Hnd Hpatient) as (mid & s' & n & Hrun & Hbefore & Hafter).
  exists mid, s'. split; [exact Hrun|].
  assert (Hn : n = 1).
  { assert (E : Ok (A := Z) n = Ok 1); [|now injection E].
    change (Ok n) with (fst (Ok n, two_messages_store)).
    rewrite <- Hbefore. reflexivity. }
  subst n. split; [exact Hafter|].
  rewrite send_message_eq in Hrun. injection Hrun as _ <-. reflexivity.
Defined.

Lemma newest_is_first (new : Message) (old : list Message) :
  (forall m, m ∈ old -> timestamp m < timestamp new) ->
  exists rest, order_by newer_first (old ++ [new]) = new :: rest.
Proof.
  intros Hold.
  destruct (order_by_newer_first (old ++ [new])) as [Hsorted Hperm].
  destruct (order_by newer_first (old ++ [new])) as [|x rest] eqn:E.
  { apply Permutation_length in Hperm. rewrite length_app in Hperm. cbn in Hperm. lia. }
  exists rest. f_equal.
  assert (Hx : x ∈ old ++ [new]) by (rewrite <- Hperm; left).
  apply elem_of_app in Hx as [Hx|Hx]; [|now apply list_elem_of_singleton in Hx].
  exfalso. specialize (Hold x Hx).
  assert (Hnew : new ∈ x :: rest) by (rewrite Hperm; apply elem_of_app; right; left).
  apply elem_of_cons in Hnew as [->|Hnew]; [lia|].
  apply StronglySorted_inv in Hsorted as [_ Hall].
  rewrite Forall_forall in Hall. specialize (Hall new Hnew).
  unfold at_least_as_recent in Hall. lia.
Qed.

(** A message that has just been sent closes the history: when every
    message the conversation held is older than the clock,
    [get_conversation_messages] -- whatever the limit -- ends with the new
    message, which carries the id [send_message] returned, the sender, the
    text, the time of sending and no read mark. *)
Theorem sent_message_closes_history (sender : string) (c : ObjectId)
    (text : string) (limit : Z) (s : Store) :
  (forall m, m ∈ messages_of s c -> timestamp m < now s) ->
  exists mid s' history,
    send_message sender c text s = (Ok (Some mid), s')
    /\ get_conversation_messages c limit 0 s' = (Ok history, s')
    /\ last history = Some (mkMessage mid c sender text (now s) false)
    /\ length (messages_of s' c) = S (length (messages_of s c)).
Proof.
  intros Hold. rewrite send_message_eq.
  set (new := mkMessage (next_ObjectId s) c sender text (now s) false).
  set (s' := mkStore _ _ _ _).
  assert (Hof : messages_of s' c = messages_of s c ++ [new]).
  { unfold messages_of, s'. cbn [messages].
    rewrite filter_app, filter_cons_bool, filter_nil. unfold new at 1.
    cbn [conversation_id]. now rewrite N.eqb_refl. }
  destruct (newest_is_first new (messages_of s c) Hold) as (rest & Hsorted).
  exists (next_ObjectId s), s'. eexists. split; [reflexivity|].
  unfold get_conversation_messages, try_except, bind, find_messages, ret.
  cbn [Z.ltb Z.compare Z.to_nat drop]. fold (messages_of s' c).
  rewrite Hof, Hsorted. split; [reflexivity|].
  split; [|now rewrite length_app, Nat.add_1_r].
  fold new. unfold apply_limit. destruct (limit =? 0) eqn:Hzero.
  - cbn [rev]. apply last_snoc.
  - destruct (Z.to_nat (Z.abs limit)) as [|k] eqn:Hk.
    + apply Z.eqb_neq in Hzero. lia.
    + cbn [take rev]. apply last_snoc.
Qed.

Lemma sent_message_closes_history_witness :
  exists mid s' history,
    send_message "doctor" 0%N "See you" two_messages_store = (Ok (Some mid), s')
    /\ get_conversation_messages 0%N 2 0 s' = (Ok history, s')
    /\ last history = Some (mkMessage mid 0%N "doctor" "See you" 130 false).
Proof.
  assert (Hold : forall m, m ∈ messages_of two_messages_store 0%N
                           -> timestamp m < now two_messages_store).
  { intros m Hm. change (messages_of two_messages_store 0%N)
      with (messages two_messages_store) in Hm.
    apply elem_of_cons in Hm as [->|Hm]; [reflexivity|].
    apply list_elem_of_singleton in Hm as ->. reflexivity. }
  destruct (sent_message_closes_history "doctor" 0%N "See you" 2 two_messages_store
              Hold) as (mid & s' & history & Hrun & Hget & Hlast & _).
  exists mid, s', history. split; [exact Hrun|]. split; [exact Hget|exact Hlast].
Defined.


Lemma update_first_ids (c : ObjectId) (t : Z) (cs : list Conversation) :
  map conversation__id (update_first c t cs) = map conversation__id cs.
Proof.
  induction cs as [|x cs IH]; [reflexivity|]. cbn [update_first].
  destruct (conversation__id x =? c)%N; cbn [map]; [reflexivity|now rewrite IH].
Qed.

Lemma update_first_distinct (c : ObjectId) (t : Z) (cs : list Conversation) :
  NoDup (map conversation__id cs) ->
  update_first c t cs
  = map (fun x => if (conversation__id x =? c)%N then touch t x else x) cs.
Proof.
  induction cs as [|x cs IH]; intros Hnd; [reflexivity|].
  cbn [map] in Hnd. apply NoDup_cons in Hnd as [Hx Hrest].
  cbn [update_first map]. destruct (conversation__id x =? c)%N eqn:E.
  - f_equal. symmetry. rewrite <- (map_id cs) at 2. apply map_ext_in.
    intros y Hy. destruct (conversation__id y =? c)%N eqn:Ey; [|reflexivity].
    exfalso. apply Hx. apply N.eqb_eq in E, Ey. rewrite E, <- Ey.
    apply list_elem_of_fmap. exists y. split; [reflexivity|now apply list_elem_of_In].
  - f_equal. now apply IH.
Qed.

Lemma count_after_send (s : Store) (new : Message) (k : ObjectId) :
  length (filter (fun m => (conversation_id m =? k)%N) (messages s ++ [new]))
  = (length (messages_of s k)
     + if (conversation_id new =? k)%N then 1 else 0)%nat.
Proof.
  rewrite filter_app, length_app, filter_cons_bool, filter_nil.
  fold (messages_of s k). now destruct (conversation_id new =? k)%N.
Qed.

Lemma count_after_marking (c k : ObjectId) (u : string) (ms : list Message) :
  length (filter (fun m => (conversation_id m =? k)%N)
                 (map (fun m => if unread_for c u m then set_read m else m) ms))
  = length (filter (fun m => (conversation_id m =? k)%N) ms).
Proof.
  induction ms as [|m ms IH]; [reflexivity|]. cbn [map].
  rewrite !filter_cons_bool.
  assert (E : conversation_id (if unread_for c u m then set_read m else m)
              = conversation_id m) by (now destruct (unread_for c u m)).
  rewrite E. destruct (conversation_id m =? k)%N; cbn [length]; now rewrite IH.
Qed.

Lemma empty_store_well_kept (t : Z) : well_kept (empty_store t).
Proof. repeat split; constructor. Qed.

Lemma client_step_well_kept (s s' : Store) :
  client_step s s' -> well_kept s -> well_kept s'.
Proof.
  intros Hstep (Hbelow & Hnd & Hrefer & Hcount).
  destruct Hstep as [a b|sender c text Hc|c u|t].
  - destruct (get_or_create_conversation_spec a b s)
      as [(id & _ & ->)|[_ ->]]; cbn [snd]; [now repeat split|].
    set (new := mkConversation (next_ObjectId s) [a; b] (now s) (now s) 0).
    assert (Hfresh : next_ObjectId s ∉ map conversation__id (conversations s)).
    { intros Hin. apply list_elem_of_fmap in Hin as (y & Hy & Hin).
      unfold ids_below_next in Hbelow. rewrite Forall_forall in Hbelow.
      specialize (Hbelow y Hin). lia. }
    split; [|split; [|split]].
    + unfold ids_below_next. cbn [conversations next_ObjectId].
      apply Forall_app. split.
      * eapply Forall_impl; [exact Hbelow|]. cbn. intros; lia.
      * repeat constructor. cbn. lia.
    + unfold distinct_ids. cbn [conversations]. rewrite map_app.
      apply NoDup_app. split; [exact Hnd|]. split; [|repeat constructor; set_solver].
      intros x Hx Hx'. cbn in Hx'. apply list_elem_of_singleton in Hx' as ->.
      now apply Hfresh.
    + cbn [conversations messages]. eapply Forall_impl; [exact Hrefer|].
      cbn. intros m Hm. rewrite map_app. apply elem_of_app. now left.
    + cbn [conversations]. apply Forall_app. split; [exact Hcount|].
      repeat constructor. unfold stored_count, messages_of. cbn [messages new
        message_count conversation__id].
      rewrite filter_none; [reflexivity|].
      destruct (existsb _ (messages s)) eqn:Hex; [|reflexivity].
      apply existsb_exists in Hex as (m & Hm & Hid). apply N.eqb_eq in Hid.
      exfalso. apply Hfresh. rewrite <- Hid.
      rewrite Forall_forall in Hrefer. apply Hrefer. now apply list_elem_of_In.
  - rewrite send_message_eq. cbn [snd].
    set (new := mkMessage (next_ObjectId s) c sender text (now s) false).
    split; [|split; [|split]].
    + unfold ids_below_next in *. cbn [conversations next_ObjectId].
      rewrite Forall_forall in Hbelow |- *. intros x Hx.
      assert (Hid : conversation__id x ∈ map conversation__id (conversations s)).
      { rewrite <- (update_first_ids c (now s)). apply list_elem_of_fmap. now exists x. }
      apply list_elem_of_fmap in Hid as (y & -> & Hy). specialize (Hbelow y Hy). lia.
    + unfold distinct_ids. cbn [conversations]. now rewrite update_first_ids.
    + cbn [conversations messages]. rewrite update_first_ids.
      apply Forall_app. split; [exact Hrefer|]. repeat constructor. exact Hc.
    + cbn [conversations]. rewrite (update_first_distinct _ _ _ Hnd).
      apply (Forall_fmap (fun x => if (conversation__id x =? c)%N
                                     then touch (now s) x else x)).
      eapply Forall_impl; [exact Hcount|].
      intros conv Hconv. unfold compose, stored_count, messages_of in *.
      cbn [messages]. rewrite count_after_send. fold (messages_of s).
      unfold new at 1. cbn [conversation_id].
      destruct (conversation__id conv =? c)%N eqn:E.
      * unfold touch. cbn [message_count conversation__id].
        rewrite (N.eqb_sym c), E, Hconv. unfold messages_of. lia.
      * rewrite (N.eqb_sym c), E, Hconv. unfold messages_of. lia.
  - unfold mark_messages_as_read, try_except, bind, update_many_read, ret.
    cbn [snd]. split; [exact Hbelow|]. split; [exact Hnd|]. split.
    + cbn [conversations messages].
      apply (Forall_fmap (fun m => if unread_for c u m then set_read m else m)).
      eapply Forall_impl; [exact Hrefer|]. intros m Hm. unfold compose.
      now destruct (unread_for c u m).
    + cbn [conversations]. eapply Forall_impl; [exact Hcount|].
      intros conv Hconv. unfold stored_count, messages_of in *. cbn [messages].
      now rewrite count_after_marking.
  - now repeat split.
Qed.

Lemma client_run_well_kept (s s' : Store) :
  client_run s s' -> well_kept s -> well_kept s'.
Proof.
  induction 1 as [|s1 s2 _ IH Hstep]; intros Hs; [exact Hs|].
  apply (client_step_well_kept s1 s2 Hstep), IH, Hs.
Qed.

(** From an empty store on, as long as messages are sent to conversations
    that exist, each conversation's [message_count] is the number of
    messages stored for it, and no two conversations share an [_id]. *)
Theorem message_count_counts_messages (t : Z) (s : Store) :
  client_run (empty_store t) s ->
  distinct_ids s
  /\ forall conv, conv ∈ conversations s ->
       message_count conv
       = Z.of_nat (length (messages_of s (conversation__id conv))).
Proof.
  intros Hrun.
  destruct (client_run_well_kept _ _ Hrun (empty_store_well_kept t))
    as (_ & Hnd & _ & Hcount).
  split; [exact Hnd|]. intros conv Hin. rewrite Forall_forall in Hcount.
  exact (Hcount conv Hin).
Qed.

Lemma message_count_counts_messages_witness :
  map message_count (conversations greeted_store) = [1]
  /\ forall conv, conv ∈ conversations greeted_store ->
       message_count conv
       = Z.of_nat (length (messages_of greeted_store (conversation__id conv))).
Proof.
  split; [reflexivity|].
  assert (Hrun : client_run (empty_store 100) greeted_store).
  { eapply run_step; [eapply run_step; [apply run_nil|]|].
    - apply (client_opens _ "doctor" "patient").
    - apply (client_sends _ "doctor" 0%N "Hello"). left. }
  exact (proj2 (message_count_counts_messages 100 greeted_store Hrun)).
Defined.

End Inbox.

(** ** Accounts and sessions *)

Section Accounts.

Import Mongo MongoAccounts.

Variable gensalt : nat -> list Byte.byte.
Variable hashpw : list Byte.byte -> list Byte.byte -> option (list Byte.byte).
Variable checkpw : list Byte.byte -> list Byte.byte -> option bool.

Lemma find_one_user_none (matches : User -> bool) (db : Database) :
  existsb matches (users db) = false ->
  find_one_user matches db = (Ok None, db).
Proof.
  intros Hnone. unfold find_one_user. now rewrite (filter_none _ _ Hnone).
Qed.

Lemma find_one_user_last (matches : User -> bool) (db : Database) (u : User)
    (old : list User) :
  users db = (old ++ [u])%list ->
  existsb matches old = false -> matches u = true ->
  find_one_user matches db = (Ok (Some u), db).
Proof.
  intros Husers Hnone Hu. unfold find_one_user.
  rewrite Husers, filter_app, (filter_none _ _ Hnone), filter_cons_bool, Hu.
  reflexivity.
Qed.

(** An account made by [create_user] can be used at once: with the same
    password [authenticate_user] returns the account's id and data and
    opens a session; with a password bcrypt tells apart from it, it
    returns None and opens none; and the username is taken, so a second
    [create_user] with it returns None and changes nothing. *)
Theorem create_user_then_authenticate
    (username_ password user_type_ first_name_ last_name_ : string)
    (user_id_ : option Z) (db : Database) (hashed : list Byte.byte) :
  (forall p salt h, hashpw p salt = Some h -> checkpw p h = Some true) ->
  existsb (fun u => String.eqb (username u) username_) (users db) = false ->
  hashpw (encode_utf8 password) (gensalt (salts_drawn db)) = Some hashed ->
  exists uid db1 sid db2,
    create_user gensalt hashpw username_ password user_type_ first_name_
                last_name_ user_id_ db = (Ok (Some uid), db1)
    /\ authenticate_user checkpw username_ password db1
       = (Ok (Some (mkUserInfo uid username_ user_type_ first_name_ last_name_
                               user_id_ (Some sid))), db2)
    /\ length (user_sessions db2) = S (length (user_sessions db))
    /\ (forall wrong, checkpw (encode_utf8 wrong) hashed = Some false ->
          authenticate_user checkpw username_ wrong db1 = (Ok None, db1))
    /\ (forall password' user_type' first_name' last_name' user_id',
          create_user gensalt hashpw username_ password' user_type' first_name'
                      last_name' user_id' db1 = (Ok None, db1)).
Proof.
  intros Hbcrypt Hfree Hhash.
  set (new := mkUser (next_ObjectId (chat db)) username_ hashed user_type_
                     first_name_ last_name_ user_id_ (now (chat db)) true).
  assert (Hcreate : exists db1,
    create_user gensalt hashpw username_ password user_type_ first_name_
                last_name_ user_id_ db = (Ok (Some (next_ObjectId (chat db))), db1)
    /\ users db1 = (users db ++ [new])%list
    /\ user_sessions db1 = user_sessions db).
  { unfold create_user, try_except.
    rewrite (bind_ok _ _ _ _ _ (find_one_user_none _ db Hfree)).
    unfold bind, bcrypt_gensalt, bcrypt_hashpw. rewrite Hhash.
    cbn. eexists. split; [reflexivity|]. split; reflexivity. }
  destruct Hcreate as (db1 & Hrun & Husers & Hsessions).
  assert (Hself : String.eqb username_ username_ = true) by apply String.eqb_refl.
  assert (Hfind : find_one_user (fun u => String.eqb (username u) username_
                                          && user_is_active u) db1
                  = (Ok (Some new), db1)).
  { apply (find_one_user_last _ db1 new (users db) Husers).
    - apply not_true_is_false. intros Hex.
      apply existsb_exists in Hex as (u & Hu & Hm). apply andb_true_iff in Hm as [Hm _].
      assert (Hin : existsb (fun u => String.eqb (username u) username_) (users db)
                    = true) by (apply existsb_exists; now exists u).
      congruence.
    - cbn. now rewrite Hself. }
  exists (next_ObjectId (chat db)), db1.
  assert (Hauth : exists sid db2,
    authenticate_user checkpw username_ password db1
    = (Ok (Some (mkUserInfo (next_ObjectId (chat db)) username_ user_type_
                            first_name_ last_name_ user_id_ (Some sid))), db2)
    /\ length (user_sessions db2) = S (length (user_sessions db))).
  { unfold authenticate_user, try_except. rewrite (bind_ok _ _ _ _ _ Hfind).
    unfold bind at 1, bcrypt_checkpw. cbn [password_hash new].
    rewrite (Hbcrypt _ _ _ Hhash). cbn. eexists _, _. split; [reflexivity|].
    cbn. rewrite Hsessions, length_app. cbn. lia. }
  destruct Hauth as (sid & db2 & Hauth & Hlen).
  exists sid, db2. split; [exact Hrun|]. split; [exact Hauth|]. split; [exact Hlen|].
  split.
  - intros wrong Hwrong. unfold authenticate_user, try_except.
    rewrite (bind_ok _ _ _ _ _ Hfind). unfold bind, bcrypt_checkpw.
    cbn [password_hash new]. now rewrite Hwrong.
  - intros password' user_type' first_name' last_name' user_id'.
    unfold create_user, try_except.
    assert (Htaken : find_one_user (fun u => String.eqb (username u) username_) db1
                     = (Ok (Some new), db1)).
    { apply (find_one_user_last _ db1 new (users db) Husers Hfree). cbn. exact Hself. }
    now rewrite (bind_ok _ _ _ _ _ Htaken).
Qed.


Lemma filter_filter_none {A} (P K : A -> bool) (l : list A) :
  (forall x, x ∈ l -> P x = false) -> filter P (filter K l) = [].
Proof.
  induction l as [|x l IH]; intros Hall; [reflexivity|].
  rewrite (filter_cons_bool K).
  assert (Hl : filter P (filter K l) = [])
    by (apply IH; intros y Hy; apply Hall; now right).
  destruct (K x); [|exact Hl].
  rewrite filter_cons_bool, (Hall x) by now left. exact Hl.
Qed.

Lemma filter_map_same {A} (P : A -> bool) (f : A -> A) (l : list A) :
  (forall x, P (f x) = P x) -> (forall x, P x = true -> f x = x) ->
  filter P (map f l) = filter P l.
Proof.
  intros Hsame Hfix. induction l as [|x l IH]; [reflexivity|]. cbn [map].
  rewrite !filter_cons_bool, Hsame, IH. destruct (P x) eqn:E; [|reflexivity].
  now rewrite (Hfix x E).
Qed.

Lemma ttl_monitor_idle (db : Database) : ttl_monitor (fun _ => false) db = db.
Proof.
  unfold ttl_monitor. destruct db as [c u l n].
  cbn [chat users user_sessions salts_drawn]. f_equal.
  induction l as [|x l IH]; [reflexivity|]. rewrite filter_cons_bool.
  cbn [andb negb]. f_equal. exact IH.
Qed.

Lemma validate_session_eq (sid : ObjectId) (db : Database) :
  validate_session (Some sid) db
  = (Ok (session_user_id
           <$> head (filter (fun x => (session__id x =? sid)%N
                                      && session_is_active x
                                      && (now (chat db) <? expires_at x))
                            (user_sessions db))), db).
Proof. reflexivity. Qed.

(** What a successful [authenticate_user] has done. *)
Lemma authenticate_user_inv (username_ password : string) (db db1 : Database)
    (info : UserInfo) :
  authenticate_user checkpw username_ password db = (Ok (Some info), db1) ->
  info_session_id info = Some (next_ObjectId (chat db))
  /\ user_sessions db1
     = (user_sessions db
        ++ [mkSession (next_ObjectId (chat db)) (info__id info) (now (chat db))
                      (replace_23_59_59 (now (chat db))) true])%list
  /\ users db1 = users db
  /\ now (chat db1) = now (chat db)
  /\ exists user, user ∈ users db /\ user__id user = info__id info
                  /\ username user = username_.
Proof.
  unfold authenticate_user, try_except, bind at 1, find_one_user.
  destruct (head _) as [user|] eqn:Hfound; cbn [ret]; [|intros [=]].
  unfold bind at 1, bcrypt_checkpw.
  destruct (checkpw _ _) as [[|]|]; cbn; intros [= <- <-]; cbn.
  split; [reflexivity|]. split; [reflexivity|]. split; [reflexivity|].
  split; [reflexivity|]. exists user.
  apply head_Some_elem_of in Hfound. apply list_elem_of_filter in Hfound as [Hm Hin].
  split; [exact Hin|]. split; [reflexivity|].
  apply Is_true_true, andb_true_iff in Hm as [Hm _]. now apply String.eqb_eq.
Qed.

Lemma replace_23_59_59_bounds (t : Z) :
  t <= replace_23_59_59 t < t + 86400000
  /\ (86399000 <= t mod 86400000 -> replace_23_59_59 t = t).
Proof.
  unfold replace_23_59_59.
  pose proof (Z.mod_pos_bound t 86400000 ltac:(lia)) as Hday.
  pose proof (Z.mod_pos_bound t 1000 ltac:(lia)) as Hms.
  assert (Hsplit : t mod 86400000 = 1000 * ((t mod 86400000) / 1000) + t mod 1000).
  { rewrite <- (Z.mod_mod_divide t 86400000 1000) by (exists 86400; reflexivity).
    apply Z.div_mod. lia. }
  assert (Hq : 0 <= (t mod 86400000) / 1000 < 86400).
  { split; [apply Z.div_pos; lia|]. apply Z.div_lt_upper_bound; lia. }
  lia.
Qed.

(** The session [authenticate_user] opens is valid until the end of the
    UTC day of the login and at no time from then on, whatever the monitor
    of the expiry index has deleted in between; a session opened in the
    last second of a day is valid at no time after the login at all. *)
Theorem session_valid_until_end_of_day (username_ password : string)
    (db db1 : Database) (info : UserInfo) :
  sessions_below_next db ->
  authenticate_user checkpw username_ password db = (Ok (Some info), db1) ->
  exists sid,
    info_session_id info = Some sid
    /\ (forall t chosen,
          fst (validate_session (Some sid) (ttl_monitor chosen (at_time t db1)))
          = Ok (if t <? replace_23_59_59 (now (chat db))
                then Some (info__id info) else None))
    /\ now (chat db) <= replace_23_59_59 (now (chat db)) < now (chat db) + 86400000
    /\ (86399000 <= now (chat db) mod 86400000 ->
        forall t chosen, now (chat db) <= t ->
          fst (validate_session (Some sid) (ttl_monitor chosen (at_time t db1)))
          = Ok None).
Proof.
  intros Hbelow Hauth.
  destruct (authenticate_user_inv _ _ _ _ _ Hauth) as (Hsid & Hsessions & _ & _ & _).
  exists (next_ObjectId (chat db)). split; [exact Hsid|].
  assert (Hvalid : forall t chosen,
    fst (validate_session (Some (next_ObjectId (chat db)))
           (ttl_monitor chosen (at_time t db1)))
    = Ok (if t <? replace_23_59_59 (now (chat db))
          then Some (info__id info) else None)).
  { intros t chosen. rewrite validate_session_eq. cbn [fst]. f_equal.
    unfold ttl_monitor, at_time. cbn [user_sessions chat now].
    rewrite Hsessions, filter_app.
    rewrite filter_app, filter_filter_none.
    2:{ intros x Hx. unfold sessions_below_next in Hbelow.
        rewrite Forall_forall in Hbelow. specialize (Hbelow x Hx).
        assert (E : (session__id x =? next_ObjectId (chat db))%N = false)
          by (apply N.eqb_neq; lia).
        now rewrite E. }
    cbn [app]. rewrite (filter_cons_bool (fun x => negb _)), filter_nil.
    cbn [expires_at]. destruct (t <? replace_23_59_59 (now (chat db))) eqn:Ht.
    - assert (E : (replace_23_59_59 (now (chat db)) <=? t) = false)
        by (apply Z.leb_gt; now apply Z.ltb_lt).
      rewrite E, andb_false_r. cbn [negb].
      rewrite filter_cons_bool. cbn [session__id session_is_active expires_at].
      now rewrite N.eqb_refl, Ht.
    - destruct (negb _); [|reflexivity].
      rewrite filter_cons_bool. cbn [session__id session_is_active expires_at].
      now rewrite N.eqb_refl, Ht. }
  split; [exact Hvalid|].
  destruct (replace_23_59_59_bounds (now (chat db))) as [Hbounds Hlast].
  split; [exact Hbounds|].
  intros Hsecond t chosen Hlater. rewrite Hvalid.
  assert (E : (t <? replace_23_59_59 (now (chat db))) = false)
    by (apply Z.ltb_ge; rewrite (Hlast Hsecond); exact Hlater).
  now rewrite E.
Qed.


Lemma deactivate_first_distinct (sid : ObjectId) (l : list Session) :
  NoDup (map session__id l) ->
  fst (deactivate_first sid l)
  = map (fun x => if (session__id x =? sid)%N then deactivated x else x) l.
Proof.
  induction l as [|x l IH]; intros Hnd; [reflexivity|].
  cbn [map] in Hnd. apply NoDup_cons in Hnd as [Hx Hrest].
  cbn [deactivate_first map]. destruct (session__id x =? sid)%N eqn:E; cbn [fst].
  - f_equal. rewrite <- (map_id l) at 1. apply map_ext_in.
    intros y Hy. destruct (session__id y =? sid)%N eqn:Ey; [|reflexivity].
    exfalso. apply Hx. apply N.eqb_eq in E, Ey. rewrite E, <- Ey.
    apply list_elem_of_fmap. exists y. split; [reflexivity|now apply list_elem_of_In].
  - f_equal. now apply IH.
Qed.

Lemma deactivate_first_count (sid : ObjectId) (l : list Session) :
  NoDup (map session__id l) ->
  snd (deactivate_first sid l)
  = if existsb (fun x => (session__id x =? sid)%N && session_is_active x) l
    then 1 else 0.
Proof.
  induction l as [|x l IH]; intros Hnd; [reflexivity|].
  cbn [map] in Hnd. apply NoDup_cons in Hnd as [Hx Hrest].
  cbn [deactivate_first existsb]. destruct (session__id x =? sid)%N eqn:E; cbn [snd andb].
  - destruct (session_is_active x); [reflexivity|]. cbn [orb].
    assert (Hno : existsb (fun x => (session__id x =? sid)%N && session_is_active x) l
                  = false).
    { apply not_true_is_false. intros Hex.
      apply existsb_exists in Hex as (y & Hy & Hm).
      apply andb_true_iff in Hm as [Hm _]. apply Hx.
      apply N.eqb_eq in E, Hm. rewrite E, <- Hm.
      apply list_elem_of_fmap. exists y. split; [reflexivity|now apply list_elem_of_In]. }
    now rewrite Hno.
  - now apply IH.
Qed.

Lemma deactivate_first_none (sid : ObjectId) (l : list Session) :
  (forall x, x ∈ l -> (session__id x =? sid)%N && session_is_active x = false) ->
  snd (deactivate_first sid l) = 0.
Proof.
  induction l as [|x l IH]; intros Hall; [reflexivity|]. cbn [deactivate_first].
  pose proof (Hall x ltac:(left)) as Hx.
  destruct (session__id x =? sid)%N; cbn [snd andb] in *.
  - now rewrite Hx.
  - apply IH. intros y Hy. apply Hall. now right.
Qed.

(** [logout_user] says whether it ended an active session.  After it the
    session is valid at no time, whatever the monitor of the expiry index
    does; a second [logout_user] of it returns False; and the validity of
    every other session is as before. *)
Theorem logout_ends_session (sid : ObjectId) (db : Database) :
  distinct_sessions db ->
  exists db',
    logout_user (Some sid) db
    = (Ok (existsb (fun x => (session__id x =? sid)%N && session_is_active x)
                   (user_sessions db)), db')
    /\ (forall t chosen,
          fst (validate_session (Some sid) (ttl_monitor chosen (at_time t db')))
          = Ok None)
    /\ fst (logout_user (Some sid) db') = Ok false
    /\ (forall other t, other <> sid ->
          fst (validate_session (Some other) (at_time t db'))
          = fst (validate_session (Some other) (at_time t db)))
    /\ users db' = users db.
Proof.
  intros Hnd. unfold distinct_sessions in Hnd.
  set (f := fun x => if (session__id x =? sid)%N then deactivated x else x).
  assert (Hoff : forall x, x ∈ map f (user_sessions db) ->
                   (session__id x =? sid)%N && session_is_active x = false).
  { intros x Hx. apply list_elem_of_fmap in Hx as (y & -> & _). unfold f.
    destruct (session__id y =? sid)%N eqn:E; [|now rewrite E].
    cbn. apply andb_false_r. }
  eexists. split; [|split; [|split; [|split]]].
  - unfold logout_user, try_except, bind, ObjectId_, ret, update_one_session.
    rewrite (deactivate_first_count sid _ Hnd), (deactivate_first_distinct sid _ Hnd).
    fold f. destruct (existsb _ _); reflexivity.
  - intros t chosen. rewrite validate_session_eq. cbn [fst]. f_equal.
    unfold ttl_monitor, at_time. cbn [user_sessions chat now].
    rewrite filter_filter_none; [reflexivity|].
    intros x Hx. now rewrite (Hoff x Hx).
  - unfold logout_user, try_except, bind, ObjectId_, ret, update_one_session.
    cbn [fst user_sessions]. now rewrite (deactivate_first_none sid _ Hoff).
  - intros other t Hother. rewrite !validate_session_eq. cbn [fst].
    unfold at_time. cbn [user_sessions chat now].
    rewrite (filter_map_same
               (fun x => (session__id x =? other)%N && session_is_active x
                         && (t <? expires_at x)) f); [reflexivity| |].
    + intros x. unfold f. destruct (session__id x =? sid)%N eqn:E; [|reflexivity].
      apply N.eqb_eq in E.
      assert (E' : (session__id x =? other)%N = false)
        by (apply N.eqb_neq; congruence).
      cbn [deactivated session__id]. now rewrite E'.
    + intros x Hx. unfold f. destruct (session__id x =? sid)%N eqn:E; [|reflexivity].
      apply N.eqb_eq in E.
      assert (E' : (session__id x =? other)%N = false)
        by (apply N.eqb_neq; congruence).
      now rewrite E' in Hx.
  - reflexivity.
Qed.

End Accounts.

Lemma create_user_then_authenticate_witness :
  let gensalt := fun _ : nat => [] : list Byte.byte in
  let hashpw := fun (p _ : list Byte.byte) => Some p in
  let checkpw := fun (p h : list Byte.byte) => Some (bool_decide (map Byte.to_N p = map Byte.to_N h)) in
  exists uid db1 sid,
    MongoAccounts.create_user gensalt hashpw "dr.johnson" "doctor123" "doctor"
      "Anna" "Johnson" (Some 1) (MongoAccounts.empty_database 1000)
    = (Ok (Some uid), db1)
    /\ fst (MongoAccounts.authenticate_user checkpw "dr.johnson" "doctor123" db1)
       = Ok (Some (MongoAccounts.mkUserInfo uid "dr.johnson" "doctor" "Anna"
                     "Johnson" (Some 1) (Some sid)))
    /\ MongoAccounts.authenticate_user checkpw "dr.johnson" "doctor124" db1
       = (Ok None, db1).
Proof.
  intros gensalt hashpw checkpw.
  destruct (create_user_then_authenticate gensalt hashpw checkpw
              "dr.johnson" "doctor123" "doctor" "Anna" "Johnson" (Some 1)
              (MongoAccounts.empty_database 1000)
              (MongoAccounts.encode_utf8 "doctor123"))
    as (uid & db1 & sid & db2 & Hcreate & Hauth & _ & Hwrong & _).
  - intros p salt h [= <-]. unfold checkpw. now rewrite bool_decide_true.
  - reflexivity.
  - reflexivity.
  - exists uid, db1, sid. split; [exact Hcreate|]. split; [now rewrite Hauth|].
    apply Hwrong. reflexivity.
Defined.

Lemma session_valid_until_end_of_day_witness :
  let checkpw := fun (p h : list Byte.byte) => Some (bool_decide (map Byte.to_N p = map Byte.to_N h)) in
  let user := MongoAccounts.mkUser 0%N "dr.johnson"
                (MongoAccounts.encode_utf8 "doctor123") "doctor" "Anna" "Johnson"
                (Some 1) 0 true in
  let db := MongoAccounts.mkDatabase (Mongo.mkStore [] [] 1%N 3600000) [user] [] 1 in
  exists info db1 sid,
    MongoAccounts.authenticate_user checkpw "dr.johnson" "doctor123" db
    = (Ok (Some info), db1)
    /\ MongoAccounts.info_session_id info = Some sid
    /\ fst (MongoAccounts.validate_session (Some sid)
              (MongoAccounts.at_time 86398999 db1)) = Ok (Some 0%N)
    /\ fst (MongoAccounts.validate_session (Some sid)
              (MongoAccounts.at_time 86399000 db1)) = Ok None.
Proof.
  intros checkpw user db.
  assert (Hauth : exists info db1,
    MongoAccounts.authenticate_user checkpw "dr.johnson" "doctor123" db
    = (Ok (Some info), db1) /\ MongoAccounts.info__id info = 0%N).
  { eexists _, _. split; reflexivity. }
  destruct Hauth as (info & db1 & Hauth & Hid).
  destruct (session_valid_until_end_of_day checkpw "dr.johnson" "doctor123" db db1
              info) as (sid & Hsid & Hvalid & _).
  - constructor.
  - exact Hauth.
  - exists info, db1, sid. split; [exact Hauth|]. split; [exact Hsid|].
    pose proof (Hvalid 86398999 (fun _ => false)) as H1.
    pose proof (Hvalid 86399000 (fun _ => false)) as H2.
    rewrite Hid, ttl_monitor_idle in H1. rewrite ttl_monitor_idle in H2.
    split; [exact H1|exact H2].
Defined.

Lemma logout_ends_session_witness :
  let db := MongoAccounts.mkDatabase (Mongo.mkStore [] [] 2%N 5000) []
              [MongoAccounts.mkSession 1%N 0%N 1000 86399000 true] 0 in
  exists db',
    MongoAccounts.logout_user (Some 1%N) db = (Ok true, db')
    /\ fst (MongoAccounts.validate_session (Some 1%N) db) = Ok (Some 0%N)
    /\ fst (MongoAccounts.validate_session (Some 1%N)
              (MongoAccounts.at_time 5001 db')) = Ok None
    /\ fst (MongoAccounts.logout_user (Some 1%N) db') = Ok false.
Proof.
  intros db.
  assert (Hnd : MongoAccounts.distinct_sessions db) by (repeat constructor; set_solver).
  destruct (logout_ends_session 1%N db Hnd) as (db' & Hrun & Hnever & Hagain & _).
  exists db'. split; [exact Hrun|]. split; [reflexivity|].
  split; [|exact Hagain].
  pose proof (Hnever 5001 (fun _ => false)) as H. now rewrite ttl_monitor_idle in H.
Defined.

(** ** The list of a user's conversations *)

Section ConversationList.

Import Mongo MongoAccounts.

Variable ObjectId_of_text : string -> option ObjectId.

Instance active_first_total : Total active_first_rel.
Proof.
  intros a b. unfold active_first_rel, active_first.
  rewrite !Is_true_true, !Z.leb_le. lia.
Qed.

Instance active_first_trans : Transitive active_first_rel.
Proof.
  intros a b c. unfold active_first_rel, active_first.
  rewrite !Is_true_true, !Z.leb_le. lia.
Qed.

Lemma next_other_alone (u : string) (conv : Conversation) :
  alone_in u conv -> next_other u conv = None.
Proof.
  intros [_ Hall]. unfold next_other. rewrite filter_none; [reflexivity|].
  apply not_true_is_false. intros Hex. apply existsb_exists in Hex as (p & Hp & Hne).
  rewrite (Hall p) in Hne by now apply list_elem_of_In.
  now rewrite String.eqb_refl in Hne.
Qed.

Lemma conversation_loop_alone (db : Database) (u : string) (conv : Conversation)
    (convs : list Conversation) :
  conv ∈ convs -> alone_in u conv ->
  forall result, conversation_loop ObjectId_of_text db u convs result = None.
Proof.
  intros Hin Halone. induction convs as [|x rest IH]; [now apply elem_of_nil in Hin|].
  intros result. cbn [conversation_loop].
  apply elem_of_cons in Hin as [<-|Hin]; [now rewrite next_other_alone|].
  destruct (next_other u x); [|reflexivity].
  destruct (ObjectId_of_text _); [|reflexivity].
  destruct (head _); now apply IH.
Qed.

Lemma update_first_participants (c : ObjectId) (t : Z) (cs : list Conversation)
    (conv : Conversation) :
  conv ∈ cs ->
  exists conv', conv' ∈ update_first c t cs /\ participants conv' = participants conv.
Proof.
  induction cs as [|x rest IH]; intros Hin; [now apply elem_of_nil in Hin|].
  cbn [update_first]. apply elem_of_cons in Hin as [->|Hin].
  - destruct (conversation__id x =? c)%N.
    + exists (touch t x). split; [left|reflexivity].
    + exists x. split; [left|reflexivity].
  - destruct (conversation__id x =? c)%N.
    + exists conv. split; [now right|reflexivity].
    + destruct (IH Hin) as (conv' & Hin' & Hp). exists conv'. split; [now right|exact Hp].
Qed.

Lemma later_keeps_alone (u : string) (s s' : Store) :
  later s s' ->
  (exists conv, conv ∈ conversations s /\ alone_in u conv) ->
  exists conv, conv ∈ conversations s' /\ alone_in u conv.
Proof.
  induction 1 as [|s1 s2 _ IH Hstep]; intros Hs; [exact Hs|].
  destruct (IH Hs) as (conv & Hin & Halone).
  destruct Hstep as [a b|sender c text|t].
  - destruct (get_or_create_conversation_spec a b s1)
      as [(id & _ & ->)|[_ ->]]; cbn [snd]; [now exists conv|].
    exists conv. split; [|exact Halone]. cbn [conversations].
    apply elem_of_app. now left.
  - rewrite send_message_eq. cbn [snd conversations].
    destruct (update_first_participants c (now s1) _ conv Hin) as (conv' & Hin' & Hp).
    exists conv'. split; [exact Hin'|]. unfold alone_in. now rewrite Hp.
  - now exists conv.
Qed.

(** A conversation in which a user is alone -- as
    [get_or_create_conversation(u, u)] makes it for a user who had none --
    empties that user's list for good: [get_user_conversations] returns
    the empty list, whatever conversations are opened and whatever is sent
    afterwards, and whoever is registered. *)
Theorem self_conversation_empties_list (u : string) (s0 s : Store)
    (db : Database) (conv : Conversation) :
  conv ∈ conversations s0 -> alone_in u conv -> later s0 s ->
  get_user_conversations ObjectId_of_text u (on_chat s db) = [].
Proof.
  intros Hin Halone Hlater.
  destruct (later_keeps_alone u s0 s Hlater) as (conv' & Hin' & Halone');
    [now exists conv|].
  unfold get_user_conversations.
  rewrite (conversation_loop_alone _ u conv'); [reflexivity| |exact Halone'].
  unfold order_by. rewrite merge_sort_Permutation.
  apply list_elem_of_filter. split; [|exact Hin'].
  apply bool_decide_pack, Halone'.
Qed.


Lemma conversation_loop_all (db : Database) (u : string) (convs : list Conversation) :
  (forall conv, conv ∈ convs ->
     exists other oid usr,
       next_other u conv = Some other
       /\ ObjectId_of_text other = Some oid
       /\ head (filter (fun x => (user__id x =? oid)%N) (users db)) = Some usr) ->
  forall result,
    exists infos,
      conversation_loop ObjectId_of_text db u convs result = Some (result ++ infos)
      /\ Forall2 (describes ObjectId_of_text u) convs infos.
Proof.
  induction convs as [|x rest IH]; intros Hgood result.
  - exists []. split; [cbn; now rewrite app_nil_r|constructor].
  - destruct (Hgood x ltac:(left)) as (other & oid & usr & Hother & Hparse & Husr).
    cbn [conversation_loop]. rewrite Hother, Hparse, Husr.
    destruct (IH (fun c Hc => Hgood c ltac:(now right))
                (result ++ [mkConversationInfo (conversation__id x) (last_activity x)
                              (message_count x)
                              (mkOtherParticipant (user__id usr) (username usr)
                                 (first_name usr) (last_name usr) (user_type usr))]))
      as (infos & Hloop & Hall).
    eexists (_ :: infos). split; [rewrite Hloop, <- app_assoc; reflexivity|].
    constructor; [|exact Hall].
    split; [reflexivity|]. split; [reflexivity|]. split; [reflexivity|].
    exists other. split; [exact Hother|]. split.
    + unfold next_other in Hother. apply head_Some_elem_of in Hother.
      apply list_elem_of_filter in Hother as [Hne _].
      intros ->. now rewrite String.eqb_refl in Hne.
    + cbn. rewrite Hparse. f_equal.
      apply head_Some_elem_of in Husr. apply list_elem_of_filter in Husr as [Hid _].
      apply Is_true_true, N.eqb_eq in Hid. now symmetry.
Qed.

Lemma describes_sorted (u : string) (convs : list Conversation)
    (infos : list ConversationInfo) :
  Forall2 (describes ObjectId_of_text u) convs infos ->
  StronglySorted active_first_rel convs ->
  StronglySorted info_active_first infos.
Proof.
  induction 1 as [|conv info convs infos Hd Hall IH]; intros Hsorted; [constructor|].
  apply StronglySorted_inv in Hsorted as [Hrest Hhead].
  constructor; [now apply IH|].
  clear IH Hrest. induction Hall as [|c i cs is_ Hci _ IHall]; [constructor|].
  apply Forall_cons in Hhead as [Hc Hcs]. constructor; [|now apply IHall].
  unfold info_active_first. destruct Hd as (_ & -> & _), Hci as (_ & -> & _).
  unfold active_first_rel, active_first in Hc.
  now apply Is_true_true, Z.leb_le in Hc.
Qed.

(** When every conversation of a user names, besides the user, a
    participant whose id text belongs to a registered user,
    [get_user_conversations] lists each of the user's conversations once,
    the most recently active first, with its message count and the other
    participant. *)
Theorem get_user_conversations_lists_all (u : string) (db : Database) :
  (forall conv, conv ∈ conversations (chat db) -> u ∈ participants conv ->
     exists other oid usr,
       next_other u conv = Some other
       /\ ObjectId_of_text other = Some oid
       /\ head (filter (fun x => (user__id x =? oid)%N) (users db)) = Some usr) ->
  exists convs,
    convs ≡ₚ filter (fun c => bool_decide (u ∈ participants c))
                    (conversations (chat db))
    /\ Forall2 (describes ObjectId_of_text u) convs
               (get_user_conversations ObjectId_of_text u db)
    /\ StronglySorted info_active_first
                      (get_user_conversations ObjectId_of_text u db).
Proof.
  intros Hgood. unfold get_user_conversations.
  set (mine := filter (fun c => bool_decide (u ∈ participants c))
                      (conversations (chat db))).
  assert (Hperm : order_by active_first mine ≡ₚ mine)
    by apply merge_sort_Permutation.
  assert (Hmine : forall conv, conv ∈ order_by active_first mine ->
     exists other oid usr,
       next_other u conv = Some other
       /\ ObjectId_of_text other = Some oid
       /\ head (filter (fun x => (user__id x =? oid)%N) (users db)) = Some usr).
  { intros conv Hin. rewrite Hperm in Hin.
    apply list_elem_of_filter in Hin as [Hu Hin].
    apply (Hgood conv Hin). now apply bool_decide_unpack in Hu. }
  destruct (conversation_loop_all db u _ Hmine []) as (infos & Hloop & Hall).
  rewrite Hloop. cbn [app]. exists (order_by active_first mine).
  split; [exact Hperm|]. split; [exact Hall|].
  apply (describes_sorted u _ _ Hall).
  apply (StronglySorted_merge_sort active_first_rel).
Qed.

End ConversationList.

Lemma self_conversation_empties_list_witness :
  MongoAccounts.get_user_conversations MongoAccounts.parse_uv "u"
    (MongoAccounts.on_chat MongoAccounts.alone_then_v_store
                           MongoAccounts.one_user_database) = []
  /\ map Mongo.participants (Mongo.conversations MongoAccounts.alone_then_v_store)
     = [["u"; "u"]; ["u"; "v"]]%string.
Proof.
  split; [|reflexivity].
  apply (self_conversation_empties_list MongoAccounts.parse_uv "u"
           MongoAccounts.alone_store MongoAccounts.alone_then_v_store
           MongoAccounts.one_user_database
           (Mongo.mkConversation 0%N ["u"; "u"]%string 100 100 0)).
  - left.
  - split; [left|]. intros p Hp. apply elem_of_cons in Hp as [->|Hp]; [reflexivity|].
    now apply list_elem_of_singleton in Hp.
  - eapply Mongo.later_step; [apply Mongo.later_now|].
    apply (Mongo.step_get_or_create _ "u" "v").
Defined.

Lemma get_user_conversations_lists_all_witness :
  let s := snd (Mongo.get_or_create_conversation "u" "v" (Mongo.empty_store 100)) in
  map MongoAccounts.conv__id
      (MongoAccounts.get_user_conversations MongoAccounts.parse_uv "u"
         (MongoAccounts.on_chat s MongoAccounts.one_user_database)) = [0%N]
  /\ exists convs,
       Forall2 (MongoAccounts.describes MongoAccounts.parse_uv "u") convs
         (MongoAccounts.get_user_conversations MongoAccounts.parse_uv "u"
            (MongoAccounts.on_chat s MongoAccounts.one_user_database)).
Proof.
  intros s. split; [reflexivity|].
  destruct (get_user_conversations_lists_all MongoAccounts.parse_uv "u"
              (MongoAccounts.on_chat s MongoAccounts.one_user_database))
    as (convs & _ & Hall & _).
  - intros conv Hin _. apply list_elem_of_singleton in Hin as ->.
    eexists _, _, _. split; [reflexivity|]. split; reflexivity.
  - now exists convs.
Defined.

(** ** Messaging users for doctors and patients *)

Section Sync.

Import Mongo MongoAccounts MongoSync.

Lemma head_filter_cases {A} (p : A -> bool) (l : list A) :
  (exists x, head (filter p l) = Some x /\ x ∈ l /\ p x = true)
  \/ (head (filter p l) = None /\ existsb p l = false).
Proof.
  destruct (head (filter p l)) as [x|] eqn:E.
  - left. exists x. split; [reflexivity|].
    apply head_Some_elem_of, list_elem_of_filter in E as [Hp Hin].
    split; [exact Hin|now apply Is_true_true].
  - right. split; [reflexivity|]. apply head_None in E.
    apply not_true_is_false. intros Hex. apply existsb_exists in Hex as (x & Hx & Hp).
    assert (Hin : x ∈ filter p l).
    { apply list_elem_of_filter. split; [now apply Is_true_true|now apply list_elem_of_In]. }
    rewrite E in Hin. now apply elem_of_nil in Hin.
Qed.

(** What [ensure_mongo_user] does, case by case. *)
Lemma ensure_mongo_user_cases (kind : string) (id_ : Z) (db : Database) :
  (exists usr,
     (forall fn ln,
        ensure_mongo_user kind id_ fn ln db = (Ok (Some (user__id usr)), db))
     /\ usr ∈ users db /\ stands_for kind id_ usr)
  \/ (existsb (fun u => String.eqb (username u) (kind ++ "." ++ pretty id_)%string)
              (users db) = false
      /\ existsb (fun u => bool_decide (user_id u = Some id_)
                           && String.eqb (user_type u) kind) (users db) = false
      /\ forall fn ln,
           exists db1,
             ensure_mongo_user kind id_ fn ln db
             = (Ok (Some (next_ObjectId (chat db))), db1)
             /\ users db1
                = (users db
                   ++ [mkUser (next_ObjectId (chat db))
                              (kind ++ "." ++ pretty id_)%string [] kind
                              fn ln (Some id_) (now (chat db)) true])%list
             /\ user_sessions db1 = user_sessions db).
Proof.
  destruct (head_filter_cases
              (fun u => String.eqb (username u) (kind ++ "." ++ pretty id_)%string)
              (users db))
    as [(usr & H1 & Hin & Hp)|[H1 Hname]].
  { left. exists usr. split; [|split; [exact Hin|left; now apply String.eqb_eq]].
    intros fn ln. unfold ensure_mongo_user, try_except, bind at 1, find_one_user at 1.
    cbv zeta. now rewrite H1. }
  destruct (head_filter_cases (fun u => bool_decide (user_id u = Some id_)
                                        && String.eqb (user_type u) kind) (users db))
    as [(usr & H2 & Hin & Hp)|[H2 Hid]].
  { left. exists usr. split; [|split; [exact Hin|]].
    - intros fn ln. unfold ensure_mongo_user, try_except, bind at 1, find_one_user at 1.
      cbv zeta. rewrite H1. unfold bind at 1, find_one_user at 1. now rewrite H2.
    - right. apply andb_true_iff in Hp as [Hi Ht].
      split; [now apply bool_decide_eq_true in Hi|now apply String.eqb_eq]. }
  right. split; [exact Hname|]. split; [exact Hid|]. intros fn ln.
  unfold ensure_mongo_user, try_except, bind at 1, find_one_user at 1.
  cbv zeta. rewrite H1. unfold bind at 1, find_one_user at 1. rewrite H2.
  unfold bind, utcnow, update_one_upsert. rewrite Hname.
  cbn. eexists. split; [reflexivity|]. split; reflexivity.
Qed.

(** [ensure_mongo_user_for_doctor] and [ensure_mongo_user_for_patient]
    return the id of a user that stands for the doctor or the patient,
    creating at most one; called again -- with whatever names -- they
    return the same id and change nothing. *)
Theorem ensure_mongo_user_idempotent (id_ : Z)
    (first_name_ last_name_ first_name' last_name' : string) (db : Database) :
  (exists uid db1 usr,
     ensure_mongo_user_for_doctor id_ first_name_ last_name_ db = (Ok (Some uid), db1)
     /\ ensure_mongo_user_for_doctor id_ first_name' last_name' db1
        = (Ok (Some uid), db1)
     /\ usr ∈ users db1 /\ user__id usr = uid /\ stands_for "doctor" id_ usr
     /\ (length (users db1) <= S (length (users db)))%nat)
  /\ (exists uid db1 usr,
        ensure_mongo_user_for_patient id_ first_name_ last_name_ db
        = (Ok (Some uid), db1)
        /\ ensure_mongo_user_for_patient id_ first_name' last_name' db1
           = (Ok (Some uid), db1)
        /\ usr ∈ users db1 /\ user__id usr = uid /\ stands_for "patient" id_ usr
        /\ (length (users db1) <= S (length (users db)))%nat).
Proof.
  assert (Hkind : forall kind,
    exists uid db1 usr,
      ensure_mongo_user kind id_ first_name_ last_name_ db = (Ok (Some uid), db1)
      /\ ensure_mongo_user kind id_ first_name' last_name' db1 = (Ok (Some uid), db1)
      /\ usr ∈ users db1 /\ user__id usr = uid /\ stands_for kind id_ usr
      /\ (length (users db1) <= S (length (users db)))%nat).
  { intros kind.
    destruct (ensure_mongo_user_cases kind id_ db)
      as [(usr & Hrun & Hin & Hfor)|(Hname & Hid & Hrun)].
    - exists (user__id usr), db, usr. split; [apply Hrun|]. split; [apply Hrun|].
      split; [exact Hin|]. split; [reflexivity|]. split; [exact Hfor|lia].
    - destruct (Hrun first_name_ last_name_) as (db1 & Hrun1 & Husers & _).
      set (new := mkUser _ _ _ _ _ _ _ _ _) in Husers.
      exists (next_ObjectId (chat db)), db1, new. split; [exact Hrun1|].
      split; [|split; [|split; [reflexivity|split]]].
      + unfold ensure_mongo_user, try_except. cbv zeta.
        rewrite (bind_ok _ _ _ _ _
                   (find_one_user_last _ db1 new (users db) Husers Hname
                      (String.eqb_refl _))).
        reflexivity.
      + rewrite Husers. apply elem_of_app. right. left.
      + left. reflexivity.
      + rewrite Husers, length_app. cbn. lia. }
  split; apply Hkind.
Qed.

(** A user made by [ensure_mongo_user_for_doctor] or
    [ensure_mongo_user_for_patient] has the empty byte string as password
    hash: as long as bcrypt accepts no password for it, [authenticate_user]
    with the user's name returns None for every password and opens no
    session. *)
Theorem synced_user_cannot_log_in
    (checkpw : list Byte.byte -> list Byte.byte -> option bool)
    (id_ : Z) (first_name_ last_name_ password : string)
    (db db1 : Database) (uid : ObjectId) :
  (forall p, checkpw p [] <> Some true) ->
  (forall usr, usr ∈ users db -> ~ stands_for "doctor" id_ usr) ->
  ensure_mongo_user_for_doctor id_ first_name_ last_name_ db = (Ok (Some uid), db1) ->
  authenticate_user checkpw ("doctor." ++ pretty id_) password db1 = (Ok None, db1).
Proof.
  intros Hbcrypt Hnew Hrun. unfold ensure_mongo_user_for_doctor in Hrun.
  destruct (ensure_mongo_user_cases "doctor" id_ db)
    as [(usr & _ & Hin & Hfor)|(Hname & _ & Hcreate)].
  { exfalso. exact (Hnew usr Hin Hfor). }
  destruct (Hcreate first_name_ last_name_) as (db1' & Hrun' & Husers & _).
  rewrite Hrun in Hrun'. injection Hrun' as _ <-.
  set (new := mkUser _ _ _ _ _ _ _ _ _) in Husers.
  unfold authenticate_user, try_except.
  assert (Hfind : find_one_user
                    (fun u => String.eqb (username u) ("doctor." ++ pretty id_)
                              && user_is_active u) db1
                  = (Ok (Some new), db1)).
  { apply (find_one_user_last _ db1 new (users db) Husers).
    - apply not_true_is_false. intros Hex.
      apply existsb_exists in Hex as (u & Hu & Hm).
      apply andb_true_iff in Hm as [Hm _].
      assert (Hin : existsb (fun u => String.eqb (username u)
                                        ("doctor" ++ "." ++ pretty id_)) (users db)
                    = true) by (apply existsb_exists; now exists u).
      congruence.
    - cbn. now rewrite String.eqb_refl. }
  rewrite (bind_ok _ _ _ _ _ Hfind). unfold bind, bcrypt_checkpw.
  cbn [password_hash new].
  destruct (checkpw (encode_utf8 password) []) as [[|]|] eqn:E; try reflexivity.
  exfalso. exact (Hbcrypt _ E).
Qed.

Lemma synced_user_cannot_log_in_witness :
  let checkpw := fun (p h : list Byte.byte) =>
                   match h with [] => None | _ => Some false end in
  exists uid db1,
    MongoSync.ensure_mongo_user_for_doctor 3 "Anna" "Johnson"
      (MongoAccounts.empty_database 100) = (Ok (Some uid), db1)
    /\ map MongoAccounts.username (MongoAccounts.users db1) = ["doctor.3"]%string
    /\ MongoAccounts.authenticate_user checkpw "doctor.3" "doctor123" db1
       = (Ok None, db1).
Proof.
  intros checkpw.
  eexists _, _. split; [reflexivity|]. split; [reflexivity|].
  apply (synced_user_cannot_log_in checkpw 3 "Anna" "Johnson" "doctor123"
           (MongoAccounts.empty_database 100) _ 0%N).
  - intros p. discriminate.
  - intros usr Hin. now apply elem_of_nil in Hin.
  - reflexivity.
Defined.

End Sync.

(** ** Files kept as MedicalFile nodes (Neo4j) *)

Section GraphFiles.

Import Neo4j Neo4jFiles.
Local Open Scope string_scope.

Lemma next_id_files (label : string) (g : Graph) :
  exists id g1,
    _next_id label g = (Ok id, g1)
    /\ files g1 = files g /\ HAS_FILE g1 = HAS_FILE g.
Proof.
  unfold _next_id.
  destruct (map _ (counters g)) as [|[id ?] ?];
    eexists _, _; (split; [reflexivity|]); split; reflexivity.
Qed.

Lemma head_filter_only {A} (p : A -> bool) (l : list A) (a : A) :
  (forall x, x ∈ l -> p x = true -> x = a) ->
  a ∈ l -> p a = true -> head (filter p l) = Some a.
Proof.
  intros Honly Hin Hp.
  destruct (head_filter_cases p l) as [(x & -> & Hx & Hpx)|[_ Hnone]].
  - f_equal. now apply Honly.
  - exfalso. assert (Hex : existsb p l = true).
    { apply existsb_exists. exists a. split; [now apply list_elem_of_In|exact Hp]. }
    congruence.
Qed.

Lemma retrieve_file_eq_neo4j (fid : Z) (w : World) :
  retrieve_file fid w
  = (Ok (match head (filter (fun mf => file_id mf =? fid)%Z (files (graph w))) with
         | None => None
         | Some mf =>
             Some (mkFileDict mf
                     (head (filter (fun oid => bool_decide ((oid, fid)
                                                            ∈ HAS_FILE (graph w)))
                                   (observation_nodes w))))
         end), w).
Proof.
  unfold retrieve_file, try_except, bind, run_match_file, run_match_observation, ret.
  now destruct (head _).
Qed.

(** Upload and download on the graph: a file stored by [store_file] is
    returned by [retrieve_file] under the id [store_file] gave, with the
    bytes read, the basename of the path, the size, the description and
    the time of the upload.  It is linked to the observation named if
    that observation exists; if it does not, the file is stored all the
    same, without a link, and the id is returned. *)
Theorem neo4j_store_then_retrieve (env : MySQL.Env) (file_path : string)
    (observation_id : option Z) (description_ : option string) (w : World)
    (data : list Byte.byte) (v : Z) :
  MySQL.read_file env file_path = Some data ->
  stored_value (graph w) "MedicalFile" = Some v ->
  has_file_node (graph w) v = false ->
  (forall oid, (oid, v) ∉ HAS_FILE (graph w)) ->
  exists w' mf,
    store_file env file_path observation_id description_ w = (Ok (Some v), w')
    /\ retrieve_file v w'
       = (Ok (Some (mkFileDict mf
                      match observation_id with
                      | Some oid => if has_observation_node w oid
                                    then Some oid else None
                      | None => None
                      end)), w')
    /\ file_id mf = v
    /\ file_data mf = data
    /\ filename mf = Text.basename file_path
    /\ file_size mf = Z.of_nat (length data)
    /\ description mf = description_
    /\ upload_date mf = now_isoformat w
    /\ stored_value (graph w') "MedicalFile" = Some (v + 1)%Z.
Proof.
  intros Hread Hctr Hfresh Hnolink.
  destruct (next_id_step "MedicalFile" (graph w) v Hctr) as (g1 & Hnext & Hctr1).
  destruct (next_id_files "MedicalFile" (graph w)) as (id & g1' & Hnext' & Hfiles & Hlinks).
  rewrite Hnext in Hnext'. injection Hnext' as <- <-.
  set (ftype := match MySQL.guess_type env file_path with
                | Some t => if Text.truthy t then t
                            else Text.lower (Text.splitext_ext (Text.basename file_path))
                | None => Text.lower (Text.splitext_ext (Text.basename file_path))
                end).
  set (mf := mkMedicalFile v (Text.basename file_path) ftype
                           (Z.of_nat (length data)) data (now_isoformat w)
                           description_).
  set (w1 := mkWorld g1 (observation_nodes w) (now_isoformat w)).
  set (w2 := mkWorld (with_files g1 (files g1 ++ [mf]) (HAS_FILE g1))
                     (observation_nodes w) (now_isoformat w)).
  assert (Hcreate : run_create_file mf w1 = (Ok tt, w2)).
  { unfold run_create_file, has_file_node. cbn [graph w1 file_id mf].
    unfold has_file_node in Hfresh. rewrite <- Hfiles in Hfresh. now rewrite Hfresh. }
  assert (Hhas : has_file_node (graph w2) v = true).
  { unfold has_file_node, w2. cbn [graph with_files files].
    rewrite existsb_app. cbn. now rewrite Z.eqb_refl, orb_true_r. }
  set (linked := match observation_id with
                 | Some oid => has_observation_node w oid
                 | None => false
                 end).
  set (w3 := if linked
             then mkWorld (with_files g1 (files g1 ++ [mf])
                             (HAS_FILE g1
                              ++ [(default 0%Z observation_id, v)])%list)
                          (observation_nodes w) (now_isoformat w)
             else w2).
  assert (Hmerge : match observation_id with
                   | Some oid => run_merge_has_file oid v
                   | None => ret tt
                   end w2 = (Ok tt, w3)).
  { unfold w3, linked. destruct observation_id as [oid|]; [|reflexivity].
    unfold run_merge_has_file. rewrite Hhas.
    change (has_observation_node w2 oid) with (has_observation_node w oid).
    destruct (has_observation_node w oid); [|reflexivity]. cbn [andb].
    rewrite bool_decide_false; [reflexivity|].
    unfold w2. cbn [graph with_files HAS_FILE]. rewrite Hlinks. apply Hnolink. }
  assert (Hstore : store_file env file_path observation_id description_ w
                   = (Ok (Some v), w3)).
  { unfold store_file, try_except, bind at 1, open_rb. rewrite Hread. cbn [ret].
    unfold bind at 1, on_graph. rewrite Hnext.
    unfold bind at 1, isoformat_now. cbn [now_isoformat].
    fold ftype. fold mf. fold w1. rewrite (bind_ok _ _ _ _ _ Hcreate).
    now rewrite (bind_ok _ _ _ _ _ Hmerge). }
  assert (Hfiles3 : files (graph w3) = (files (graph w) ++ [mf])%list).
  { unfold w3. destruct linked; cbn [graph w2 with_files files]; now rewrite Hfiles. }
  assert (Hctr3 : stored_value (graph w3) "MedicalFile" = Some (v + 1)%Z).
  { unfold w3. destruct linked; exact Hctr1. }
  exists w3, mf. split; [exact Hstore|].
  split; [|repeat split; try reflexivity; exact Hctr3].
  rewrite retrieve_file_eq_neo4j, Hfiles3, filter_app.
  rewrite (filter_none _ _ Hfresh). cbn [app]. rewrite filter_cons_bool.
  cbn [file_id mf]. rewrite Z.eqb_refl. cbn [head].
  assert (Hobserved :
    head (filter (fun oid => bool_decide ((oid, v) ∈ HAS_FILE (graph w3)))
                 (observation_nodes w3))
    = match observation_id with
      | Some oid => if has_observation_node w oid then Some oid else None
      | None => None
      end); [|now rewrite Hobserved].
  unfold w3, linked. destruct observation_id as [oid|].
  - destruct (has_observation_node w oid) eqn:Hobs.
    + cbn [graph with_files HAS_FILE observation_nodes default].
      apply head_filter_only.
      * intros x _ Hx. apply bool_decide_eq_true in Hx.
        apply elem_of_app in Hx as [Hx|Hx].
        { rewrite Hlinks in Hx. now apply Hnolink in Hx. }
        apply list_elem_of_singleton in Hx. injection Hx as Hx. exact Hx.
      * unfold has_observation_node in Hobs. apply existsb_exists in Hobs as (x & Hx & E).
        apply Z.eqb_eq in E. subst x. now apply list_elem_of_In.
      * apply bool_decide_eq_true. apply elem_of_app. right. left.
    + cbn [graph w2 with_files HAS_FILE observation_nodes].
      rewrite filter_none; [reflexivity|]. apply not_true_is_false. intros Hex.
      apply existsb_exists in Hex as (x & _ & Hx). apply bool_decide_eq_true in Hx.
      rewrite Hlinks in Hx. now apply Hnolink in Hx.
  - cbn [graph w2 with_files HAS_FILE observation_nodes].
    rewrite filter_none; [reflexivity|]. apply not_true_is_false. intros Hex.
    apply existsb_exists in Hex as (x & _ & Hx). apply bool_decide_eq_true in Hx.
    rewrite Hlinks in Hx. now apply Hnolink in Hx.
Qed.

Lemma neo4j_store_then_retrieve_witness :
  exists w' mf,
    store_file MySQL.one_file_env "/home/user/images/xray.jpg" (Some 99%Z) None
               one_observation_world = (Ok (Some 1%Z), w')
    /\ retrieve_file 1 w' = (Ok (Some (mkFileDict mf None)), w')
    /\ filename mf = "xray.jpg"
    /\ file_data mf = [Byte.xff; Byte.xd8; Byte.xff].
Proof.
  destruct (neo4j_store_then_retrieve MySQL.one_file_env
              "/home/user/images/xray.jpg" (Some 99%Z) None one_observation_world
              [Byte.xff; Byte.xd8; Byte.xff] 1%Z)
    as (w' & mf & Hstore & Hget & _ & Hdata & Hname & _).
  - reflexivity.
  - reflexivity.
  - reflexivity.
  - intros oid Hin. now apply elem_of_nil in Hin.
  - exists w', mf. split; [exact Hstore|]. split; [exact Hget|].
    split; [exact Hname|exact Hdata].
Defined.

(** [delete_file] on the graph says whether a MedicalFile node had the
    id.  Afterwards [retrieve_file] of the id finds nothing, no
    observation is linked to the id any more, and every other file is
    retrieved as before, with the observation it is linked to. *)
Theorem neo4j_delete_file (fid : Z) (w : World) :
  exists w',
    delete_file fid w = (Ok (has_file_node (graph w) fid), w')
    /\ retrieve_file fid w' = (Ok None, w')
    /\ (forall oid, (oid, fid) ∉ HAS_FILE (graph w'))
    /\ (forall other, other <> fid ->
          fst (retrieve_file other w') = fst (retrieve_file other w))
    /\ (has_file_node (graph w) fid = false -> files (graph w') = files (graph w)).
Proof.
  eexists. split; [|split; [|split; [|split]]].
  - unfold delete_file, try_except, bind, run_detach_delete, ret.
    destruct (has_file_node (graph w) fid); reflexivity.
  - rewrite retrieve_file_eq_neo4j. cbn [graph with_files files].
    now rewrite (filter_filter_out file_id fid).
  - intros oid Hin. cbn [graph with_files HAS_FILE] in Hin.
    apply list_elem_of_filter in Hin as [Hkeep _]. cbn [snd] in Hkeep.
    rewrite Z.eqb_refl in Hkeep. exact Hkeep.
  - intros other Hother. rewrite !retrieve_file_eq_neo4j. cbn [fst graph with_files
      files HAS_FILE observation_nodes].
    rewrite (filter_filter_other file_id fid other _ Hother).
    destruct (head (filter _ (files (graph w)))) as [mf|]; [|reflexivity].
    assert (Hsame :
      filter (fun oid => bool_decide
                ((oid, other) ∈ filter (fun link => negb (snd link =? fid)%Z)
                                       (HAS_FILE (graph w))))
             (observation_nodes w)
      = filter (fun oid => bool_decide ((oid, other) ∈ HAS_FILE (graph w)))
               (observation_nodes w)); [|now rewrite Hsame].
    apply list_filter_iff. intros oid.
    rewrite !bool_decide_spec. split.
    + intros Hin. now apply list_elem_of_filter in Hin as [_ Hin].
    + intros Hin. apply list_elem_of_filter. split; [|exact Hin].
      cbn [snd]. apply Is_true_true, negb_true_iff, Z.eqb_neq. exact Hother.
  - intros Hnone. cbn [graph with_files files]. unfold has_file_node in Hnone.
    induction (files (graph w)) as [|x l IH]; [reflexivity|].
    cbn [existsb] in Hnone. apply orb_false_elim in Hnone as [Hx Hl].
    rewrite filter_cons_bool, Hx. cbn [negb]. now rewrite IH.
Qed.

Lemma neo4j_delete_file_witness :
  let w := mkWorld two_files_graph [7%Z] "2024-03-01T09:30:00" in
  exists w',
    delete_file 1 w = (Ok true, w')
    /\ retrieve_file 1 w' = (Ok None, w')
    /\ fst (retrieve_file 2 w') = fst (retrieve_file 2 w)
    /\ map file_id (files (graph w')) = [2%Z].
Proof.
  intros w.
  destruct (neo4j_delete_file 1 w) as (w' & Hrun & Hgone & _ & Hother & _).
  exists w'. split; [exact Hrun|]. split; [exact Hgone|].
  split; [apply Hother; discriminate|].
  injection Hrun as <-. reflexivity.
Defined.

End GraphFiles.
